(** * DataTradeCentre: crawl, normalise, deduplicate, checkpoint, classify

    A shallow embedding of the parts of the per-site scraping scripts that
    the specification talks about, followed by the properties settled on
    them.  Each [Module] below embeds one script and is named after it. *)

From Stdlib Require Import ZArith List String Ascii Lia Bool.
From Stdlib Require Import DecimalString SpecFloat.
From stdpp Require Import gmap strings list sorting.

Set Warnings "-register-all".
Local Open Scope Z_scope.
Local Open Scope string_scope.

(** ** Python values and the library functions the scripts call *)

Module Py.

(** Python floats are IEEE-754 binary64 values. *)
Definition pyfloat := spec_float.
Definition prec : Z := 53.
Definition emax : Z := 1024.
Definition float_of_Z (z : Z) : pyfloat := binary_normalize prec emax z 0 false.
Definition f_zero : pyfloat := S754_zero false.
Definition f_one : pyfloat := Eval vm_compute in float_of_Z 1.

(** A decoded JSON document.  Objects keep their insertion order, as a
    Python [dict] does: [json.dumps] and iteration follow it. *)
Inductive json :=
| JNull
| JBool (b : bool)
| JInt (z : Z)
| JFloat (f : pyfloat)
| JStr (s : string)
| JArr (xs : list json)
| JObj (kvs : list (string * json)).

(** The pieces of CPython that are taken as given: how a finite float
    and a container print under [str], and how [float] reads a string. *)
Class Lib := {
  float_repr : pyfloat -> string;
  container_str : json -> string;
  float_of_str : string -> option pyfloat }.

(** Exceptions, by class. *)
Inductive exn :=
| RuntimeError (msg : string)
| ValueError (msg : string)
| TypeError
| AttributeError
| OverflowError
| OSError
| JSONDecodeError
| HTTPError (status : Z)
| ApiError (msg : string).

Inductive result (A : Type) :=
| Ok (a : A)
| Raise (e : exn).
Arguments Ok {A} a.
Arguments Raise {A} e.

Definition bind {A B} (r : result A) (k : A -> result B) : result B :=
  match r with Ok a => k a | Raise e => Raise e end.

(** [d.get(k)] on a dict held as an association list. *)
Fixpoint assoc (k : string) (kvs : list (string * json)) : option json :=
  match kvs with
  | [] => None
  | (k', v) :: rest => if String.eqb k k' then Some v else assoc k rest
  end.

(** [d[k] = v]: an existing key keeps its position, a new one goes last. *)
Fixpoint assoc_set (k : string) (v : json) (kvs : list (string * json))
  : list (string * json) :=
  match kvs with
  | [] => [(k, v)]
  | (k', v') :: rest =>
      if String.eqb k k' then (k, v) :: rest else (k', v') :: assoc_set k v rest
  end.

(** [x.get(k)] where [x] must be a dict; [None] is Python's [None]. *)
Definition get (x : json) (k : string) : result json :=
  match x with
  | JObj kvs => Ok (default JNull (assoc k kvs))
  | _ => Raise AttributeError
  end.

Definition get_default (x : json) (k : string) (d : json) : result json :=
  match x with
  | JObj kvs => Ok (default d (assoc k kvs))
  | _ => Raise AttributeError
  end.

(** Truth value of an object. *)
Definition truthy (v : json) : bool :=
  match v with
  | JNull => false
  | JBool b => b
  | JInt z => negb (z =? 0)%Z
  | JFloat f => negb (SFeqb f f_zero)
  | JStr s => negb (String.eqb s EmptyString)
  | JArr xs => negb (Nat.eqb (List.length xs) 0)
  | JObj kvs => negb (Nat.eqb (List.length kvs) 0)
  end.

(** [a or b]. *)
Definition or_else (a b : json) : json := if truthy a then a else b.

Definition is_dict (v : json) : bool :=
  match v with JObj _ => true | _ => false end.
Definition is_list (v : json) : bool :=
  match v with JArr _ => true | _ => false end.

Definition str_of_Z (z : Z) : string := NilZero.string_of_int (Z.to_int z).

(** [str(type(x))]. *)
Definition type_repr (v : json) : string :=
  match v with
  | JNull => "<class 'NoneType'>"
  | JBool _ => "<class 'bool'>"
  | JInt _ => "<class 'int'>"
  | JFloat _ => "<class 'float'>"
  | JStr _ => "<class 'str'>"
  | JArr _ => "<class 'list'>"
  | JObj _ => "<class 'dict'>"
  end.

(** [str(x)]. *)
Definition py_str `{Lib} (v : json) : string :=
  match v with
  | JNull => "None"
  | JBool true => "True"
  | JBool false => "False"
  | JInt z => str_of_Z z
  | JFloat S754_nan => "nan"
  | JFloat (S754_infinity false) => "inf"
  | JFloat (S754_infinity true) => "-inf"
  | JFloat f => float_repr f
  | JStr s => s
  | JArr _ | JObj _ => container_str v
  end.

Definition same_float (f g : pyfloat) : bool :=
  match f, g with
  | S754_zero s, S754_zero s' => Bool.eqb s s'
  | S754_infinity s, S754_infinity s' => Bool.eqb s s'
  | S754_nan, S754_nan => true
  | S754_finite s m e, S754_finite s' m' e' =>
      Bool.eqb s s' && (m =? m')%positive && (e =? e')%Z
  | _, _ => false
  end.

(** Two documents that hold the same values, objects being compared as
    mappings: the same keys with the same values, in any order. *)
Fixpoint same_mapping (a b : json) : bool :=
  match a, b with
  | JNull, JNull => true
  | JBool x, JBool y => Bool.eqb x y
  | JInt x, JInt y => (x =? y)%Z
  | JFloat x, JFloat y => same_float x y
  | JStr x, JStr y => String.eqb x y
  | JArr xs, JArr ys =>
      (fix each (xs ys : list json) : bool :=
         match xs, ys with
         | [], [] => true
         | x :: xs', y :: ys' => same_mapping x y && each xs' ys'
         | _, _ => false
         end) xs ys
  | JObj kvs, JObj kvs' =>
      Nat.eqb (List.length kvs) (List.length kvs') &&
      forallb (fun kv =>
                 match assoc (fst kv) kvs' with
                 | Some v' => same_mapping (snd kv) v'
                 | None => false
                 end) kvs
  | _, _ => false
  end.

(** *** Strings.  A [str] is held as its UTF-8 bytes; whitespace and
    letter case are decided on the ASCII range, slices count code points. *)

Definition is_space (c : ascii) : bool :=
  let n := N_of_ascii c in
  ((9 <=? n) && (n <=? 13) || (28 <=? n) && (n <=? 32))%N.

Fixpoint lstrip (s : string) : string :=
  match s with
  | String c rest => if is_space c then lstrip rest else s
  | EmptyString => EmptyString
  end.

Fixpoint rstrip (s : string) : string :=
  match s with
  | String c rest =>
      match rstrip rest with
      | EmptyString => if is_space c then EmptyString else String c EmptyString
      | r => String c r
      end
  | EmptyString => EmptyString
  end.

(** [s.strip()]. *)
Definition strip (s : string) : string := rstrip (lstrip s).

Definition lower_char (c : ascii) : ascii :=
  let n := N_of_ascii c in
  if ((65 <=? n) && (n <=? 90))%N then ascii_of_N (n + 32) else c.

(** [s.lower()]. *)
Fixpoint lower (s : string) : string :=
  match s with
  | String c rest => String (lower_char c) (lower rest)
  | EmptyString => EmptyString
  end.

(** [needle in hay]. *)
Fixpoint contains (needle hay : string) : bool :=
  String.prefix needle hay ||
  match hay with
  | String _ rest => contains needle rest
  | EmptyString => false
  end.

Definition is_continuation (c : ascii) : bool :=
  let n := N_of_ascii c in ((128 <=? n) && (n <? 192))%N.

(** [s[:n]]: the bytes of the first [n] code points.  A byte that
    continues a code point stays with the one that opened it. *)
Fixpoint take_chars (n : nat) (s : string) : string :=
  match s with
  | EmptyString => EmptyString
  | String c rest =>
      if is_continuation c then String c (take_chars n rest)
      else
        match n with
        | O => EmptyString
        | S n' => String c (take_chars n' rest)
        end
  end.

(** [sep.join(parts)]. *)
Definition join (sep : string) (parts : list string) : string :=
  String.concat sep parts.

(** *** Numbers *)

Definition digit_val (c : ascii) : option Z :=
  let n := N_of_ascii c in
  if ((48 <=? n) && (n <=? 57))%N then Some (Z.of_N n - 48) else None.

(** Decimal digits, the ASCII ones, with single underscores allowed
    between digits. *)
Fixpoint digits_val (acc : Z) (after_digit : bool) (s : string) : option Z :=
  match s with
  | EmptyString => if after_digit then Some acc else None
  | String c rest =>
      match digit_val c with
      | Some d => digits_val (acc * 10 + d) true rest
      | None =>
          if Ascii.eqb c "_" && after_digit then digits_val acc false rest else None
      end
  end.

(** [int(s)] for a string, base 10. *)
Definition int_of_str (s : string) : option Z :=
  match strip s with
  | String "-" rest => Z.opp <$> digits_val 0 false rest
  | String "+" rest => digits_val 0 false rest
  | t => digits_val 0 false t
  end.

(** [int(f)]: truncation towards zero. *)
Definition trunc_float (f : pyfloat) : result Z :=
  match f with
  | S754_zero _ => Ok 0
  | S754_finite s m e =>
      let a := if (0 <=? e)%Z then Z.pos m * 2 ^ e else Z.pos m / 2 ^ (- e) in
      Ok (if s then - a else a)
  | S754_infinity _ => Raise OverflowError
  | S754_nan => Raise (ValueError "cannot convert float NaN to integer")
  end.

(** [int(x)]. *)
Definition py_int (v : json) : result Z :=
  match v with
  | JInt z => Ok z
  | JBool b => Ok (if b then 1 else 0)
  | JFloat f => trunc_float f
  | JStr s =>
      match int_of_str s with
      | Some z => Ok z
      | None => Raise (ValueError "invalid literal for int() with base 10")
      end
  | JNull | JArr _ | JObj _ => Raise TypeError
  end.

(** [float(x)]. *)
Definition py_float `{Lib} (v : json) : result pyfloat :=
  match v with
  | JFloat f => Ok f
  | JInt z =>
      match float_of_Z z with
      | S754_infinity _ => Raise OverflowError
      | f => Ok f
      end
  | JBool b => Ok (if b then f_one else f_zero)
  | JStr s =>
      match float_of_str s with
      | Some f => Ok f
      | None => Raise (ValueError "could not convert string to float")
      end
  | JNull | JArr _ | JObj _ => Raise TypeError
  end.

(** [isinstance(x, int)]: [bool] is a subclass of [int]. *)
Definition as_int (v : json) : option Z :=
  match v with
  | JInt z => Some z
  | JBool b => Some (if b then 1 else 0)
  | _ => None
  end.

(** [min(a, b)] and [max(a, b)] on floats, as the builtins compare. *)
Definition py_min (a b : pyfloat) : pyfloat := if SFltb b a then b else a.
Definition py_max (a b : pyfloat) : pyfloat := if SFltb a b then b else a.

(** *** [json.dumps] with [ensure_ascii=False] *)

Definition hex_digit (n : N) : ascii :=
  if (n <? 10)%N then ascii_of_N (48 + n) else ascii_of_N (87 + n).

Definition nl : string := String (ascii_of_N 10) EmptyString.

Definition escape_char (c : ascii) : string :=
  let n := N_of_ascii c in
  if (n =? 34)%N then "\" ++ String c EmptyString
  else if (n =? 92)%N then "\\"
  else if (n =? 10)%N then "\n"
  else if (n =? 13)%N then "\r"
  else if (n =? 9)%N then "\t"
  else if (n =? 8)%N then "\b"
  else if (n =? 12)%N then "\f"
  else if (n <? 32)%N then
    "\u00" ++ String (hex_digit (n / 16)) (String (hex_digit (n mod 16)) EmptyString)
  else String c EmptyString.

Fixpoint escape (s : string) : string :=
  match s with
  | String c rest => escape_char c ++ escape rest
  | EmptyString => EmptyString
  end.

Definition quote (s : string) : string :=
  String (ascii_of_N 34) (escape s) ++ String (ascii_of_N 34) EmptyString.

Fixpoint spaces (n : nat) : string :=
  match n with O => EmptyString | S n' => String " " (spaces n') end.

Section Encode.
Context `{Lib}.

Definition float_json (f : pyfloat) : string :=
  match f with
  | S754_nan => "NaN"
  | S754_infinity false => "Infinity"
  | S754_infinity true => "-Infinity"
  | _ => float_repr f
  end.

(** The line break that precedes an item at nesting depth [lvl]. *)
Definition brk (indent : option nat) (lvl : nat) : string :=
  match indent with
  | Some w => nl ++ spaces (w * lvl)
  | None => EmptyString
  end.

Definition item_sep (indent : option nat) (lvl : nat) : string :=
  match indent with
  | Some _ => "," ++ brk indent lvl
  | None => ", "
  end.

Fixpoint encode (indent : option nat) (lvl : nat) (v : json) : string :=
  match v with
  | JNull => "null"
  | JBool true => "true"
  | JBool false => "false"
  | JInt z => str_of_Z z
  | JFloat f => float_json f
  | JStr s => quote s
  | JArr [] => "[]"
  | JArr xs =>
      "[" ++ brk indent (S lvl)
          ++ join (item_sep indent (S lvl)) (List.map (encode indent (S lvl)) xs)
          ++ brk indent lvl ++ "]"
  | JObj [] => "{}"
  | JObj kvs =>
      "{" ++ brk indent (S lvl)
          ++ join (item_sep indent (S lvl))
               (List.map (fun kv => quote (fst kv) ++ ": " ++ encode indent (S lvl) (snd kv)) kvs)
          ++ brk indent lvl ++ "}"
  end.

(** [json.dumps(v, ensure_ascii=False)]. *)
Definition dumps (v : json) : string := encode None 0 v.

(** [json.dumps(v, ensure_ascii=False, indent=2)]. *)
Definition dumps_indent2 (v : json) : string := encode (Some 2%nat) 0 v.
End Encode.

End Py.

(** ** Files on disk and what a crash can leave behind *)

Module Fs.

(** The disk maps a path to the text stored under it. *)
Definition disk := gmap string string.

(** The writes a script issues.  A text is appended byte by byte: every
    intermediate state that buffering can flush is among the states
    reached after a prefix of these operations. *)
Inductive op :=
| Truncate (path : string)              (* open(path, "w") *)
| Append (path : string) (c : ascii)    (* f.write(...) reaching the file *)
| Replace (src dst : string).           (* os.replace(src, dst): one step *)

Definition step (d : disk) (o : op) : disk :=
  match o with
  | Truncate p => <[p := EmptyString]> d
  | Append p c =>
      match d !! p with
      | Some s => <[p := s ++ String c EmptyString]> d
      | None => d
      end
  | Replace src dst =>
      match d !! src with
      | Some s => <[dst := s]> (delete src d)
      | None => d
      end
  end.

Definition run (ops : list op) (d : disk) : disk := fold_left step ops d.

(** [with open(path, "w") as f: f.write(doc)]. *)
Definition write_text (path doc : string) : list op :=
  Truncate path :: List.map (Append path) (list_ascii_of_string doc).

(** Whether an operation writes under [p] only. *)
Definition writes_only (p : string) (o : op) : Prop :=
  match o with
  | Truncate q | Append q _ => q = p
  | Replace _ _ => False
  end.

(** The disk found after a crash that lets only the first [k] writes through. *)
Definition crash_after (k : nat) (ops : list op) (d : disk) : disk :=
  run (take k ops) d.

(** What [os.path.exists], [open] and [json.load] make of a path: the
    text of a readable file comes with the document [json.load] decodes
    from it, [None] when decoding raises. *)
Inductive file :=
| Absent
| Unreadable
| Content (text : string) (decoded : option Py.json).

End Fs.

(** ** HTTP exchanges *)

Module Http.
Import Py.

(** A [requests.Response] as the scripts read it: [body] is what
    [resp.json()] returns, [None] when it raises. *)
Record response := {
  status_code : Z;
  content_type : option string;
  text : string;
  body : option json }.

(** What the [n]-th request of a crawl, for a page number and a page size,
    comes back with: a response, or the exception the session raises. *)
Definition server := nat -> Z -> Z -> result response.

(** [resp.raise_for_status()]. *)
Definition raise_for_status (resp : response) : result unit :=
  if ((400 <=? status_code resp) && (status_code resp <? 600))%Z
  then Raise (HTTPError (status_code resp)) else Ok tt.

End Http.

(** ** Writing rows with [csv.DictWriter] *)

Module Csv.
Import Py.

(** A flat row: a [dict] from column name to value.  Nothing the scripts
    do with a finished row looks at its insertion order. *)
Definition row := gmap string json.

(** Python orders [str] by code point, which on UTF-8 is the byte order. *)
Definition str_le (a b : string) : Prop := String.leb a b = true.

#[global] Instance str_le_dec : RelDecision str_le.
Proof. intros a b. unfold str_le. apply _. Defined.

#[global] Instance str_le_total : Total str_le.
Proof. intros a b. unfold str_le. apply String.leb_total. Qed.

(** [sorted(keys)]. *)
Definition sorted (keys : gset string) : list string :=
  merge_sort str_le (elements keys).

(** [{k for row in rows for k in row.keys()}]. *)
Definition all_keys (rows : list row) : gset string :=
  ⋃ (List.map dom rows).

(** [DictWriter(f, fieldnames, extrasaction="ignore").writerow(r)]: one cell
    per field name, the empty [restval] where the row has no such key, keys
    outside [fieldnames] left out. *)
Definition writerow (fieldnames : list string) (r : row) : list json :=
  List.map (fun k => default (JStr EmptyString) (r !! k)) fieldnames.

(** [writeheader()]. *)
Definition header_line (fieldnames : list string) : list json :=
  List.map JStr fieldnames.

End Csv.

(** ** 安徽/合肥中心.py: the resumable crawler *)

Module HefeiCentre.
Import Py.

Import Http.

Definition PROGRESS_PATH : string := "bigdatadex_progress.json".

Inductive event :=
| Fetch (page_no : Z)
| Sleep
| Yield (page_no : Z) (row : Csv.row)
| SaveProgress (next_page_no : Z).

Inductive outcome :=
| Returned
| Raised (e : exn)
| OutOfFuel.

(** An event that is no row of a page before [q]. *)
Definition from_page (q : Z) (e : event) : Prop :=
  match e with
  | Yield p _ => (q <= p)%Z
  | _ => True
  end.

(** Events of the retry loop: requests and pauses only. *)
Definition quiet (e : event) : Prop :=
  match e with
  | Fetch _ | Sleep => True
  | _ => False
  end.

(** A row of page [p]. *)
Definition yield_of (p : Z) (e : event) : Prop :=
  match e with
  | Yield q _ => q = p
  | _ => False
  end.

(** An event of the attempts at page [p]. *)
Definition attempt_at (p : Z) (e : event) : Prop :=
  match e with
  | Fetch q => q = p
  | Sleep => True
  | _ => False
  end.

(** An event that leaves page [p] undone: a row handed over belongs to a
    page before [p], and a checkpoint saved names [p] or a page before it as
    the next one to fetch. *)
Definition no_progress (p : Z) (e : event) : Prop :=
  match e with
  | Yield q _ => (q < p)%Z
  | SaveProgress q => (q <= p)%Z
  | _ => True
  end.

(** A response with status 200 whose JSON body is an object with
    ["success": false]. *)
Definition declares_failure (resp : response) : bool :=
  (status_code resp =? 200)%Z &&
  match body resp with
  | Some (JObj kvs) =>
      match assoc "success" kvs with Some (JBool false) => true | _ => false end
  | _ => false
  end.

(** Once [next_page_no = n] has been saved, every row still to come
    belongs to page [n] or a later one: the rows of the pages before [n]
    were all handed over before the save. *)
Fixpoint rows_before_saves (evs : list event) : Prop :=
  match evs with
  | [] => True
  | SaveProgress n :: rest => Forall (from_page n) rest /\ rows_before_saves rest
  | _ :: rest => rows_before_saves rest
  end.

Section WithLib.
Context `{Lib}.

Definition is_likely_blocked (resp : response) : bool * string :=
  let ct := lower (default EmptyString (content_type resp)) in
  let text_head := lower (take_chars 300 (text resp)) in
  if negb (contains "application/json" ct) then
    if contains "<html" text_head || contains "<!doctype html" text_head
    then (true, "Non-JSON HTML response (ct=" ++ ct ++ ")")
    else (true, "Non-JSON response (ct=" ++ ct ++ ")")
  else
    match body resp with
    | None => (true, "JSON parse failed")
    | Some (JObj kvs) =>
        match assoc "success" kvs with
        | Some (JBool false) =>
            let msg :=
              or_else (or_else (default JNull (assoc "msg" kvs))
                               (default JNull (assoc "message" kvs)))
                      (JStr EmptyString) in
            (true, "API success=false, msg=" ++ take_chars 120 (py_str msg))
        | _ => (false, EmptyString)
        end
    | Some _ => (false, EmptyString)
    end.

Definition success_is_true (data : json) : bool :=
  match data with
  | JObj kvs =>
      match assoc "success" kvs with Some (JBool true) => true | _ => false end
  | _ => false
  end.

Definition fetch_page (reply : result response) : result json :=
  match reply with
  | Raise e => Raise e
  | Ok resp =>
      if negb (status_code resp =? 200)%Z then
        Raise (RuntimeError ("HTTP " ++ str_of_Z (status_code resp) ++ ": "
                               ++ take_chars 200 (text resp)))
      else
        let '(blocked, reason) := is_likely_blocked resp in
        if blocked then
          Raise (RuntimeError ("Likely blocked/cookie expired: " ++ reason
                                 ++ ". Body head: " ++ take_chars 200 (text resp)))
        else
          match body resp with
          | None => Raise JSONDecodeError
          | Some data =>
              if success_is_true data then Ok data
              else Raise (RuntimeError ("Unexpected JSON: " ++ take_chars 300 (dumps data)))
          end
  end.

Definition flatten_value (v : json) : json :=
  if is_dict v || is_list v then JStr (dumps v) else v.

Definition flatten_record (rec : list (string * json)) : Csv.row :=
  fold_left (fun out kv => <[fst kv := flatten_value (snd kv)]> out) rec ∅.

(** The body of the [try] in [load_progress]. *)
Definition read_next_page_no (f : Fs.file) : result Z :=
  match f with
  | Fs.Absent | Fs.Unreadable => Raise OSError
  | Fs.Content _ None => Raise JSONDecodeError
  | Fs.Content _ (Some obj) =>
      bind (get_default obj "next_page_no" (JInt 1)) py_int
  end.

Definition load_progress (f : Fs.file) : Z :=
  match f with
  | Fs.Absent => 1
  | _ =>
      match read_next_page_no f with
      | Ok page_no => Z.max 1 page_no
      | Raise _ => 1
      end
  end.

Definition progress_doc (next_page_no ts : Z) : string :=
  dumps_indent2 (JObj [("next_page_no", JInt next_page_no); ("ts", JInt ts)]).

(** [ts] is [int(time.time())]. *)
Definition save_progress (path : string) (next_page_no ts : Z) : list Fs.op :=
  let tmp := path ++ ".tmp" in
  (Fs.write_text tmp (progress_doc next_page_no ts) ++ [Fs.Replace tmp path])%list.

(** The three attempts at one page: this attempt and [more] further
    ones.  [n] counts the requests sent so far. *)
Fixpoint try_fetch (srv : server) (more : nat) (n : nat) (page_no page_size : Z)
  : list event * nat * result json :=
  match fetch_page (srv n page_no page_size) with
  | Ok data => ([Fetch page_no], S n, Ok data)
  | Raise e =>
      match more with
      | O => ([Fetch page_no; Sleep], S n, Raise e)
      | S more' =>
          let '(evs, n', r) := try_fetch srv more' (S n) page_no page_size in
          (Fetch page_no :: Sleep :: evs, n', r)
      end
  end.

(** [result = data.get("result") or {}] and the two fields read from it
    that the loop then uses: [records] and [pages]. *)
Definition page_fields (data : json) : result (json * json) :=
  bind (get data "result") (fun r =>
  let result := or_else r (JObj []) in
  bind (get result "records") (fun recs =>
  bind (get result "pages") (fun pages =>
  Ok (or_else recs (JArr []), pages)))).

(** The dicts met by [for rec in records]: the keys of a dict and the
    characters of a string are never dicts, a number cannot be iterated. *)
Definition dict_records (records : json) : result (list (list (string * json))) :=
  match records with
  | JArr xs =>
      Ok (omap (fun x => match x with JObj kvs => Some kvs | _ => None end) xs)
  | JObj _ | JStr _ => Ok []
  | _ => Raise TypeError
  end.

(** [pages is not None and int(pages) > 0 and page_no >= int(pages)],
    inside [try ... except Exception: pass]. *)
Definition pages_reached (pages : json) (page_no : Z) : bool :=
  match pages with
  | JNull => false
  | _ =>
      match py_int pages with
      | Ok p => ((0 <? p) && (p <=? page_no))%Z
      | Raise _ => false
      end
  end.

Definition over_max_pages (max_pages : option Z) (start_page page_no : Z) : bool :=
  match max_pages with
  | Some m => (m <? page_no - start_page + 1)%Z
  | None => false
  end.

(** The [while True] loop of [iter_records], one iteration per unit of
    fuel, as the events it performs in order and the way it ends. *)
Fixpoint iter_loop (fuel : nat) (srv : server) (start_page page_size : Z)
    (max_pages : option Z) (n : nat) (page_no seen_empty : Z)
  : list event * outcome :=
  match fuel with
  | O => ([], OutOfFuel)
  | S fuel' =>
      if over_max_pages max_pages start_page page_no then ([], Returned)
      else
        let '(evs, n', r) := try_fetch srv 2 n page_no page_size in
        match bind r page_fields with
        | Raise e => (evs, Raised e)
        | Ok (records, pages) =>
            let continue (yields : list event) (seen_empty' : Z) :=
              let here := (evs ++ yields ++ [SaveProgress (page_no + 1)])%list in
              if pages_reached pages page_no then (here, Returned)
              else
                let '(rest, o) :=
                  iter_loop fuel' srv start_page page_size max_pages n'
                            (page_no + 1) seen_empty' in
                ((here ++ Sleep :: rest)%list, o) in
            if negb (truthy records) then
              if (2 <=? seen_empty + 1)%Z then (evs, Returned)
              else continue [] (seen_empty + 1)
            else
              match dict_records records with
              | Raise e => (evs, Raised e)
              | Ok recs =>
                  continue (List.map (fun rec => Yield page_no (flatten_record rec)) recs) 0
              end
        end
  end.

Definition iter_records (fuel : nat) (srv : server) (start_page page_size : Z)
    (max_pages : option Z) : list event * outcome :=
  iter_loop fuel srv start_page page_size max_pages 0 start_page 0.

Definition yielded (evs : list event) : list Csv.row :=
  omap (fun e => match e with Yield _ r => Some r | _ => None end) evs.

Definition fetched (evs : list event) : list Z :=
  omap (fun e => match e with Fetch p => Some p | _ => None end) evs.

Definition saved (evs : list event) : list Z :=
  omap (fun e => match e with SaveProgress p => Some p | _ => None end) evs.

(** The lines [scrape_all] writes for the rows it receives: the field
    names are fixed by the first row; the header goes out in mode "w". *)
Definition write_rows (mode_w : bool) (rows : list Csv.row) : list (list json) :=
  match rows with
  | [] => []
  | row0 :: _ =>
      let fieldnames := Csv.sorted (dom row0) in
      ((if mode_w then [Csv.header_line fieldnames] else [])
         ++ List.map (Csv.writerow fieldnames) rows)%list
  end.

(** [scrape_all]: the lines written to the CSV file, the events of the
    crawl and how the call ends ([Ok total_rows] or an exception;
    [None] when the fuel ran out first). *)
Definition scrape_all (fuel : nat) (srv : server) (out_csv_path : string)
    (progress : Fs.file) (file_exists resume : bool) (page_size : Z) (max_pages : option Z)
  : list (list json) * list event * option (result Z) :=
  let start_page := if resume then load_progress progress else 1 in
  if file_exists && negb resume then
    ([], [], Some (Raise (RuntimeError
       (out_csv_path ++ " already exists. Set resume=True or change output path."))))
  else
    let mode_w := negb (resume && file_exists) in
    let '(evs, o) := iter_records fuel srv start_page page_size max_pages in
    let rows := yielded evs in
    (write_rows mode_w rows, evs,
     match o with
     | OutOfFuel => None
     | Raised e => Some (Raise e)
     | Returned =>
         if Nat.eqb (List.length rows) 0
         then Some (Raise (RuntimeError "No data fetched. Possibly blocked or cookie expired."))
         else Some (Ok (Z.of_nat (List.length rows)))
     end).
End WithLib.

End HefeiCentre.

(** ** 合肥数据流通/cl.py: buffer every page, then write the table *)

Module HefeiFlow.
Import Py Http.

Inductive event :=
| Fetch (page_no : Z)
| Sleep.

Inductive outcome :=
| Finished
| Raised (e : exn)
| OutOfFuel.

Section WithLib.
Context `{Lib}.

Definition ensure_json_response (resp : response) : result json :=
  let ct := default EmptyString (content_type resp) in
  if negb (status_code resp =? 200)%Z then
    Raise (RuntimeError ("HTTP " ++ str_of_Z (status_code resp) ++ ": "
                           ++ take_chars 200 (text resp)))
  else if negb (contains "application/json" ct) then
    Raise (RuntimeError ("Non-JSON response (content-type=" ++ ct
                           ++ "). 可能被拦截/跳验证页。Body head: "
                           ++ take_chars 200 (text resp)))
  else
    match body resp with
    | None => Raise JSONDecodeError
    | Some data =>
        match data with
        | JObj kvs =>
            match assoc "success" kvs with
            | Some (JBool true) => Ok data
            | _ => Raise (RuntimeError ("API returned success!=true: "
                                          ++ take_chars 300 (dumps data)))
            end
        | _ => Raise (RuntimeError ("Unexpected JSON type: " ++ type_repr data))
        end
    end.

Definition flatten_value (v : json) : json :=
  if is_dict v || is_list v then JStr (dumps v) else v.

Definition flatten_record (rec : list (string * json)) : Csv.row :=
  fold_left (fun out kv => <[fst kv := flatten_value (snd kv)]> out) rec ∅.

(** Returns [(records, result)]. *)
Definition fetch_page (reply : result response) : result (list json * json) :=
  bind reply (fun resp =>
  bind (ensure_json_response resp) (fun data =>
  bind (get data "result") (fun r =>
  let result := or_else r (JObj []) in
  bind (get result "records") (fun recs =>
  match or_else recs (JArr []) with
  | JArr records => Ok (records, result)
  | _ => Raise (RuntimeError "result.records is not a list")
  end)))).

(** [for key in keys: if current is None and isinstance(meta.get(key), int):
    current = meta.get(key)]. *)
Fixpoint first_int (keys : list string) (meta : json) (current : option Z) : option Z :=
  match keys with
  | [] => current
  | key :: keys' =>
      first_int keys' meta
        match current with
        | Some _ => current
        | None =>
            match get meta key with
            | Ok v => as_int v
            | Raise _ => None
            end
        end
  end.

Definition flat_rows (records : list json) : list Csv.row :=
  omap (fun r => match r with JObj kvs => Some (flatten_record kvs) | _ => None end)
       records.

Definition over_max_pages (max_pages : option Z) (start_page page_no : Z) : bool :=
  match max_pages with
  | Some m => (m <? page_no - start_page + 1)%Z
  | None => false
  end.

Definition past_total_pages (total_pages : option Z) (page_no : Z) : bool :=
  match total_pages with
  | Some tp => (tp <? page_no)%Z
  | None => false
  end.

Definition got_all (total_items : option Z) (all_rows : list Csv.row) : bool :=
  match total_items with
  | Some ti => (ti <=? Z.of_nat (List.length all_rows))%Z
  | None => false
  end.

(** The [while True] loop of [scrape_all]: the events, the rows
    collected when the loop is left, and how it is left. *)
Fixpoint crawl_loop (fuel : nat) (srv : server) (start_page page_size : Z)
    (max_pages : option Z) (n : nat) (page_no : Z)
    (total_pages total_items : option Z) (all_rows : list Csv.row)
  : list event * list Csv.row * outcome :=
  match fuel with
  | O => ([], all_rows, OutOfFuel)
  | S fuel' =>
      if over_max_pages max_pages start_page page_no then ([], all_rows, Finished)
      else if past_total_pages total_pages page_no then ([], all_rows, Finished)
      else
        match fetch_page (srv n page_no page_size) with
        | Raise e => ([Fetch page_no], all_rows, Raised e)
        | Ok (records, result_meta) =>
            let total_pages' :=
              first_int ["pages"; "totalPages"; "pageCount"] result_meta total_pages in
            let total_items' :=
              first_int ["total"; "totalCount"; "count"] result_meta total_items in
            match records with
            | [] => ([Fetch page_no], all_rows, Finished)
            | _ =>
                let all_rows' := (all_rows ++ flat_rows records)%list in
                if got_all total_items' all_rows'
                then ([Fetch page_no; Sleep], all_rows', Finished)
                else
                  let '(evs, rows, o) :=
                    crawl_loop fuel' srv start_page page_size max_pages (S n)
                               (page_no + 1) total_pages' total_items' all_rows' in
                  (Fetch page_no :: Sleep :: evs, rows, o)
            end
        end
  end.

Definition fetched (evs : list event) : list Z :=
  omap (fun e => match e with Fetch p => Some p | _ => None end) evs.

(** The table written once every page is in: header and one line per row. *)
Definition write_table (all_rows : list Csv.row) : list string * list (list json) :=
  let fieldnames := Csv.sorted (Csv.all_keys all_rows) in
  (fieldnames, List.map (Csv.writerow fieldnames) all_rows).

(** [scrape_all]: the events of the crawl and either the table written
    or the exception raised; [None] when the fuel ran out first. *)
Definition scrape_all (fuel : nat) (srv : server) (start_page page_size : Z)
    (max_pages : option Z)
  : list event * option (result (list string * list (list json))) :=
  let '(evs, all_rows, o) :=
    crawl_loop fuel srv start_page page_size max_pages 0 start_page None None [] in
  (evs,
   match o with
   | OutOfFuel => None
   | Raised e => Some (Raise e)
   | Finished =>
       match all_rows with
       | [] => Some (Raise (RuntimeError
                   ("No data fetched. 可能 cookie 过期/被风控拦截。"
                    ++ "请从浏览器 Network 里复制最新 Cookie 替换 COOKIE_STRING。")))
       | _ => Some (Ok (write_table all_rows))
       end
   end).
End WithLib.

End HefeiFlow.

(** ** 北京/cl.py: stop on a short page *)

Module Beijing.
Import Py Http.

Inductive outcome :=
| Finished
| Raised (e : exn)
| OutOfFuel.

Section WithLib.
Context `{Lib}.

(** [x != 200] for a decoded JSON value. *)
Definition differs_from_int (v : json) (z : Z) : bool :=
  match v with
  | JInt z' => negb (z' =? z)%Z
  | JBool b => negb ((if b then 1 else 0) =? z)%Z
  | JFloat f => negb (SFeqb f (float_of_Z z))
  | _ => true
  end.

(** Returns [lst]. *)
Definition fetch_page (reply : result response) : result json :=
  bind reply (fun resp =>
  bind (raise_for_status resp) (fun _ =>
  match body resp with
  | None => Raise JSONDecodeError
  | Some data =>
      bind (get data "code") (fun code =>
      if differs_from_int code 200 then
        Raise (RuntimeError
                 ("API返回异常: " ++ py_str code ++ " "
                    ++ py_str (match get data "message" with Ok m => m | Raise _ => JNull end)))
      else
        bind (get (or_else data (JObj [])) "data") (fun d =>
        bind (get (or_else d (JObj [])) "list") (fun l =>
        Ok (or_else l (JArr [])))))
  end)).

(** [dict(x)] on a page item.  A list of key/value pairs, which [dict]
    would also take, counts as a failure here. *)
Definition py_dict (x : json) : result (list (string * json)) :=
  match x with
  | JObj kvs => Ok kvs
  | JArr [] | JStr EmptyString => Ok []
  | JArr _ | JStr _ => Raise (ValueError "dictionary update sequence element")
  | _ => Raise TypeError
  end.

(** The keyword list of a record, joined in place. *)
Definition join_keywords (rec : list (string * json)) : list (string * json) :=
  match assoc "productKeywords" rec with
  | Some (JArr kws) =>
      assoc_set "productKeywords" (JStr (join "|" (List.map py_str kws))) rec
  | _ => rec
  end.

Definition normalize_record (x : json) : result (list (string * json)) :=
  bind (py_dict x) (fun rec => Ok (join_keywords rec)).

Fixpoint normalize_all (xs : list json) : result (list (list (string * json))) :=
  match xs with
  | [] => Ok []
  | x :: xs' =>
      bind (normalize_record x) (fun r =>
      bind (normalize_all xs') (fun rs => Ok (r :: rs)))
  end.

(** What [for x in lst] runs over, for a truthy [lst]. *)
Definition page_items (lst : json) : result (list json) :=
  match lst with
  | JArr xs => Ok xs
  | JObj kvs => Ok (List.map (fun kv => JStr (fst kv)) kvs)
  | JStr s => Ok (List.map (fun c => JStr (String c EmptyString)) (list_ascii_of_string s))
  | _ => Raise TypeError
  end.

(** The [while page_num <= max_pages] loop of [crawl_all]: the pages
    fetched, the rows collected and how the loop is left. *)
Fixpoint crawl_loop (fuel : nat) (srv : server) (page_size max_pages : Z)
    (n : nat) (page_num : Z) (all_rows : list (list (string * json)))
  : list Z * list (list (string * json)) * outcome :=
  match fuel with
  | O => ([], all_rows, OutOfFuel)
  | S fuel' =>
      if (max_pages <? page_num)%Z then ([], all_rows, Finished)
      else
        match fetch_page (srv n page_num page_size) with
        | Raise e => ([page_num], all_rows, Raised e)
        | Ok lst =>
            if negb (truthy lst) then ([page_num], all_rows, Finished)
            else
              match bind (page_items lst) (fun xs =>
                    bind (normalize_all xs) (fun rs => Ok (rs, List.length xs))) with
              | Raise e => ([page_num], all_rows, Raised e)
              | Ok (rs, len) =>
                  let all_rows' := (all_rows ++ rs)%list in
                  if (Z.of_nat len <? page_size)%Z then ([page_num], all_rows', Finished)
                  else
                    let '(ps, rows, o) :=
                      crawl_loop fuel' srv page_size max_pages (S n) (page_num + 1) all_rows' in
                    (page_num :: ps, rows, o)
              end
        end
  end.

Definition crawl_all (fuel : nat) (srv : server) (page_size max_pages : Z) :=
  crawl_loop fuel srv page_size max_pages 0 1 [].
End WithLib.

End Beijing.

(** ** The seen-set loop

    The scripts that deduplicate share one loop body:
    [if not key or key in seen: continue; seen.add(key); out.append(x)]. *)

Module Dedup.
Section Loop.
Context {A K : Type} `{Countable K}.
Variable key_of : A -> K.
Variable key_truthy : K -> bool.

(** The negation of the guard [not key or key in seen]. *)
Definition should_emit (k : K) (seen : gset K) : bool :=
  negb (negb (key_truthy k) || bool_decide (k ∈ seen)).

(** One pass of the loop body over [x]: the seen-set and the output. *)
Definition step (st : gset K * list A) (x : A) : gset K * list A :=
  let k := key_of x in
  if should_emit k (fst st) then ({[ k ]} ∪ fst st, (snd st ++ [x])%list)
  else st.

Definition run (xs : list A) (st : gset K * list A) : gset K * list A :=
  fold_left step xs st.

(** What holds of the state all along a run that started from [seen0]:
    the seen-set only grew, the output carries pairwise distinct keys,
    each of them truthy, in the seen-set now and not in it at the start. *)
Definition inv (seen0 : gset K) (st : gset K * list A) : Prop :=
  seen0 ⊆ fst st /\
  NoDup (List.map key_of (snd st)) /\
  Forall (fun x => key_of x ∈ fst st /\ (key_of x ∉ seen0) /\ key_truthy (key_of x) = true)
         (snd st).
End Loop.
End Dedup.

(** ** 广东/cl.py: deduplicate by product id *)

Module Guangdong.
Import Py.

Section WithLib.
Context `{Lib}.

(** [r.get(k, default)] with the empty string as default, on a normalised row. *)
Definition field (r : list (string * json)) (k : string) : json :=
  default (JStr EmptyString) (assoc k r).

Definition dedup_key (r : list (string * json)) : string :=
  let k := strip (py_str (field r "产品ID")) in
  if negb (String.eqb k EmptyString) then k
  else strip (py_str (field r "产品编号")).

Definition key_truthy (k : string) : bool := negb (String.eqb k EmptyString).

(** [not (not k or k in seen)]. *)
Definition should_emit (k : string) (seen : gset string) : bool :=
  Dedup.should_emit key_truthy k seen.

(** The inner loop of [main] over the rows of the files read so far:
    the seen-set and [rows_out]. *)
Definition add_rows (rows : list (list (string * json)))
    (st : gset string * list (list (string * json)))
  : gset string * list (list (string * json)) :=
  Dedup.run dedup_key key_truthy rows st.
End WithLib.

End Guangdong.

(** ** 湖北/cl.py: browser crawl with a checkpoint of page and seen keys *)

Module Hubei.
Import Py.

Definition CHECKPOINT : string := "checkpoint.json".

(** A product card as [extract_products_on_page] builds it. *)
Record item := {
  title : option string;
  detail_url : option string;
  org : option string;
  price : option string;
  delivery : option string;
  scenarios : option string;
  tags : list string;
  cert_img : option string }.

(** A key is the detail URL, or the pair [(title, org)]. *)
Definition key : Type := string + option string * option string.

(** [x.get("detail_url") or (x.get("title"), x.get("org"))]. *)
Definition key_of (x : item) : key :=
  match detail_url x with
  | Some u => if String.eqb u EmptyString then inr (title x, org x) else inl u
  | None => inr (title x, org x)
  end.

(** Truth value of a key: a pair is never empty. *)
Definition key_truthy (k : key) : bool :=
  match k with
  | inl u => negb (String.eqb u EmptyString)
  | inr _ => true
  end.

Definition should_emit (k : key) (seen : gset key) : bool :=
  Dedup.should_emit key_truthy k seen.

(** The [for x in items] loop of [main]: the seen-set and the items
    handed to [append_jsonl], in order. *)
Definition add_items (items : list item) (seen : gset key) : gset key * list item :=
  Dedup.run key_of key_truthy items (seen, []).

Inductive event :=
| AppendJsonl (page_index : Z) (x : item)
| SaveCheckpoint (page_index : Z) (seen : gset key).

(** The [while True] loop of [main]: [cur] is the page on screen and
    [later] the pages that [goto_next_page] still reaches. *)
Fixpoint crawl (later : list (list item)) (cur : list item) (page_index : Z)
    (seen : gset key) : list event * gset key :=
  let '(seen', new) := add_items cur seen in
  let here := (List.map (AppendJsonl page_index) new
                 ++ [SaveCheckpoint (page_index + 1) seen'])%list in
  match later with
  | [] => (here, seen')
  | next :: later' =>
      let '(evs, s) := crawl later' next (page_index + 1) seen' in
      ((here ++ evs)%list, s)
  end.

Definition appended (evs : list event) : list item :=
  omap (fun e => match e with AppendJsonl _ x => Some x | _ => None end) evs.

(** An event that appends no item of a page before [q]. *)
Definition from_page (q : Z) (e : event) : Prop :=
  match e with
  | AppendJsonl p _ => (q <= p)%Z
  | _ => True
  end.

(** Once a checkpoint with [page_index = n] has been saved, every item
    still to be appended belongs to page [n] or a later one. *)
Fixpoint items_before_saves (evs : list event) : Prop :=
  match evs with
  | [] => True
  | SaveCheckpoint n _ :: rest => Forall (from_page n) rest /\ items_before_saves rest
  | _ :: rest => items_before_saves rest
  end.

Definition opt_json (o : option string) : json :=
  match o with Some s => JStr s | None => JNull end.

Definition key_json (k : key) : json :=
  match k with
  | inl u => JStr u
  | inr (t, o) => JArr [opt_json t; opt_json o]
  end.

Definition default_checkpoint : json :=
  JObj [("page_index", JInt 1); ("seen_keys", JArr [])].

Definition load_checkpoint (f : Fs.file) : result json :=
  match f with
  | Fs.Absent => Ok default_checkpoint
  | Fs.Unreadable => Raise OSError
  | Fs.Content _ None => Raise JSONDecodeError
  | Fs.Content _ (Some ck) => Ok ck
  end.

Section WithLib.
Context `{Lib}.

Definition checkpoint_doc (page_index : Z) (seen_keys : gset key) : string :=
  dumps_indent2
    (JObj [("page_index", JInt page_index);
           ("seen_keys", JArr (List.map key_json (elements seen_keys)))]).

Definition save_checkpoint (page_index : Z) (seen_keys : gset key) : list Fs.op :=
  Fs.write_text CHECKPOINT (checkpoint_doc page_index seen_keys).
End WithLib.

End Hubei.

(** ** 安徽/cl.py: product tags as one column *)

Module Anhui.
Import Py.

Section WithLib.
Context `{Lib}.

(** The spec's wording of the tag column: each text once, at the place
    of its first occurrence. *)
Fixpoint first_occurrences (l : list string) : list string :=
  match l with
  | [] => []
  | x :: l' => x :: List.filter (fun y => negb (String.eqb y x)) (first_occurrences l')
  end.

Definition nonblank (s : string) : bool := negb (String.eqb s EmptyString).

Definition tag_text (t : json) : string :=
  match t with
  | JObj kvs =>
      let val k := default JNull (assoc k kvs) in
      py_str (or_else (or_else (or_else (val "tagId") (val "proCommonTagId"))
                               (val "proTagId"))
                      (JStr EmptyString))
  | _ => py_str t
  end.

(** The loop that strips, drops blanks and keeps first occurrences. *)
Fixpoint unique_stripped (tags : list string) (seen : gset string) (out : list string)
  : list string :=
  match tags with
  | [] => out
  | x :: tags' =>
      let x := strip x in
      if String.eqb x EmptyString || bool_decide (x ∈ seen)
      then unique_stripped tags' seen out
      else unique_stripped tags' ({[ x ]} ∪ seen) (out ++ [x])%list
  end.

Definition _flatten_product_tags (product_tag : json) : string :=
  if negb (truthy product_tag) then EmptyString
  else
    match product_tag with
    | JArr ts => join "|" (unique_stripped (List.map tag_text ts) ∅ [])
    | _ => py_str product_tag
    end.
End WithLib.

End Anhui.

(** ** 上海/cl.py: list columns joined in place *)

Module Shanghai.
Import Py.

Section WithLib.
Context `{Lib}.

Definition join_field (out : list (string * json)) (k : string) : list (string * json) :=
  match assoc k out with
  | Some (JArr v) => assoc_set k (JStr (join "|" (List.map py_str v))) out
  | None | Some JNull => assoc_set k (JStr EmptyString) out
  | Some v => assoc_set k (JStr (py_str v)) out
  end.

Definition normalize_item (item : list (string * json)) : list (string * json) :=
  fold_left join_field ["aiTag"; "sectorName"; "zoneName"] item.
End WithLib.

End Shanghai.

(** ** 数据清洗/tag.py: classification through a chat-completion service *)

Module Tag.
Import Py.

Definition FALLBACK : string := "其他（不可分类的）".

Definition TARGET_CATEGORIES : list string :=
  [ "政务/公共服务"; "金融/征信"; "交通/出行"; "工业/制造/能源"; "医疗/健康";
    "零售/消费"; "位置/地图/时空"; "互联网/内容/媒体"; "环境/气象";
    "其他（不可分类的）" ].

(** What one completion call hands back: [resp.choices[0].message.content]
    and the document [json.loads] decodes from its stripped text, [None]
    when decoding raises. *)
Record reply := {
  content : option string;
  decoded : option json }.

(** The [n]-th call either raises or replies. *)
Definition service := nat -> result reply.

Record classification := {
  mapped_category : string;
  confidence : pyfloat;
  reason : string;
  raw_json : string;
  error : string }.

(** [str(e)]. *)
Definition exn_str (e : exn) : string :=
  match e with
  | RuntimeError m | ValueError m | ApiError m => m
  | HTTPError c => "HTTP " ++ str_of_Z c
  | _ => EmptyString
  end.

(** [data if isinstance(data, dict) else None], [None] also when
    [json.loads] raised. *)
Definition safe_get_json (decoded : option json) : option json :=
  match decoded with
  | Some (JObj kvs) => Some (JObj kvs)
  | _ => None
  end.

Definition normalize_category (cat : string) : string :=
  let cat := strip cat in
  if bool_decide (cat ∈ TARGET_CATEGORIES) then cat else "其他（不可分类的）".

Definition retry_keywords : list string :=
  [ "429"; "rate limit"; "too many requests"; "timeout"; "timed out";
    "temporarily"; "temporary"; "connection"; "network";
    "server"; "502"; "503"; "504"; "empty content"; "invalid json" ].

Definition is_retryable_error (err : exn) : bool :=
  let s := lower (exn_str err) in
  existsb (fun k => contains k s) retry_keywords.

(** A call that yields no classification: it raises, or its reply is
    blank, or the reply decodes to no JSON object, or to the empty one. *)
Definition unusable (r : result reply) : Prop :=
  match r with
  | Raise _ => True
  | Ok resp =>
      strip (default EmptyString (content resp)) = EmptyString \/
      match safe_get_json (decoded resp) with
      | None => True
      | Some data => truthy data = false
      end
  end.

Section WithLib.
Context `{Lib}.

(** [max(0.0, min(1.0, confidence))] after [float(...)] with 0.0 on
    any exception. *)
Definition read_confidence (data : json) : pyfloat :=
  let confidence :=
    match bind (get_default data "confidence" (JFloat f_zero)) py_float with
    | Ok f => f
    | Raise _ => f_zero
    end in
  py_max f_zero (py_min f_one confidence).

(** The body of the [try] for one attempt. *)
Definition attempt (r : result reply) : result classification :=
  bind r (fun resp =>
  let content := strip (default EmptyString (content resp)) in
  if String.eqb content EmptyString then Raise (ValueError "empty content")
  else
    match safe_get_json (decoded resp) with
    | Some data =>
        if negb (truthy data) then
          Raise (ValueError ("invalid json: " ++ take_chars 160 content))
        else
          bind (get_default data "mapped_category" (JStr EmptyString)) (fun cat =>
          bind (get_default data "reason" (JStr EmptyString)) (fun why =>
          Ok {| mapped_category := normalize_category (py_str cat);
                confidence := read_confidence data;
                reason := take_chars 60 (py_str why);
                raw_json := content;
                error := EmptyString |}))
    | None => Raise (ValueError ("invalid json: " ++ take_chars 160 content))
    end).

(** The result returned once the loop is left without a classification. *)
Definition fallback (last_err : option exn) : classification :=
  {| mapped_category := "其他（不可分类的）";
     confidence := f_zero;
     reason := "调用/解析失败：" ++
               take_chars 40 (match last_err with Some e => exn_str e | None => "None" end);
     raw_json := EmptyString;
     error := match last_err with
              | Some e => take_chars 200 (exn_str e)
              | None => "unknown"
              end |}.

(** [for attempt in range(1, max_retries + 1)], from attempt [no] on
    with [left] attempts to go. *)
Fixpoint retry_loop (api : service) (max_retries left no : nat)
    (last_err : option exn) : classification :=
  match left with
  | O => fallback last_err
  | S left' =>
      match attempt (api no) with
      | Ok c => c
      | Raise e =>
          if (no <? max_retries)%nat && is_retryable_error e
          then retry_loop api max_retries left' (S no) (Some e)
          else fallback (Some e)
      end
  end.

Definition call_deepseek_json (api : service) (max_retries : nat) : classification :=
  retry_loop api max_retries max_retries 1 None.
End WithLib.

End Tag.

(** ** Inputs the properties are tried on *)

Module Scenario.
Import Py Http.

(** An instance of the library functions taken as given, for inputs on
    which none of them is reached. *)
Definition sample_lib : Lib :=
  {| float_repr := fun _ => "0.0";
     container_str := fun _ => "[]";
     float_of_str := fun _ => None |}.

(** 25 records, the [i]-th with the fields [fields i], served ten to a
    page: pages 1 to 3 hold 10, 10 and 5 of them, later pages are empty. *)
Definition page (fields : nat -> list (string * json)) (p : Z) : list json :=
  List.map (fun i => JObj (fields i))
    (if (p =? 1)%Z then seq 0 10
     else if (p =? 2)%Z then seq 10 10
     else if (p =? 3)%Z then seq 20 5
     else []).

Definition json_reply (doc : json) : result response :=
  Ok {| status_code := 200;
        content_type := Some "application/json;charset=UTF-8";
        text := EmptyString;
        body := Some doc |}.

(** The 合肥 envelope, with [meta] as extra fields of [result]. *)
Definition hefei_source (meta : list (string * json))
    (fields : nat -> list (string * json)) : server :=
  fun _ p _ =>
    json_reply (JObj [("success", JBool true);
                      ("result", JObj (("records", JArr (page fields p)) :: meta))]).

(** The 北京 envelope. *)
Definition beijing_source (fields : nat -> list (string * json)) : server :=
  fun _ p _ =>
    json_reply (JObj [("code", JInt 200);
                      ("data", JObj [("list", JArr (page fields p))])]).

(** A 200 response whose body declares failure. *)
Definition login_required : response :=
  {| status_code := 200;
     content_type := Some "application/json";
     text := "{}";
     body := Some (JObj [("success", JBool false); ("message", JStr "login required")]) |}.

(** A 广东 row with neither product id nor product number. *)
Definition blank_row : list (string * json) :=
  [("产品ID", JStr EmptyString); ("产品名称", JStr "demo")].

(** Two records with the same content; the nested object lists its keys
    in another order. *)
Definition record_a : list (string * json) :=
  [("id", JInt 1); ("owner", JObj [("name", JStr "x"); ("city", JStr "y")])].
Definition record_b : list (string * json) :=
  [("owner", JObj [("city", JStr "y"); ("name", JStr "x")]); ("id", JInt 1)].

(** Two flat rows, the second with a column the first lacks. *)
Definition row_1 : Csv.row := {[ "a" := JInt 1 ]}.
Definition row_2 : Csv.row := <[ "b" := JInt 3 ]> {[ "a" := JInt 2 ]}.

Definition tags_aba : json := JArr [JStr "A"; JStr "B"; JStr "A"].

(** A completion whose label is none of the enumerated ones. *)
Definition nonexistent_doc : json :=
  JObj [("mapped_category", JStr "nonexistent"); ("confidence", JInt 7);
        ("reason", JStr "n/a")].

Definition nonexistent_reply : Tag.reply :=
  {| Tag.content := Some (@dumps sample_lib nonexistent_doc);
     Tag.decoded := Some nonexistent_doc |}.

End Scenario.

(** ** 安徽/合肥中心.py and 合肥数据流通/cl.py: the cookie header as a dict *)

Module Cookies.
Import Py.

(** [s.split(sep)] for a separator of one character: never empty. *)
Fixpoint split (sep : ascii) (s : string) : list string :=
  match s with
  | EmptyString => [EmptyString]
  | String c rest =>
      if Ascii.eqb c sep then EmptyString :: split sep rest
      else
        match split sep rest with
        | part :: parts => String c part :: parts
        | [] => [String c EmptyString]
        end
  end.

(** [k, v = s.split(sep, 1)] for an [s] that holds [sep]: what stands
    before its first occurrence and what stands after it. *)
Fixpoint split_once (sep : ascii) (s : string) : option (string * string) :=
  match s with
  | EmptyString => None
  | String c rest =>
      if Ascii.eqb c sep then Some (EmptyString, rest)
      else
        match split_once sep rest with
        | Some (k, v) => Some (String c k, v)
        | None => None
        end
  end.

(** The body of [for part in cookie_str.split(";")]. *)
Definition add_part (cookies : gmap string string) (part : string) : gmap string string :=
  let part := strip part in
  if String.eqb part EmptyString || negb (contains "=" part) then cookies
  else
    match split_once "=" part with
    | Some (k, v) => <[strip k := strip v]> cookies
    | None => cookies
    end.

Definition cookie_str_to_dict (cookie_str : string) : gmap string string :=
  fold_left add_part (split ";" cookie_str) ∅.

(** A text without blank at either end, and one that holds none of the
    given characters. *)
Definition no_blank_ends (s : string) : bool :=
  match s with
  | EmptyString => true
  | String c _ => negb (is_space c) && String.eqb (rstrip s) s
  end.

Fixpoint free_of (seps : list ascii) (s : string) : bool :=
  match s with
  | EmptyString => true
  | String c rest => negb (existsb (Ascii.eqb c) seps) && free_of seps rest
  end.

(** A cookie header written from pairs: [name=value] joined by ["; "]. *)
Definition render (pairs : list (string * string)) : string :=
  join "; " (List.map (fun kv => fst kv ++ "=" ++ snd kv) pairs).

End Cookies.

(** ** 湖北/cl.py: retries, the seen keys of a checkpoint, the last pass *)

Module HubeiMain.
Import Py Hubei.





(** [set(ck.get("seen_keys", []))] for the list [json.load] gives back:
    a key saved as a pair comes back as a list, which cannot be hashed.
    Of the entries that can, only a string may equal the key of an item;
    [save_checkpoint] writes no others. *)
Definition seen_from (seen_keys : list json) : result (gset key) :=
  if forallb (fun v => negb (is_list v || is_dict v)) seen_keys
  then Ok (list_to_set
             (omap (fun v => match v with JStr u => Some (inl u) | _ => None end) seen_keys))
  else Raise TypeError.

(** The last pass of [main] over the lines of the JSONL file: the guard
    is [key in final_seen] alone. *)
Definition final_dedup (all_rows : list item) : list item :=
  snd (Dedup.run key_of (fun _ => true) all_rows (∅, [])).

(** Every checkpoint saved in [evs] holds [keys] and the key of every
    item appended in [evs] before it. *)
Fixpoint saves_hold (keys : gset key) (evs : list event) : Prop :=
  match evs with
  | [] => True
  | AppendJsonl _ x :: rest => saves_hold ({[ key_of x ]} ∪ keys) rest
  | SaveCheckpoint _ s :: rest => keys ⊆ s /\ saves_hold keys rest
  end.

End HubeiMain.

(** ** 数据清洗/tag.py: the batches of [main] *)

Module TagMain.
Import Py Tag.

(** [len(s)]: the code points of a text held as UTF-8 bytes. *)
Fixpoint char_count (s : string) : nat :=
  match s with
  | EmptyString => 0
  | String c rest => if is_continuation c then char_count rest else S (char_count rest)
  end.

(** A call the loop answers by trying again while attempts are left: it
    raised an error whose text holds one of the keywords, or its reply is
    blank, or decodes to no JSON object, or to the empty one. *)
Definition retried (r : result reply) : Prop :=
  match r with
  | Raise e => is_retryable_error e = true
  | Ok _ => unusable r
  end.

(** [not os.getenv("DEEPSEEK_API_KEY")]. *)
Definition unset (api_key : option string) : bool :=
  match api_key with
  | None | Some EmptyString => true
  | Some _ => false
  end.

(** The four result lists and the two counters. *)
Record tally := {
  mapped : list string;
  conf : list pyfloat;
  reason : list string;
  err : list string;
  success_cnt : nat;
  fail_cnt : nat }.

Definition start (n : nat) : tally :=
  {| mapped := replicate n EmptyString;
     conf := replicate n f_zero;
     reason := replicate n EmptyString;
     err := replicate n EmptyString;
     success_cnt := 0;
     fail_cnt := 0 |}.

(** The body of [for fut in as_completed(futures)] for the future of
    row [idx], which is below [n]: it comes from [range(start, end)]. *)
Definition record_result (t : tally) (idx : nat) (res : classification) : tally :=
  {| mapped := <[idx := mapped_category res]> (mapped t);
     conf := <[idx := confidence res]> (conf t);
     reason := <[idx := Tag.reason res]> (reason t);
     err := <[idx := error res]> (err t);
     success_cnt := if String.eqb (error res) EmptyString
                    then S (success_cnt t) else success_cnt t;
     fail_cnt := if String.eqb (error res) EmptyString
                 then fail_cnt t else S (fail_cnt t) |}.

(** [range(0, n, step)] for a positive [step], from [start] on. *)
Fixpoint starts (fuel start n step : nat) : list nat :=
  match fuel with
  | O => []
  | S fuel' => if (start <? n)%nat then start :: starts fuel' (start + step) n step else []
  end.

(** The index ranges handed to [submit_range], one per batch. *)
Definition batches (n : nat) (chunksize_submit : Z) : result (list (list nat)) :=
  if (chunksize_submit =? 0)%Z then Raise (ValueError "range() arg 3 must not be zero")
  else if (chunksize_submit <? 0)%Z then Ok []
  else
    let c := Z.to_nat chunksize_submit in
    Ok (List.map (fun start => seq start (Nat.min n (start + c) - start)) (starts n 0 n c)).

Section WithLib.
Context `{Lib}.

(** The replies of the service to the calls made for row [idx]. *)
Variable api : nat -> service.
(** The order in which [as_completed] hands over the futures of a batch. *)
Variable completion : list nat -> list nat.

(** [worker_task]: [max_retries] is left at its default. *)
Definition worker_task (idx : nat) : nat * classification :=
  (idx, call_deepseek_json (api idx) 5).

Definition run_batch (t : tally) (batch : list nat) : tally :=
  fold_left (fun t fut => let '(idx, res) := worker_task fut in record_result t idx res)
            (completion batch) t.

Definition main (api_key : option string) (columns : list string)
    (col_product_name col_raw_category col_intro : string) (n : nat) (chunksize_submit : Z)
  : result tally :=
  if unset api_key then
    Raise (RuntimeError "请先设置环境变量 DEEPSEEK_API_KEY")
  else
    match List.filter (fun c => negb (bool_decide (c ∈ columns)))
                      [col_product_name; col_raw_category; col_intro] with
    | c :: _ =>
        Raise (ValueError ("缺少列：" ++ c ++ "，当前表头："
                             ++ container_str (JArr (List.map JStr columns))))
    | [] =>
        bind (batches n chunksize_submit) (fun bs => Ok (fold_left run_batch bs (start n)))
    end.
End WithLib.

End TagMain.

(** ** 安徽/cl.py: the crawl over the pages the first reply announces *)

Module AnhuiCrawl.
Import Py Http.

Definition PAGE_SIZE : Z := 150.

(** [range(lo, hi)]. *)
Definition py_range (lo hi : Z) : list Z :=
  List.map (fun i => (lo + Z.of_nat i)%Z) (seq 0 (Z.to_nat (hi - lo))).

Section WithLib.
Context `{Lib}.

Definition _request_page (reply : result response) : result json :=
  bind reply (fun resp =>
  bind (raise_for_status resp) (fun _ =>
  match body resp with
  | None => Raise JSONDecodeError
  | Some data =>
      if negb (is_dict data) then Raise (RuntimeError ("Unexpected JSON: " ++ type_repr data))
      else
        bind (get data "code") (fun code =>
        if Beijing.differs_from_int code 0 then
          bind (get data "msg") (fun msg =>
          bind (get data "message") (fun message =>
          Raise (RuntimeError ("API returned code=" ++ py_str code ++ ", msg="
                                 ++ py_str (or_else msg message)))))
        else Ok data)
  end)).

(** The body of [for item in lst] for a dict: a copy of the item with
    the two tag columns set. *)
Definition with_tag_columns (item : list (string * json)) : list (string * json) :=
  let r := item in
  let r := assoc_set "productTag_flat"
             (JStr (Anhui._flatten_product_tags (default JNull (assoc "productTag" r)))) r in
  assoc_set "productTag_json" (JStr (dumps (default (JArr []) (assoc "productTag" r)))) r.

(** [consume_list(lst)]: [rows] once the items of [lst] are appended. *)
Definition consume_list (lst : json) (rows : list (list (string * json)))
  : result (list (list (string * json))) :=
  if negb (truthy lst) then Ok rows
  else
    match lst with
    | JArr items =>
        Ok (rows ++ omap (fun item => match item with
                                      | JObj kvs => Some (with_tag_columns kvs)
                                      | _ => None
                                      end) items)%list
    | _ => Raise (RuntimeError ("data.list is not a list: " ++ type_repr lst))
    end.

(** What [crawl_all] reads off the first reply: [total_page], and the
    rows once the list of the first page is consumed. *)
Definition first_page (first : json) : result (Z * list (list (string * json))) :=
  bind (get first "data") (fun d =>
  let d1 := or_else d (JObj []) in
  bind (get d1 "total") (fun t =>
  bind (py_int (or_else t (JInt 0))) (fun total =>
  bind (get d1 "totalPage") (fun tp =>
  bind (py_int (or_else tp (JInt 0))) (fun total_page =>
  bind (get d1 "size") (fun sz =>
  bind (py_int (or_else sz (JInt PAGE_SIZE))) (fun size =>
  bind (get d1 "list") (fun lst =>
  bind (consume_list lst []) (fun rows =>
  Ok (total_page, rows)))))))))).

(** [pages] as the loop over the later pages uses it. *)
Definition page_count (total_page : Z) (max_pages : option Z) : Z :=
  let pages := if (0 <? total_page)%Z then total_page else 1 in
  match max_pages with
  | Some m => Z.min pages m
  | None => pages
  end.

(** [for page_no in range(2, pages + 1)]: the pages asked for, and the
    rows or the exception that ends the crawl. *)
Fixpoint later_pages (srv : server) (n : nat) (page_nos : list Z)
    (rows : list (list (string * json)))
  : list Z * result (list (list (string * json))) :=
  match page_nos with
  | [] => ([], Ok rows)
  | page_no :: rest =>
      match bind (_request_page (srv n page_no PAGE_SIZE)) (fun j =>
            bind (get j "data") (fun d =>
            bind (get (or_else d (JObj [])) "list") (fun lst =>
            consume_list lst rows))) with
      | Raise e => ([page_no], Raise e)
      | Ok rows' =>
          let '(asked, r) := later_pages srv (S n) rest rows' in
          (page_no :: asked, r)
      end
  end.

(** [crawl_all] up to the rows handed to [pd.DataFrame]. *)
Definition crawl_all (srv : server) (max_pages : option Z)
  : list Z * result (list (list (string * json))) :=
  match bind (_request_page (srv 0%nat 1 PAGE_SIZE)) first_page with
  | Raise e => ([1], Raise e)
  | Ok (total_page, rows) =>
      let '(asked, r) :=
        later_pages srv 1 (py_range 2 (page_count total_page max_pages + 1)) rows in
      (1 :: asked, r)
  end.
End WithLib.

End AnhuiCrawl.

(** ** 广东/cl.py: the files read, in order, and the rows written *)

Module GuangdongFiles.
Import Py.

(** [\d+\]] at the head of [s]: the number the digits spell, ASCII
    digits here; [acc] is what the digits read so far spell. *)
Fixpoint digits_then_close (acc : option Z) (s : string) : option Z :=
  match s with
  | EmptyString => None
  | String c rest =>
      match digit_val c with
      | Some d => digits_then_close (Some (default 0 acc * 10 + d)%Z) rest
      | None => if Ascii.eqb c "]" then acc else None
      end
  end.

(** [re.search(r"\[(\d+)\]", base)] and [int(m.group(1))]: the leftmost
    opening bracket that digits and a closing bracket follow. *)
Fixpoint bracket_number (base : string) : option Z :=
  match base with
  | EmptyString => None
  | String c rest =>
      if Ascii.eqb c "[" then
        match digits_then_close None rest with
        | Some n => Some n
        | None => bracket_number rest
        end
      else bracket_number rest
  end.

Definition sort_key (base : string) : Z * Z :=
  match bracket_number base with
  | Some n => (1, n)
  | None => (0, 0)
  end.

(** Tuples compare component by component. *)
Definition key_le (a b : Z * Z) : bool :=
  (fst a <? fst b)%Z || ((fst a =? fst b)%Z && (snd a <=? snd b)%Z).

Definition key_eqb (a b : Z * Z) : bool :=
  (fst a =? fst b)%Z && (snd a =? snd b)%Z.

(** [files.sort(key=sort_key)]: the sort is stable, and a stable sort
    has one result, the one insertion from the right gives. *)
Fixpoint insert_file (x : string) (sorted : list string) : list string :=
  match sorted with
  | [] => [x]
  | y :: rest =>
      if key_le (sort_key x) (sort_key y) then x :: sorted
      else y :: insert_file x rest
  end.

Definition sort_files (files : list string) : list string :=
  foldr insert_file [] files.

(** [list_target_files], on the names [os.listdir] returns, in the order
    it returns them; each path is given by its base name. *)
Definition list_target_files (names : list string) : list string :=
  sort_files (List.filter (String.prefix "pageQuerySjspList") names).

(** [datetime.fromtimestamp(ms_int / 1000, tz=TZ_CN)] printed with
    [strftime("%Y-%m-%d %H:%M:%S")], taken as given; [None] when the
    division or the conversion raises. *)
Class Clock := { strftime_cn : Z -> option string }.

Section WithLib.
Context `{Lib} `{Clock}.

Definition ms_to_datetime_str (ms : json) : string :=
  match ms with
  | JNull | JStr EmptyString => EmptyString
  | _ =>
      match py_int ms with
      | Ok ms_int =>
          match strftime_cn ms_int with
          | Some s => s
          | None => py_str ms
          end
      | Raise _ => py_str ms
      end
  end.

Definition norm (item : list (string * json)) (source_file : string)
  : list (string * json) :=
  let field k := default (JStr EmptyString) (assoc k item) in
  [ ("产品ID", field "id");
    ("产品编号", field "spSn");
    ("产品名称", field "spMc");
    ("发布方企业", field "fbfQyMc");
    ("产品类型", field "spsjlxMc");
    ("产品分类", field "spsjlxFlMc");
    ("交付方式", field "jfxtMc");
    ("应用领域", or_else (field "yylyMcs") (JStr EmptyString));
    ("应用场景", or_else (field "yycjMcs") (JStr EmptyString));
    ("销售价格", field "xsjg");
    ("价格单位", field "xsgg");
    ("产品描述", field "spms");
    ("列表图路径", field "lbtDz");
    ("创建时间", JStr (ms_to_datetime_str (default JNull (assoc "cjsj" item))));
    ("上架时间", JStr (ms_to_datetime_str (default JNull (assoc "spsjSj" item))));
    ("产品状态码", field "spzt");
    ("是否严选", field "sfSsYp");
    ("是否有效", field "sfyx");
    ("来源文件", JStr source_file);
    ("原始字段列表", JStr (join "," (Csv.sorted (list_to_set (List.map fst item))))) ].

(** The rows of a file that [main] goes through; [None] for a file it
    skips: one that cannot be read or decoded, that is no object, whose
    [data] is no object, or whose [data.rows] is no list. *)
Definition file_rows (f : Fs.file) : option (list json) :=
  match f with
  | Fs.Content _ (Some (JObj kvs)) =>
      match assoc "data" kvs with
      | Some (JObj data) =>
          match assoc "rows" data with
          | Some (JArr rows) => Some rows
          | _ => None
          end
      | _ => None
      end
  | _ => None
  end.

(** The body of [for fp in files]: the seen-set and [rows_out]. *)
Definition add_file (st : gset string * list (list (string * json)))
    (fp : string * Fs.file) : gset string * list (list (string * json)) :=
  match file_rows (snd fp) with
  | None => st
  | Some rows =>
      Guangdong.add_rows
        (omap (fun it => match it with
                         | JObj kvs => Some (norm kvs (fst fp))
                         | _ => None
                         end) rows) st
  end.

Definition fieldnames : list string :=
  [ "产品ID"; "产品编号"; "产品名称"; "发布方企业";
    "产品类型"; "产品分类"; "交付方式";
    "应用领域"; "应用场景";
    "销售价格"; "价格单位";
    "产品描述";
    "列表图路径";
    "创建时间"; "上架时间";
    "产品状态码"; "是否严选"; "是否有效";
    "来源文件";
    "原始字段列表" ].

(** [DictWriter(f, fieldnames, extrasaction="ignore").writerow(r)] on a
    row held as an association list. *)
Definition writerow (r : list (string * json)) : list json :=
  List.map (fun k => default (JStr EmptyString) (assoc k r)) fieldnames.

(** How [main] ends: one of its two [SystemExit]s, or the lines of the
    table written, header first. *)
Inductive ending :=
| NoFiles
| NoRows
| Saved (lines : list (list json)).

Definition main (files : list (string * Fs.file)) : ending :=
  match files with
  | [] => NoFiles
  | _ =>
      match snd (fold_left add_file files (∅, [])) with
      | [] => NoRows
      | rows_out => Saved (List.map JStr fieldnames :: List.map writerow rows_out)
      end
  end.
End WithLib.

End GuangdongFiles.

(** ** 上海/cl.py: the crawl over the pages the first reply announces *)

Module ShanghaiCrawl.
Import Py Http.

(** What ends [crawl_all_to_csv] early: an exception of one of the
    classes above, or the [KeyError] of [first["data"]]. *)
Inductive failure :=
| Exn (e : exn)
| KeyError (key : string).

(** How [crawl_all_to_csv] ends: with a failure, or with the table
    written, header and lines. *)
Inductive ending :=
| Failed (f : failure)
| Written (fieldnames : list string) (lines : list (list json)).

Section WithLib.
Context `{Lib}.

Definition fetch_page (reply : result response) : result json :=
  bind reply (fun resp =>
  bind (raise_for_status resp) (fun _ =>
  match body resp with
  | None => Raise JSONDecodeError
  | Some data =>
      let bad := Raise (RuntimeError ("API返回异常：status=" ++ str_of_Z (status_code resp)
                                        ++ ", body=" ++ py_str data)) in
      match data with
      | JObj kvs =>
          if Beijing.differs_from_int (default JNull (assoc "code" kvs)) 200 then bad
          else Ok data
      | _ => bad
      end
  end)).

(** [extract_list(page_json)]. *)
Definition extract_list (page_json : json) : result (list (list (string * json))) :=
  bind (get_default page_json "data" (JObj [])) (fun d =>
  bind (get_default d "list" (JArr [])) (fun lst =>
  match lst with
  | JArr xs =>
      Ok (omap (fun x => match x with
                         | JObj kvs => Some (Shanghai.normalize_item kvs)
                         | _ => None
                         end) xs)
  | _ => Ok []
  end)).

(** What is read off the first reply: [total_page], and the rows of
    the first page. *)
Definition first_page (first : json)
  : failure + Z * list (list (string * json)) :=
  match first with
  | JObj kvs =>
      match assoc "data" kvs with
      | None => inl (KeyError "data")
      | Some meta =>
          match bind (get_default meta "totalPage" (JInt 1)) (fun tp =>
                bind (py_int tp) (fun total_page =>
                bind (get_default meta "total" (JInt 0)) (fun t =>
                bind (py_int t) (fun total =>
                bind (extract_list first) (fun rows =>
                Ok (total_page, rows)))))) with
          | Ok x => inr x
          | Raise e => inl (Exn e)
          end
      end
  | _ => inl (Exn TypeError)
  end.

(** [for p in range(2, total_page + 1)]. *)
Fixpoint later_pages (srv : server) (page_size : Z) (n : nat) (page_nos : list Z)
    (all_rows : list (list (string * json)))
  : list Z * result (list (list (string * json))) :=
  match page_nos with
  | [] => ([], Ok all_rows)
  | p :: rest =>
      match bind (fetch_page (srv n p page_size)) extract_list with
      | Raise e => ([p], Raise e)
      | Ok rows =>
          let '(asked, r) := later_pages srv page_size (S n) rest (all_rows ++ rows)%list in
          (p :: asked, r)
      end
  end.

(** [sorted({k for r in all_rows for k in r.keys()})]. *)
Definition header (all_rows : list (list (string * json))) : list string :=
  Csv.sorted (⋃ (List.map (fun r => list_to_set (List.map fst r)) all_rows)).

Definition writerow (fieldnames : list string) (r : list (string * json)) : list json :=
  List.map (fun k => default (JStr EmptyString) (assoc k r)) fieldnames.

(** [crawl_all_to_csv]: the pages asked for and how the call ends. *)
Definition crawl_all_to_csv (srv : server) (page_size : Z) : list Z * ending :=
  match fetch_page (srv 0%nat 1 page_size) with
  | Raise e => ([1], Failed (Exn e))
  | Ok first =>
      match first_page first with
      | inl f => ([1], Failed f)
      | inr (total_page, rows) =>
          let '(asked, r) :=
            later_pages srv page_size 1 (AnhuiCrawl.py_range 2 (total_page + 1)) rows in
          (1 :: asked,
           match r with
           | Raise e => Failed (Exn e)
           | Ok [] =>
               Failed (Exn (RuntimeError
                 "未抓到任何数据：可能需要补充 cookie，或筛选条件导致无结果。"))
           | Ok all_rows =>
               Written (header all_rows) (List.map (writerow (header all_rows)) all_rows)
           end)
      end
  end.
End WithLib.

End ShanghaiCrawl.

(** ** 数据清洗/tag.py: the pause before a retry *)

Module TagBackoff.
Import Py Tag.

(** [sleep_s = min(8.0, 0.6 * (2 ** (attempt - 1)))] and
    [time.sleep(sleep_s + (attempt * 0.05))], in the [except] handler: the
    product turns the integer into a float first, and that raises an
    [OverflowError] once the integer rounds to infinity; otherwise the
    pause ends and the loop goes on. *)
Definition backoff (attempt : nat) : result unit :=
  match float_of_Z (2 ^ (Z.of_nat attempt - 1)) with
  | S754_infinity _ => Raise OverflowError
  | _ => Ok tt
  end.

Section WithLib.
Context `{Lib}.

(** [for attempt in range(1, max_retries + 1)] with the handler as it
    is written: what the handler raises leaves the function.
    [Tag.retry_loop] is this loop without the pause. *)
Fixpoint retry_loop (api : service) (max_retries left no : nat)
    (last_err : option exn) : result classification :=
  match left with
  | O => Ok (fallback last_err)
  | S left' =>
      match attempt (api no) with
      | Ok c => Ok c
      | Raise e =>
          if (no <? max_retries)%nat && is_retryable_error e
          then bind (backoff no) (fun _ =>
               retry_loop api max_retries left' (S no) (Some e))
          else Ok (fallback (Some e))
      end
  end.

Definition call_deepseek_json (api : service) (max_retries : nat)
  : result classification :=
  retry_loop api max_retries max_retries 1 None.
End WithLib.

End TagBackoff.

(** ** Further inputs *)

Module Samples.
Import Py Http.

(** A source that answers every request with a well-formed page holding
    no record. *)
Definition empty_source : server :=
  fun _ _ _ =>
    Scenario.json_reply
      (JObj [("success", JBool true); ("result", JObj [("records", JArr [])])]).

(** The 25 records of [Scenario.page], each with one field. *)
Definition numbered_source : server :=
  Scenario.hefei_source [] (fun i => [("id", JInt (Z.of_nat i))]).

(** A reply of blanks, and a service that sends two of them before a
    reply that can be read. *)
Definition blank_reply : Tag.reply :=
  {| Tag.content := Some "  "; Tag.decoded := None |}.

Definition third_time_lucky : Tag.service :=
  fun no => if (no <? 3)%nat then Ok blank_reply else Ok Scenario.nonexistent_reply.

(** Two product cards, the second without a link to its detail page. *)
Definition card_linked : Hubei.item :=
  {| Hubei.title := Some "A"; Hubei.detail_url := Some "https://x/product/detail/1";
     Hubei.org := Some "O"; Hubei.price := None; Hubei.delivery := None;
     Hubei.scenarios := None; Hubei.tags := []; Hubei.cert_img := None |}.

Definition card_unlinked : Hubei.item :=
  {| Hubei.title := Some "B"; Hubei.detail_url := None;
     Hubei.org := Some "O"; Hubei.price := None; Hubei.delivery := None;
     Hubei.scenarios := None; Hubei.tags := []; Hubei.cert_img := None |}.

(** The first card once more, as a later page shows it with a price. *)
Definition card_repriced : Hubei.item :=
  {| Hubei.title := Some "A"; Hubei.detail_url := Some "https://x/product/detail/1";
     Hubei.org := Some "O"; Hubei.price := Some "99"; Hubei.delivery := None;
     Hubei.scenarios := None; Hubei.tags := []; Hubei.cert_img := None |}.

(** A 安徽 source of two pages, one product each; and its first reply. *)
Definition anhui_first : json :=
  JObj [("code", JInt 0);
        ("data", JObj [("total", JInt 2); ("totalPage", JInt 2); ("size", JInt 150);
                       ("list", JArr [JObj [("id", JInt 1);
                                            ("productTag", JArr [JObj [("tagId", JStr "A")]])]])])].

Definition anhui_source : server :=
  fun _ p _ =>
    if (p =? 1)%Z then Scenario.json_reply anhui_first
    else Scenario.json_reply
           (JObj [("code", JInt 0);
                  ("data", JObj [("list", JArr [JObj [("id", JInt 2)]])])]).

(** A 上海 source of two pages, one product each; and its first reply. *)
Definition shanghai_first : json :=
  JObj [("code", JInt 200);
        ("data", JObj [("totalPage", JInt 2); ("total", JInt 2);
                       ("list", JArr [JObj [("id", JInt 1);
                                            ("aiTag", JArr [JStr "A"; JStr "B"])]])])].

Definition shanghai_source : server :=
  fun _ p _ =>
    if (p =? 1)%Z then Scenario.json_reply shanghai_first
    else Scenario.json_reply
           (JObj [("code", JInt 200);
                  ("data", JObj [("list", JArr [JObj [("id", JInt 2); ("extra", JNull)]])])]).

End Samples.

(** * Properties *)

(** ** The seen-set loop emits every identity at most once *)

Section DedupFacts.
Context {A K : Type} `{Countable K}.
Variable key_of : A -> K.
Variable key_truthy : K -> bool.

Local Abbreviation should_emit := (Dedup.should_emit key_truthy).
Local Abbreviation step := (Dedup.step key_of key_truthy).
Local Abbreviation run := (Dedup.run key_of key_truthy).

Lemma should_emit_eq k seen :
  should_emit k seen = key_truthy k && bool_decide (k ∉ seen).
Proof.
  unfold Dedup.should_emit.
  destruct (key_truthy k); simpl; repeat case_bool_decide; tauto.
Qed.

Lemma should_emit_true k seen :
  should_emit k seen = true <-> key_truthy k = true /\ k ∉ seen.
Proof.
  rewrite should_emit_eq, andb_true_iff, bool_decide_eq_true. tauto.
Qed.

Lemma should_emit_seen k seen : k ∈ seen -> should_emit k seen = false.
Proof.
  intros Hin. rewrite should_emit_eq.
  rewrite (bool_decide_eq_false_2 (k ∉ seen)); [apply andb_false_r | tauto].
Qed.

Lemma step_seen_mono st x : fst st ⊆ fst (step st x).
Proof.
  unfold Dedup.step. destruct (should_emit _ _); cbn [fst snd]; set_solver.
Qed.

Lemma run_seen_mono xs : forall st, fst st ⊆ fst (run xs st).
Proof.
  induction xs as [|x xs IH]; intros st; simpl; [set_solver|].
  etransitivity; [apply step_seen_mono | apply IH].
Qed.

Local Abbreviation dedup_inv := (Dedup.inv key_of key_truthy).

Lemma step_inv seen0 st x : dedup_inv seen0 st -> dedup_inv seen0 (step st x).
Proof.
  intros (Hsub & Hnd & Hall). unfold Dedup.step.
  destruct (should_emit (key_of x) (fst st)) eqn:E; [|repeat split; assumption].
  apply should_emit_true in E as [Ht Hfresh]. unfold Dedup.inv. cbn [fst snd]. repeat split.
  - set_solver.
  - rewrite List.map_app. simpl. apply NoDup_app. repeat split; [assumption | | apply NoDup_singleton].
    intros k Hk Hk'. apply list_elem_of_singleton in Hk'. subst k.
    apply list_elem_of_fmap in Hk as (y & Hy & Hin).
    rewrite Forall_forall in Hall. destruct (Hall y Hin) as (Hseen & _).
    rewrite <- Hy in Hseen. contradiction.
  - apply Forall_app. split.
    + eapply Forall_impl; [exact Hall|]. simpl. intros y (? & ? & ?).
      repeat split; [set_solver | assumption | assumption].
    + constructor; [|constructor]. repeat split; [set_solver | set_solver | assumption].
Qed.

Lemma run_inv seen0 xs : forall st, dedup_inv seen0 st -> dedup_inv seen0 (run xs st).
Proof.
  induction xs as [|x xs IH]; intros st Hst; simpl; [assumption|].
  apply IH, step_inv, Hst.
Qed.

Lemma dedup_inv_init seen0 : dedup_inv seen0 (seen0, []).
Proof. repeat split; cbn [fst snd]; [set_solver | constructor | constructor]. Qed.

Lemma run_app xs ys st : run (xs ++ ys) st = run ys (run xs st).
Proof. unfold Dedup.run. apply fold_left_app. Qed.

(** The output only grows at its end, and the seen-set does not depend on
    what was output before. *)
Lemma run_out_prefix xs : forall seen out,
  run xs (seen, out) = (fst (run xs (seen, [])), (out ++ snd (run xs (seen, [])))%list).
Proof.
  induction xs as [|x xs IH]; intros seen out; simpl.
  - rewrite app_nil_r. reflexivity.
  - unfold Dedup.step. cbn [fst snd].
    destruct (should_emit (key_of x) seen).
    + rewrite (IH _ (out ++ [x])%list), (IH _ ([] ++ [x])%list). cbn [fst snd].
      rewrite <- app_assoc. reflexivity.
    + apply IH.
Qed.
End DedupFacts.

Lemma hubei_key_truthy (x : Hubei.item) : Hubei.key_truthy (Hubei.key_of x) = true.
Proof.
  unfold Hubei.key_of. destruct (Hubei.detail_url x) as [u|]; [|reflexivity].
  destruct (String.eqb u EmptyString) eqn:E; simpl; [reflexivity | rewrite E; reflexivity].
Qed.

Lemma hubei_appended_app (e1 e2 : list Hubei.event) :
  Hubei.appended (e1 ++ e2) = (Hubei.appended e1 ++ Hubei.appended e2)%list.
Proof. apply omap_app. Qed.

Lemma hubei_appended_map (idx : Z) (xs : list Hubei.item) :
  Hubei.appended (List.map (Hubei.AppendJsonl idx) xs) = xs.
Proof. induction xs as [|x xs IH]; simpl; [reflexivity | f_equal; exact IH]. Qed.

(** A whole crawl appends what one run of the loop over all its pages emits. *)
Lemma hubei_crawl_run (later : list (list Hubei.item)) :
  forall cur idx seen,
    Hubei.appended (fst (Hubei.crawl later cur idx seen))
    = snd (Dedup.run Hubei.key_of Hubei.key_truthy (cur ++ concat later) (seen, [])).
Proof.
  induction later as [|next later IH]; intros cur idx seen; simpl.
  - rewrite app_nil_r. unfold Hubei.add_items.
    destruct (Dedup.run _ _ cur (seen, [])) as [seen' new] eqn:E. cbn [fst snd].
    rewrite hubei_appended_app, hubei_appended_map. simpl. apply app_nil_r.
  - unfold Hubei.add_items. rewrite run_app.
    destruct (Dedup.run _ _ cur (seen, [])) as [seen' new] eqn:E.
    specialize (IH next (idx + 1)%Z seen').
    destruct (Hubei.crawl later next (idx + 1)%Z seen') as [evs s]. cbn [fst snd] in *.
    rewrite run_out_prefix. cbn [fst snd]. rewrite <- IH.
    rewrite !hubei_appended_app, hubei_appended_map.
    change (Hubei.appended [Hubei.SaveCheckpoint (idx + 1) seen']) with (@nil Hubei.item).
    rewrite app_nil_r. reflexivity.
Qed.

(** C1, as stated, fails on 广东/cl.py: a row whose product id and product
    number are both blank has the empty identity, and the guard turns it down on
    its very first call, with an empty seen-set; such rows never reach the
    output. *)
Lemma C1_blank_identity_never_emitted :
  @Guangdong.dedup_key Scenario.sample_lib Scenario.blank_row = EmptyString /\
  Guangdong.should_emit EmptyString ∅ = false /\
  snd (@Guangdong.add_rows Scenario.sample_lib [Scenario.blank_row; Scenario.blank_row] (∅, [])) = [].
Proof. vm_compute. repeat split. Qed.

(** C1 (amended): the guard of the seen-set loop lets a key through exactly
    when it is non-blank and not yet in the seen-set; once a key is in the
    seen-set no later call lets it through, whatever rows were handled in
    between; the rows a run emits carry pairwise distinct non-blank keys, none
    of which was in the seen-set at the start.  This holds of 广东/cl.py (key:
    product id, else product number) and of 湖北/cl.py (key: detail URL, else
    the pair of title and organisation, which is never blank), there across
    all pages of a crawl. *)
Theorem C1_identity_emitted_at_most_once :
  forall (L : Py.Lib)
         (k : string) (seen : gset string) (rows : list (list (string * Py.json)))
         (out : list (list (string * Py.json)))
         (hk : Hubei.key) (hseen : gset Hubei.key) (x : Hubei.item)
         (cur : list Hubei.item) (later : list (list Hubei.item)) (idx : Z),
    (* 广东 *)
    Guangdong.should_emit k seen = Guangdong.key_truthy k && bool_decide (k ∉ seen) /\
    Guangdong.should_emit k (fst (Guangdong.add_rows rows ({[ k ]} ∪ seen, out))) = false /\
    NoDup (List.map Guangdong.dedup_key (snd (Guangdong.add_rows rows (seen, [])))) /\
    Forall (fun r => (Guangdong.dedup_key r ∉ seen) /\ Guangdong.dedup_key r <> EmptyString)
           (snd (Guangdong.add_rows rows (seen, []))) /\
    (* 湖北 *)
    Hubei.should_emit hk hseen = Hubei.key_truthy hk && bool_decide (hk ∉ hseen) /\
    Hubei.key_truthy (Hubei.key_of x) = true /\
    Hubei.should_emit hk (fst (Hubei.add_items cur ({[ hk ]} ∪ hseen))) = false /\
    NoDup (List.map Hubei.key_of (Hubei.appended (fst (Hubei.crawl later cur idx hseen)))) /\
    Forall (fun y => Hubei.key_of y ∉ hseen)
           (Hubei.appended (fst (Hubei.crawl later cur idx hseen))).
Proof.
  intros. repeat apply conj.
  - apply should_emit_eq.
  - apply should_emit_seen.
    apply (run_seen_mono Guangdong.dedup_key Guangdong.key_truthy rows ({[ k ]} ∪ seen, out)).
    cbn [fst]. set_solver.
  - apply (run_inv Guangdong.dedup_key Guangdong.key_truthy seen rows (seen, [])),
      dedup_inv_init.
  - destruct (run_inv Guangdong.dedup_key Guangdong.key_truthy seen rows (seen, [])
                (dedup_inv_init _ _ seen)) as (_ & _ & Hall).
    eapply Forall_impl; [exact Hall|]. cbn beta. intros r (_ & Hfresh & Ht).
    split; [exact Hfresh|]. intros E. unfold Guangdong.key_truthy in Ht.
    rewrite E in Ht. discriminate Ht.
  - apply should_emit_eq.
  - apply hubei_key_truthy.
  - apply should_emit_seen.
    apply (run_seen_mono Hubei.key_of Hubei.key_truthy cur ({[ hk ]} ∪ hseen, [])).
    cbn [fst]. set_solver.
  - rewrite hubei_crawl_run.
    apply (run_inv Hubei.key_of Hubei.key_truthy hseen _ (hseen, [])), dedup_inv_init.
  - rewrite hubei_crawl_run.
    destruct (run_inv Hubei.key_of Hubei.key_truthy hseen (cur ++ concat later) (hseen, [])
                (dedup_inv_init _ _ hseen)) as (_ & _ & Hall).
    eapply Forall_impl; [exact Hall|]. cbn beta. intros y (_ & Hfresh & _). exact Hfresh.
Qed.

(** ** Checkpoints on disk *)

Lemma append_snoc (s : string) (c : ascii) (rest : string) :
  (s ++ String c EmptyString) ++ rest = s ++ String c rest.
Proof.
  induction s as [|a s IH]; [reflexivity|].
  change (String a ((s ++ String c EmptyString) ++ rest) = String a (s ++ String c rest)).
  f_equal. exact IH.
Qed.

Lemma append_empty_r (s : string) : s ++ EmptyString = s.
Proof.
  induction s as [|a s IH]; [reflexivity|].
  change (String a (s ++ EmptyString) = String a s). f_equal. exact IH.
Qed.

Lemma append_length (s t : string) :
  String.length (s ++ t) = (String.length s + String.length t)%nat.
Proof.
  induction s as [|a s IH]; [reflexivity|].
  change (S (String.length (s ++ t)) = S (String.length s + String.length t)).
  f_equal. exact IH.
Qed.

Lemma tmp_path_differs (path : string) : path ++ ".tmp" <> path.
Proof.
  intros E. apply (f_equal String.length) in E. rewrite append_length in E.
  simpl in E. lia.
Qed.

Lemma run_other_path (p q : string) (ops : list Fs.op) :
  q <> p -> Forall (Fs.writes_only p) ops -> forall d, Fs.run ops d !! q = d !! q.
Proof.
  intros Hq Hall. induction Hall as [|o ops Ho _ IH]; intros d; simpl; [reflexivity|].
  unfold Fs.run in IH. rewrite IH.
  destruct o as [p'|p' c|src dst]; simpl in *; [subst p'..|contradiction].
  - apply lookup_insert_ne. congruence.
  - destruct (d !! p); [apply lookup_insert_ne; congruence | reflexivity].
Qed.

Lemma write_text_one_path (p doc : string) : Forall (Fs.writes_only p) (Fs.write_text p doc).
Proof.
  unfold Fs.write_text. constructor; [reflexivity|].
  induction (list_ascii_of_string doc); simpl; constructor; [reflexivity | assumption].
Qed.

Lemma run_appends (p : string) (cs : list ascii) :
  forall d s, d !! p = Some s ->
    Fs.run (List.map (Fs.Append p) cs) d !! p = Some (s ++ string_of_list_ascii cs).
Proof.
  induction cs as [|c cs IH]; intros d s Hs; simpl.
  - rewrite Hs. f_equal. symmetry. apply append_empty_r.
  - rewrite Hs. unfold Fs.run in IH.
    rewrite (IH _ (s ++ String c EmptyString)); [|apply lookup_insert_eq].
    rewrite append_snoc. reflexivity.
Qed.

(** A completed [write_text] leaves exactly the document under its path. *)
Lemma run_write_text (p doc : string) (d : Fs.disk) :
  Fs.run (Fs.write_text p doc) d !! p = Some doc.
Proof.
  unfold Fs.write_text. simpl.
  change (fold_left Fs.step ?o ?x) with (Fs.run o x).
  rewrite (run_appends p _ _ EmptyString); [|apply lookup_insert_eq].
  simpl. rewrite string_of_list_ascii_of_string. reflexivity.
Qed.

Lemma run_app_ops (o1 o2 : list Fs.op) (d : Fs.disk) :
  Fs.run (o1 ++ o2) d = Fs.run o2 (Fs.run o1 d).
Proof. apply fold_left_app. Qed.

Lemma run_replace (d : Fs.disk) (src dst s : string) :
  d !! src = Some s -> Fs.run [Fs.Replace src dst] d !! dst = Some s.
Proof.
  intros Hs. unfold Fs.run. cbn [fold_left Fs.step]. rewrite Hs. apply lookup_insert_eq.
Qed.

(** [save_progress], cut short anywhere, leaves the target as it was or
    holding the whole new document. *)
Lemma save_progress_atomic `{Py.Lib} (d : Fs.disk) (path : string) (n ts : Z) (k : nat) :
  let d' := Fs.crash_after k (HefeiCentre.save_progress path n ts) d in
  d' !! path = d !! path \/ d' !! path = Some (HefeiCentre.progress_doc n ts).
Proof.
  cbv zeta. unfold Fs.crash_after, HefeiCentre.save_progress.
  set (tmp := path ++ ".tmp"). set (doc := HefeiCentre.progress_doc n ts).
  set (W := Fs.write_text tmp doc).
  destruct (decide (k <= List.length W)%nat) as [Hk|Hk].
  - left. rewrite take_app_le by exact Hk.
    apply run_other_path with (p := tmp).
    + intros E. symmetry in E. exact (tmp_path_differs path E).
    + apply Forall_take, write_text_one_path.
  - right. rewrite take_ge
      by (rewrite length_app; change (List.length [Fs.Replace tmp path]) with 1%nat; lia).
    rewrite run_app_ops. apply run_replace. unfold W. apply run_write_text.
Qed.

Lemma save_progress_done `{Py.Lib} (d : Fs.disk) (path : string) (n ts : Z) :
  Fs.run (HefeiCentre.save_progress path n ts) d !! path
  = Some (HefeiCentre.progress_doc n ts).
Proof.
  unfold HefeiCentre.save_progress. rewrite run_app_ops.
  apply run_replace, run_write_text.
Qed.

(** *** A checkpoint follows the rows of its page *)

Section IterRecordsTrace.
Context `{Py.Lib}.
Import HefeiCentre.

Lemma try_fetch_quiet srv more : forall n page_no page_size,
  Forall quiet (fst (fst (try_fetch srv more n page_no page_size))).
Proof.
  induction more as [|more IH]; intros n page_no page_size; cbn [try_fetch];
    destruct (fetch_page _); cbn [fst]; try (repeat constructor; fail).
  specialize (IH (S n) page_no page_size).
  destruct (try_fetch srv more (S n) page_no page_size) as [[evs n'] r].
  cbn [fst] in *. repeat constructor. exact IH.
Qed.

Lemma quiet_from_page q evs : Forall quiet evs -> Forall (from_page q) evs.
Proof.
  intros Hq. eapply Forall_impl; [exact Hq|]. intros [ | | |]; simpl; tauto.
Qed.

Lemma yields_from_page p ys : Forall (yield_of p) ys -> Forall (from_page p) ys.
Proof.
  intros Hy. eapply Forall_impl; [exact Hy|]. intros [ | | |]; simpl; try tauto. lia.
Qed.

Lemma from_page_weaken p q evs : (p <= q)%Z -> Forall (from_page q) evs -> Forall (from_page p) evs.
Proof.
  intros Hpq Hq. eapply Forall_impl; [exact Hq|]. intros [ | | |]; simpl; try tauto. lia.
Qed.

Lemma rows_before_saves_app evs rest :
  Forall (fun e => quiet e \/ exists p, yield_of p e) evs ->
  rows_before_saves rest -> rows_before_saves (evs ++ rest).
Proof.
  intros Hev Hrest. induction Hev as [|e evs He _ IH]; [exact Hrest|].
  destruct e; simpl in *; try exact IH. destruct He as [[]|[p []]].
Qed.

(** One page of the loop: requests, the rows of the page, the save, and
    whatever follows, which belongs to later pages. *)
Lemma page_block page_no evs ys tail :
  Forall quiet evs -> Forall (yield_of page_no) ys ->
  Forall (from_page (page_no + 1)) tail -> rows_before_saves tail ->
  Forall (from_page page_no) ((evs ++ ys ++ [SaveProgress (page_no + 1)]) ++ tail) /\
  rows_before_saves ((evs ++ ys ++ [SaveProgress (page_no + 1)]) ++ tail).
Proof.
  intros Hq Hy Ht Hr. split.
  - repeat apply Forall_app_2.
    + apply quiet_from_page, Hq.
    + apply yields_from_page, Hy.
    + repeat constructor.
    + apply (from_page_weaken page_no (page_no + 1)); [lia | exact Ht].
  - rewrite <- !app_assoc. apply rows_before_saves_app.
    { eapply Forall_impl; [exact Hq|]. intros e He. left. exact He. }
    apply rows_before_saves_app.
    { eapply Forall_impl; [exact Hy|]. intros e He. right. exists page_no. exact He. }
    simpl. split; assumption.
Qed.

Lemma iter_loop_trace srv start_page page_size max_pages fuel :
  forall n page_no seen_empty,
    let evs := fst (iter_loop fuel srv start_page page_size max_pages n page_no seen_empty) in
    Forall (from_page page_no) evs /\ rows_before_saves evs.
Proof.
  induction fuel as [|fuel IH]; intros n page_no seen_empty; cbv zeta.
  - simpl. split; constructor.
  - cbn [iter_loop].
    destruct (over_max_pages _ _ _); [split; constructor|].
    pose proof (try_fetch_quiet srv 2 n page_no page_size) as Hq.
    destruct (try_fetch srv 2 n page_no page_size) as [[evs n'] r]. cbn [fst] in Hq.
    assert (Hquiet : Forall (from_page page_no) evs /\ rows_before_saves evs).
    { split; [apply quiet_from_page, Hq|].
      rewrite <- (app_nil_r evs). apply rows_before_saves_app; [|exact I].
      eapply Forall_impl; [exact Hq|]. intros e He. left. exact He. }
    destruct (Py.bind r page_fields) as [[records pages]|e]; [|exact Hquiet].
    assert (Hcont : forall ys se,
      Forall (yield_of page_no) ys ->
      let r := if pages_reached pages page_no
               then ((evs ++ ys ++ [SaveProgress (page_no + 1)])%list, Returned)
               else let '(rest, o) := iter_loop fuel srv start_page page_size max_pages n'
                                                (page_no + 1) se in
                    (((evs ++ ys ++ [SaveProgress (page_no + 1)]) ++ Sleep :: rest)%list, o) in
      Forall (from_page page_no) (fst r) /\ rows_before_saves (fst r)).
    { intros ys se Hy. cbv zeta. destruct (pages_reached pages page_no).
      - cbn [fst]. rewrite <- (app_nil_r (evs ++ ys ++ _)).
        apply page_block; [exact Hq | exact Hy | constructor | exact I].
      - specialize (IH n' (page_no + 1)%Z se). cbv zeta in IH.
        destruct (iter_loop fuel srv start_page page_size max_pages n' (page_no + 1) se)
          as [rest o]. cbn [fst] in *. destruct IH as [IH1 IH2].
        apply page_block; [exact Hq | exact Hy | constructor; [exact I | exact IH1] | exact IH2]. }
    destruct (negb (Py.truthy records)).
    + destruct (2 <=? seen_empty + 1)%Z; [exact Hquiet|].
      apply (Hcont [] (seen_empty + 1)%Z). constructor.
    + destruct (dict_records records) as [recs|e]; [|exact Hquiet].
      apply (Hcont _ 0%Z). apply Forall_forall. intros e He.
      apply list_elem_of_fmap in He as (rec & -> & _). reflexivity.
Qed.
End IterRecordsTrace.

Lemma hubei_crawl_trace (later : list (list Hubei.item)) :
  forall cur idx seen,
    Forall (Hubei.from_page idx) (fst (Hubei.crawl later cur idx seen)) /\
    Hubei.items_before_saves (fst (Hubei.crawl later cur idx seen)).
Proof.
  assert (Happ : forall idx new tail,
    Forall (Hubei.from_page (idx + 1)) tail -> Hubei.items_before_saves tail ->
    forall seen',
    Forall (Hubei.from_page idx)
      ((List.map (Hubei.AppendJsonl idx) new ++ [Hubei.SaveCheckpoint (idx + 1) seen']) ++ tail) /\
    Hubei.items_before_saves
      ((List.map (Hubei.AppendJsonl idx) new ++ [Hubei.SaveCheckpoint (idx + 1) seen']) ++ tail)).
  { intros idx new tail Ht Hs seen'. split.
    - repeat apply Forall_app_2.
      + apply Forall_forall. intros e He.
        apply list_elem_of_fmap in He as (x & -> & _). simpl. lia.
      + repeat constructor.
      + eapply Forall_impl; [exact Ht|]. intros [p x|p s]; simpl; [lia | tauto].
    - rewrite <- app_assoc. induction new as [|x new IH]; simpl; [split; assumption | exact IH]. }
  induction later as [|next later IH]; intros cur idx seen; cbn [Hubei.crawl];
    destruct (Hubei.add_items cur seen) as [seen' new].
  - cbn [fst]. rewrite <- (app_nil_r (_ ++ [_])). apply Happ; [constructor | exact I].
  - specialize (IH next (idx + 1)%Z seen').
    destruct (Hubei.crawl later next (idx + 1) seen') as [evs s]. cbn [fst] in *.
    destruct IH as [IH1 IH2]. apply Happ; assumption.
Qed.

Lemma run_save_checkpoint `{Py.Lib} (d : Fs.disk) (idx : Z) (seen : gset Hubei.key) :
  Fs.run (Hubei.save_checkpoint idx seen) d !! Hubei.CHECKPOINT
  = Some (Hubei.checkpoint_doc idx seen).
Proof. apply run_write_text. Qed.

(** C2, as stated, fails on 湖北/cl.py: [save_checkpoint] opens
    checkpoint.json itself for writing, so a run cut short right after the
    [open] leaves an empty file where the previous checkpoint was: neither the
    old document nor the new one. *)
Lemma C2_hubei_checkpoint_truncated_on_crash :
  let old := @Hubei.checkpoint_doc Scenario.sample_lib 2 ∅ in
  let new := @Hubei.checkpoint_doc Scenario.sample_lib 3 ∅ in
  let d : Fs.disk := {[ Hubei.CHECKPOINT := old ]} in
  let d' := Fs.crash_after 1 (@Hubei.save_checkpoint Scenario.sample_lib 3 ∅) d in
  d !! Hubei.CHECKPOINT = Some old /\
  d' !! Hubei.CHECKPOINT = Some EmptyString /\
  old <> EmptyString /\ new <> EmptyString.
Proof.
  cbv zeta. repeat apply conj.
  - apply lookup_singleton_eq.
  - unfold Fs.crash_after, Hubei.save_checkpoint, Fs.write_text.
    cbn [take Fs.run fold_left Fs.step]. apply lookup_insert_eq.
  - vm_compute. discriminate.
  - vm_compute. discriminate.
Qed.

(** C2 (amended): [save_progress] of 安徽/合肥中心.py writes the checkpoint to
    [path.tmp] and then replaces the target: cut short after any number of
    writes, it leaves the target with its previous content or with the whole
    new checkpoint, and run to its end it leaves the whole new checkpoint;
    [iter_records] saves [next_page_no = n] only once every row of the pages
    before [n] has been yielded (on three pages with [pages = 3] reported it
    saves 2, 3 and 4).  [save_checkpoint] of 湖北/cl.py rewrites
    checkpoint.json in place: run to its end it leaves the whole new
    checkpoint, and [main] saves [page_index = n] only once every new item of
    the pages before [n] has been appended to the JSONL output. *)
Theorem C2_checkpoint_whole_and_after_its_page :
  forall (L : Py.Lib) (d : Fs.disk) (path : string) (n ts : Z) (k : nat)
         (srv : Http.server) (start_page page_size : Z) (max_pages : option Z) (fuel : nat)
         (idx : Z) (seen : gset Hubei.key)
         (later : list (list Hubei.item)) (cur : list Hubei.item)
         (fields : nat -> list (string * Py.json)),
    (Fs.crash_after k (HefeiCentre.save_progress path n ts) d !! path = d !! path \/
     Fs.crash_after k (HefeiCentre.save_progress path n ts) d !! path
       = Some (HefeiCentre.progress_doc n ts)) /\
    Fs.run (HefeiCentre.save_progress path n ts) d !! path
      = Some (HefeiCentre.progress_doc n ts) /\
    HefeiCentre.rows_before_saves
      (fst (HefeiCentre.iter_records fuel srv start_page page_size max_pages)) /\
    HefeiCentre.saved
      (fst (HefeiCentre.iter_records (3 + fuel)
              (Scenario.hefei_source [("pages", Py.JInt 3)] fields) 1 10 None))
      = [2; 3; 4]%Z /\
    Fs.run (Hubei.save_checkpoint idx seen) d !! Hubei.CHECKPOINT
      = Some (Hubei.checkpoint_doc idx seen) /\
    Hubei.items_before_saves (fst (Hubei.crawl later cur idx seen)).
Proof.
  intros. repeat apply conj.
  - apply save_progress_atomic.
  - apply save_progress_done.
  - apply (iter_loop_trace srv start_page page_size max_pages fuel 0 start_page 0).
  - vm_compute. reflexivity.
  - apply run_save_checkpoint.
  - apply hubei_crawl_trace.
Qed.

(** ** Flattening a record *)

Section FlattenFacts.
Variable f : Py.json -> Py.json.

Local Abbreviation fold_rec :=
  (fold_left (fun (out : Csv.row) (kv : string * Py.json) => <[fst kv := f (snd kv)]> out)).

(** What the loop leaves under a key: the flattened value of the record's
    entry for it, or what the row held before. *)
Lemma fold_rec_lookup (rec : list (string * Py.json)) :
  NoDup (List.map fst rec) ->
  forall (out : Csv.row) (k : string),
    fold_rec rec out !! k
    = match (list_to_map rec : gmap string Py.json) !! k with
      | Some v => Some (f v)
      | None => out !! k
      end.
Proof.
  induction rec as [|[k0 v0] rec IH]; intros Hnd out k; simpl.
  - rewrite lookup_empty. reflexivity.
  - change (NoDup (k0 :: List.map fst rec)) in Hnd.
    apply NoDup_cons in Hnd as [Hk0 Hnd]. rewrite (IH Hnd).
    destruct (decide (k = k0)) as [->|Hne].
    + rewrite lookup_insert_eq.
      rewrite (not_elem_of_list_to_map_1 rec k0); [apply lookup_insert_eq | exact Hk0].
    + rewrite lookup_insert_ne by congruence.
      destruct (list_to_map rec !! k); [reflexivity|].
      apply lookup_insert_ne. congruence.
Qed.

Lemma fold_rec_perm (rec1 rec2 : list (string * Py.json)) :
  NoDup (List.map fst rec1) -> rec1 ≡ₚ rec2 -> fold_rec rec1 ∅ = fold_rec rec2 ∅.
Proof.
  intros Hnd Hp. apply map_eq. intros k.
  assert (Hnd2 : NoDup (List.map fst rec2)).
  { rewrite <- (Permutation_map fst Hp). exact Hnd. }
  rewrite !fold_rec_lookup by assumption.
  rewrite (list_to_map_proper rec1 rec2 Hnd Hp). reflexivity.
Qed.
End FlattenFacts.

(** C3, as stated, fails: the two records hold the same key-value pairs, but
    the nested object lists its keys in another order, [json.dumps] follows
    that order, and the flat rows differ in the column of the nested object. *)
Lemma C3_nested_key_order_changes_row :
  Py.same_mapping (Py.JObj Scenario.record_a) (Py.JObj Scenario.record_b) = true /\
  @HefeiCentre.flatten_record Scenario.sample_lib Scenario.record_a !! "owner"
    = Some (Py.JStr ("{" ++ Py.quote "name" ++ ": " ++ Py.quote "x" ++ ", "
                         ++ Py.quote "city" ++ ": " ++ Py.quote "y" ++ "}")) /\
  @HefeiCentre.flatten_record Scenario.sample_lib Scenario.record_b !! "owner"
    = Some (Py.JStr ("{" ++ Py.quote "city" ++ ": " ++ Py.quote "y" ++ ", "
                         ++ Py.quote "name" ++ ": " ++ Py.quote "x" ++ "}")) /\
  @HefeiCentre.flatten_record Scenario.sample_lib Scenario.record_a
    <> @HefeiCentre.flatten_record Scenario.sample_lib Scenario.record_b.
Proof.
  assert (Ha : @HefeiCentre.flatten_record Scenario.sample_lib Scenario.record_a !! "owner"
    = Some (Py.JStr ("{" ++ Py.quote "name" ++ ": " ++ Py.quote "x" ++ ", "
                         ++ Py.quote "city" ++ ": " ++ Py.quote "y" ++ "}"))).
  { vm_compute. reflexivity. }
  assert (Hb : @HefeiCentre.flatten_record Scenario.sample_lib Scenario.record_b !! "owner"
    = Some (Py.JStr ("{" ++ Py.quote "city" ++ ": " ++ Py.quote "y" ++ ", "
                         ++ Py.quote "name" ++ ": " ++ Py.quote "x" ++ "}"))).
  { vm_compute. reflexivity. }
  repeat apply conj; [vm_compute; reflexivity | exact Ha | exact Hb |].
  intros E. rewrite E, Hb in Ha. vm_compute in Ha. discriminate Ha.
Qed.

(** C3 (amended): two records that hold the same key-value pairs, whatever
    the order of their top-level keys, flatten to the same row; a nested
    object or list is compared as it stands, the order of its keys included,
    since its column is the text [json.dumps] prints for it. *)
Theorem C3_flatten_ignores_top_level_order :
  forall (L : Py.Lib) (rec1 rec2 : list (string * Py.json)),
    NoDup (List.map fst rec1) -> rec1 ≡ₚ rec2 ->
    HefeiCentre.flatten_record rec1 = HefeiCentre.flatten_record rec2 /\
    HefeiFlow.flatten_record rec1 = HefeiFlow.flatten_record rec2.
Proof.
  intros L rec1 rec2 Hnd Hp. split.
  - apply (fold_rec_perm HefeiCentre.flatten_value rec1 rec2 Hnd Hp).
  - apply (fold_rec_perm HefeiFlow.flatten_value rec1 rec2 Hnd Hp).
Qed.

Lemma C3_flatten_ignores_top_level_order_witness :
  @HefeiCentre.flatten_record Scenario.sample_lib
     [("id", Py.JInt 1); ("name", Py.JStr "x")]
  = @HefeiCentre.flatten_record Scenario.sample_lib
     [("name", Py.JStr "x"); ("id", Py.JInt 1)] /\
  @HefeiFlow.flatten_record Scenario.sample_lib
     [("id", Py.JInt 1); ("name", Py.JStr "x")]
  = @HefeiFlow.flatten_record Scenario.sample_lib
     [("name", Py.JStr "x"); ("id", Py.JInt 1)].
Proof.
  apply (C3_flatten_ignores_top_level_order Scenario.sample_lib
           [("id", Py.JInt 1); ("name", Py.JStr "x")]
           [("name", Py.JStr "x"); ("id", Py.JInt 1)]).
  - apply (bool_decide_unpack _). vm_compute. exact I.
  - apply perm_swap.
Defined.

(** ** Pagination on 25 records served 10, 10, 5 *)

(** C4, as stated, fails on 安徽/合肥中心.py: [iter_records] has no rule for
    a short page.  With no [pages] field in the replies it goes on after the
    5 records of page 3, and stops only on the second empty page in a row:
    five pages are fetched. *)
Lemma C4_iter_records_fetches_five_pages :
  let run := @HefeiCentre.iter_records Scenario.sample_lib 10
               (Scenario.hefei_source [] (fun i => [("id", Py.JInt (Z.of_nat i))]))
               1 10 None in
  HefeiCentre.fetched (fst run) = [1; 2; 3; 4; 5]%Z /\
  List.length (HefeiCentre.yielded (fst run)) = 25%nat /\
  snd run = HefeiCentre.Returned.
Proof. vm_compute. repeat split. Qed.

Section BeijingSteps.
Context `{Py.Lib}.
Import Py Beijing.

Lemma normalize_all_objects (fs : list (list (string * json))) :
  normalize_all (List.map JObj fs) = Ok (List.map join_keywords fs).
Proof.
  induction fs as [|kvs fs IH]; [reflexivity|].
  cbn [List.map normalize_all]. rewrite IH. reflexivity.
Qed.

(** One turn of the loop on a page that holds the objects [fs]. *)
Lemma crawl_loop_page fuel srv page_size max_pages n page_num all_rows
    (fs : list (list (string * json))) :
  (max_pages <? page_num)%Z = false ->
  fetch_page (srv n page_num page_size) = Ok (JArr (List.map JObj fs)) ->
  fs <> [] ->
  crawl_loop (S fuel) srv page_size max_pages n page_num all_rows
  = if (Z.of_nat (List.length fs) <? page_size)%Z
    then ([page_num], (all_rows ++ List.map join_keywords fs)%list, Finished)
    else
      let '(ps, rows, o) :=
        crawl_loop fuel srv page_size max_pages (S n) (page_num + 1)
                   (all_rows ++ List.map join_keywords fs)%list in
      (page_num :: ps, rows, o).
Proof.
  intros Hmax Hfetch Hfs. cbn [crawl_loop]. rewrite Hmax, Hfetch.
  destruct fs as [|kvs fs]; [contradiction|].
  change (truthy (JArr (List.map JObj (kvs :: fs)))) with true. cbn [negb].
  cbn [page_items bind]. rewrite normalize_all_objects. cbn [bind].
  rewrite length_map. reflexivity.
Qed.
End BeijingSteps.

(** C4 (amended): on 25 records served as pages of 10, 10 and 5, with a
    requested page size of 10, whatever the records hold:
    - [crawl_all] of 北京/cl.py, which stops on a short page, fetches pages
      1 to 3 and stops;
    - [iter_records] of 安徽/合肥中心.py fetches pages 1 to 3 when the replies
      report [pages = 3], and pages 1 to 5 when they report no page count
      (it stops on the second empty page in a row);
    - the loop of [scrape_all] of 合肥数据流通/cl.py fetches pages 1 to 3 when
      the replies report [total = 25] or [pages = 3], and pages 1 to 4 when
      they report neither (it stops on the empty page 4).
    Each run ends by itself and has collected the 25 records. *)
Theorem C4_pages_fetched_on_25_records :
  forall (L : Py.Lib) (fields : nat -> list (string * Py.json)) (extra : nat),
    (let '(pages, rows, o) :=
       Beijing.crawl_all (3 + extra) (Scenario.beijing_source fields) 10 10000 in
     pages = [1; 2; 3]%Z /\ List.length rows = 25%nat /\ o = Beijing.Finished) /\
    (let '(evs, o) :=
       HefeiCentre.iter_records (3 + extra)
         (Scenario.hefei_source [("pages", Py.JInt 3)] fields) 1 10 None in
     HefeiCentre.fetched evs = [1; 2; 3]%Z /\
     List.length (HefeiCentre.yielded evs) = 25%nat /\ o = HefeiCentre.Returned) /\
    (let '(evs, o) :=
       HefeiCentre.iter_records (5 + extra) (Scenario.hefei_source [] fields) 1 10 None in
     HefeiCentre.fetched evs = [1; 2; 3; 4; 5]%Z /\
     List.length (HefeiCentre.yielded evs) = 25%nat /\ o = HefeiCentre.Returned) /\
    (let '(evs, rows, o) :=
       HefeiFlow.crawl_loop (3 + extra)
         (Scenario.hefei_source [("total", Py.JInt 25)] fields) 1 10 None 0 1 None None [] in
     HefeiFlow.fetched evs = [1; 2; 3]%Z /\
     List.length rows = 25%nat /\ o = HefeiFlow.Finished) /\
    (let '(evs, rows, o) :=
       HefeiFlow.crawl_loop (4 + extra)
         (Scenario.hefei_source [("pages", Py.JInt 3)] fields) 1 10 None 0 1 None None [] in
     HefeiFlow.fetched evs = [1; 2; 3]%Z /\
     List.length rows = 25%nat /\ o = HefeiFlow.Finished) /\
    (let '(evs, rows, o) :=
       HefeiFlow.crawl_loop (4 + extra)
         (Scenario.hefei_source [] fields) 1 10 None 0 1 None None [] in
     HefeiFlow.fetched evs = [1; 2; 3; 4]%Z /\
     List.length rows = 25%nat /\ o = HefeiFlow.Finished).
Proof.
  intros L fields extra. split; [|repeat (split; [vm_compute; repeat split|]);
                                   vm_compute; repeat split].
  unfold Beijing.crawl_all. change (3 + extra)%nat with (S (S (S extra))).
  rewrite (crawl_loop_page _ _ _ _ _ _ _ (List.map fields (seq 0 10)));
    [|reflexivity|reflexivity|discriminate].
  change (Z.of_nat _ <? 10)%Z with false. cbv iota.
  rewrite (crawl_loop_page _ _ _ _ _ _ _ (List.map fields (seq 10 10)));
    [|reflexivity|reflexivity|discriminate].
  change (Z.of_nat _ <? 10)%Z with false. cbv iota.
  rewrite (crawl_loop_page _ _ _ _ _ _ _ (List.map fields (seq 20 5)));
    [|reflexivity|reflexivity|discriminate].
  change (Z.of_nat _ <? 10)%Z with true. cbv iota.
  repeat split.
Qed.

(** ** The header of the table *)

Lemma sorted_perm (keys : gset string) : Csv.sorted keys ≡ₚ elements keys.
Proof. apply merge_sort_Permutation. Qed.

Lemma elem_of_sorted (keys : gset string) (k : string) : k ∈ Csv.sorted keys <-> k ∈ keys.
Proof. rewrite sorted_perm. apply elem_of_elements. Qed.

Lemma NoDup_sorted (keys : gset string) : NoDup (Csv.sorted keys).
Proof. rewrite sorted_perm. apply NoDup_elements. Qed.

Lemma Sorted_sorted (keys : gset string) : Sorted Csv.str_le (Csv.sorted keys).
Proof. apply Sorted_merge_sort. apply _. Qed.

Lemma elem_of_all_keys (rows : list Csv.row) (k : string) :
  k ∈ Csv.all_keys rows <-> exists r, r ∈ rows /\ is_Some (r !! k).
Proof.
  unfold Csv.all_keys. rewrite elem_of_union_list. split.
  - intros (X & HX & Hk). apply list_elem_of_fmap in HX as (r & -> & Hr).
    exists r. split; [exact Hr | apply elem_of_dom, Hk].
  - intros (r & Hr & Hk). exists (dom r). split.
    + apply list_elem_of_fmap. exists r. split; [reflexivity | exact Hr].
    + apply elem_of_dom, Hk.
Qed.

(** The cell under column [j] of a written line is the row's value for
    that column's name, or the empty string when the row has none. *)
Lemma writerow_cell (fieldnames : list string) (r : Csv.row) (j : nat) (k : string) :
  fieldnames !! j = Some k ->
  Csv.writerow fieldnames r !! j = Some (default (Py.JStr EmptyString) (r !! k)).
Proof.
  intros Hj. unfold Csv.writerow.
  change (List.map ?g fieldnames) with (g <$> fieldnames).
  rewrite list_lookup_fmap, Hj. reflexivity.
Qed.

(** C5, as stated, fails on 安徽/合肥中心.py: [scrape_all] fixes the field
    names on the first row it receives and ignores what is extra in later
    rows, so the column "b" of the second row is in neither the header nor
    its line, while the union of the keys is a, b. *)
Lemma C5_streamed_table_drops_new_columns :
  HefeiCentre.write_rows true [Scenario.row_1; Scenario.row_2]
    = [[Py.JStr "a"]; [Py.JInt 1]; [Py.JInt 2]] /\
  Scenario.row_2 !! "b" = Some (Py.JInt 3) /\
  Csv.sorted (Csv.all_keys [Scenario.row_1; Scenario.row_2]) = ["a"; "b"].
Proof. vm_compute. repeat split. Qed.

(** C5 (amended): [scrape_all] of 合肥数据流通/cl.py, which buffers every row
    before it writes, gives the table a header that lists, sorted and without
    repeats, exactly the keys that occur in some row; every row gets one line,
    whose cell under a column is the row's value for that key, or the empty
    string when the row lacks the key, so no key of any row is left out; the
    table a completed crawl writes is this table of the rows it collected.
    [scrape_all] of 安徽/合肥中心.py, which writes while it crawls, takes the
    sorted keys of the first row as the field names of every line, and writes
    them as a header when it creates the file. *)
Theorem C5_header_is_union_of_row_keys :
  forall (rows : list Csv.row) (row0 : Csv.row) (later : list Csv.row),
    let header := fst (HefeiFlow.write_table rows) in
    let body := snd (HefeiFlow.write_table rows) in
    (forall k, k ∈ header <-> exists r, r ∈ rows /\ is_Some (r !! k)) /\
    NoDup header /\ Sorted Csv.str_le header /\
    List.length body = List.length rows /\
    (forall i r j k, rows !! i = Some r -> header !! j = Some k ->
       exists line, body !! i = Some line /\
                    line !! j = Some (default (Py.JStr EmptyString) (r !! k))) /\
    (forall r k v, r ∈ rows -> r !! k = Some v ->
       exists j, header !! j = Some k) /\
    (forall (L : Py.Lib) fuel srv start_page page_size max_pages table,
       snd (HefeiFlow.scrape_all fuel srv start_page page_size max_pages) = Some (Py.Ok table) ->
       table = HefeiFlow.write_table
                 (snd (fst (HefeiFlow.crawl_loop fuel srv start_page page_size max_pages
                              0 start_page None None [])))) /\
    HefeiCentre.write_rows true (row0 :: later)
      = Csv.header_line (Csv.sorted (dom row0))
          :: List.map (Csv.writerow (Csv.sorted (dom row0))) (row0 :: later) /\
    HefeiCentre.write_rows false (row0 :: later)
      = List.map (Csv.writerow (Csv.sorted (dom row0))) (row0 :: later).
Proof.
  intros rows row0 later header body. unfold header, body, HefeiFlow.write_table.
  cbn [fst snd]. repeat apply conj.
  - intros k. rewrite elem_of_sorted. apply elem_of_all_keys.
  - apply NoDup_sorted.
  - apply Sorted_sorted.
  - apply length_map.
  - intros i r j k Hi Hj. exists (Csv.writerow (Csv.sorted (Csv.all_keys rows)) r). split.
    + change (List.map ?g rows) with (g <$> rows). rewrite list_lookup_fmap, Hi. reflexivity.
    + apply writerow_cell, Hj.
  - intros r k v Hr Hk. apply list_elem_of_lookup. apply elem_of_sorted, elem_of_all_keys.
    exists r. split; [exact Hr | rewrite Hk; eexists; reflexivity].
  - intros L fuel srv start_page page_size max_pages table. unfold HefeiFlow.scrape_all.
    destruct (HefeiFlow.crawl_loop _ _ _ _ _ _ _ _ _ _) as [[evs all_rows] o]. cbn [fst snd].
    destruct o; [|discriminate..]. destruct all_rows; [discriminate|].
    intros [= <-]. reflexivity.
  - reflexivity.
  - reflexivity.
Qed.

(** ** Loading a checkpoint *)

(** C6, as stated, fails on 湖北/cl.py: [load_checkpoint] has no handler
    around [open] and [json.load], so a checkpoint file that cannot be read,
    or whose text is no JSON document, makes it raise, and [main] with it. *)
Lemma C6_hubei_load_raises_on_bad_file :
  Hubei.load_checkpoint (Fs.Content "{" None) = Py.Raise Py.JSONDecodeError /\
  Hubei.load_checkpoint Fs.Unreadable = Py.Raise Py.OSError.
Proof. split; reflexivity. Qed.

(** C6 (amended): [load_progress] of 安徽/合肥中心.py never raises and returns
    a page number of at least 1: it returns 1 when the progress file is
    absent, cannot be read, holds no JSON document, holds a document that is
    no object, or holds a [next_page_no] that [int] rejects or that is below
    1, and the stored page otherwise.  [load_checkpoint] of 湖北/cl.py returns
    the default checkpoint (page 1, no seen keys) when the file is absent and
    the stored document when there is one. *)
Theorem C6_load_falls_back_to_page_one :
  forall (L : Py.Lib) (f : Fs.file) (text : string) (doc : Py.json)
         (fields : list (string * Py.json)) (n : Z),
    (1 <= HefeiCentre.load_progress f)%Z /\
    HefeiCentre.load_progress Fs.Absent = 1%Z /\
    HefeiCentre.load_progress Fs.Unreadable = 1%Z /\
    HefeiCentre.load_progress (Fs.Content text None) = 1%Z /\
    (Py.is_dict doc = false -> HefeiCentre.load_progress (Fs.Content text (Some doc)) = 1%Z) /\
    (Py.assoc "next_page_no" fields = None ->
       HefeiCentre.load_progress (Fs.Content text (Some (Py.JObj fields))) = 1%Z) /\
    (forall v e, Py.assoc "next_page_no" fields = Some v -> Py.py_int v = Py.Raise e ->
       HefeiCentre.load_progress (Fs.Content text (Some (Py.JObj fields))) = 1%Z) /\
    (Py.assoc "next_page_no" fields = Some (Py.JInt n) ->
       HefeiCentre.load_progress (Fs.Content text (Some (Py.JObj fields))) = Z.max 1 n) /\
    Hubei.load_checkpoint Fs.Absent = Py.Ok Hubei.default_checkpoint /\
    Hubei.load_checkpoint (Fs.Content text (Some doc)) = Py.Ok doc.
Proof.
  intros L f text doc fields n. repeat apply conj; try reflexivity.
  - unfold HefeiCentre.load_progress.
    destruct f as [| |t [obj|]]; try lia; destruct (HefeiCentre.read_next_page_no _); lia.
  - intros Hd. destruct doc; try discriminate Hd; reflexivity.
  - intros Hk. unfold HefeiCentre.load_progress, HefeiCentre.read_next_page_no,
      Py.get_default. rewrite Hk. reflexivity.
  - intros v e Hk Hv. unfold HefeiCentre.load_progress, HefeiCentre.read_next_page_no,
      Py.get_default. rewrite Hk.
    change (Py.bind (Py.Ok (default (Py.JInt 1) (Some v))) Py.py_int) with (Py.py_int v).
    rewrite Hv. reflexivity.
  - intros Hk. unfold HefeiCentre.load_progress, HefeiCentre.read_next_page_no,
      Py.get_default. rewrite Hk. reflexivity.
Qed.

(** ** A failure declared in the body of a 200 response *)

Section BusinessFailure.
Context `{Py.Lib}.
Import Py Http HefeiCentre.

Lemma fetch_page_declared_failure (resp : response) :
  declares_failure resp = true ->
  exists msg, fetch_page (Ok resp) = Raise (RuntimeError msg).
Proof.
  unfold declares_failure, fetch_page. intros Hf.
  apply andb_true_iff in Hf as [Hs Hb]. rewrite Hs. cbn [negb].
  unfold is_likely_blocked.
  destruct (negb (contains "application/json" _)).
  - destruct (_ || _); eexists; reflexivity.
  - destruct (body resp) as [[| | | | | |kvs]|]; try discriminate Hb.
    destruct (assoc "success" kvs) as [[|[|]| | | | |]|]; try discriminate Hb.
    eexists. reflexivity.
Qed.

(** [fetch_page] hands back a document only when its [success] is [True]. *)
Lemma fetch_page_ok (reply : result response) (data : json) :
  fetch_page reply = Ok data -> success_is_true data = true.
Proof.
  unfold fetch_page. destruct reply as [resp|e]; [|discriminate].
  destruct (negb (status_code resp =? 200)%Z); [discriminate|].
  destruct (is_likely_blocked resp) as [[|] reason]; [discriminate|].
  destruct (body resp) as [d|]; [|discriminate].
  destruct (success_is_true d) eqn:E; [|discriminate].
  intros [= <-]. exact E.
Qed.

Lemma try_fetch_attempts srv more : forall n page_no page_size,
  Forall (attempt_at page_no) (fst (fst (try_fetch srv more n page_no page_size))).
Proof.
  induction more as [|more IH]; intros n page_no page_size; cbn [try_fetch];
    destruct (fetch_page _); cbn [fst]; try (repeat constructor; fail).
  specialize (IH (S n) page_no page_size).
  destruct (try_fetch srv more (S n) page_no page_size) as [[evs n'] r].
  cbn [fst] in *. repeat constructor. exact IH.
Qed.

(** When every attempt fails with a [RuntimeError], so does the retry loop. *)
Lemma try_fetch_all_fail srv page_no page_size more :
  (forall n, exists msg, fetch_page (srv n page_no page_size) = Raise (RuntimeError msg)) ->
  forall n, exists msg,
    snd (try_fetch srv more n page_no page_size) = Raise (RuntimeError msg).
Proof.
  intros Hfail. induction more as [|more IH]; intros n; cbn [try_fetch];
    destruct (Hfail n) as [msg Hmsg]; rewrite Hmsg.
  - exists msg. reflexivity.
  - destruct (IH (S n)) as [msg' Hmsg'].
    destruct (try_fetch srv more (S n) page_no page_size) as [[evs n'] r].
    cbn [snd] in *. exists msg'. exact Hmsg'.
Qed.

Lemma attempts_no_progress p q evs :
  Forall (attempt_at q) evs -> Forall (no_progress p) evs.
Proof.
  intros Ha. eapply Forall_impl; [exact Ha|]. intros [ | | |]; simpl; tauto.
Qed.

Lemma attempts_fetch p q evs :
  Forall (attempt_at q) evs -> In (Fetch p) evs -> p = q.
Proof.
  intros Ha Hin. rewrite Forall_forall in Ha.
  apply list_elem_of_In in Hin. exact (Ha _ Hin).
Qed.

(** A crawl that meets a page whose every reply fails stops there: nothing
    of that page is handed over, the checkpoint after it is not saved, and
    the crawl ends with the error. *)
Lemma iter_loop_failing_page srv start_page page_size max_pages p :
  (forall n, exists msg, fetch_page (srv n p page_size) = Raise (RuntimeError msg)) ->
  forall fuel n page_no seen_empty, (page_no <= p)%Z ->
    let run := iter_loop fuel srv start_page page_size max_pages n page_no seen_empty in
    Forall (no_progress p) (fst run) /\
    (In (Fetch p) (fst run) -> exists msg, snd run = Raised (RuntimeError msg)).
Proof.
  intros Hfail. induction fuel as [|fuel IH]; intros n page_no seen_empty Hle; cbv zeta.
  - simpl. split; [constructor | intros []].
  - cbn [iter_loop].
    destruct (over_max_pages _ _ _); [split; [constructor | intros []]|].
    pose proof (try_fetch_attempts srv 2 n page_no page_size) as Ha.
    pose proof (try_fetch_all_fail srv p page_size 2 Hfail n) as Hall.
    destruct (decide (page_no = p)) as [->|Hne].
    + destruct (try_fetch srv 2 n p page_size) as [[evs n'] r]. cbn [fst snd] in *.
      destruct Hall as [msg ->]. cbn [bind fst snd]. split.
      * apply (attempts_no_progress p p), Ha.
      * intros _. exists msg. reflexivity.
    + clear Hall. destruct (try_fetch srv 2 n page_no page_size) as [[evs n'] r].
      cbn [fst] in Ha.
      assert (Hquiet : forall o, Forall (no_progress p) evs /\
                (In (Fetch p) evs -> exists msg, o = Raised (RuntimeError msg))).
      { intros o. split; [apply (attempts_no_progress p page_no), Ha|].
        intros Hin. apply (attempts_fetch p page_no) in Hin; [|exact Ha]. congruence. }
      destruct (bind r page_fields) as [[records pages]|e]; [|apply Hquiet].
      assert (Hcont : forall ys se,
        Forall (yield_of page_no) ys ->
        let r := if pages_reached pages page_no
                 then ((evs ++ ys ++ [SaveProgress (page_no + 1)])%list, Returned)
                 else let '(rest, o) := iter_loop fuel srv start_page page_size max_pages n'
                                                  (page_no + 1) se in
                      (((evs ++ ys ++ [SaveProgress (page_no + 1)]) ++ Sleep :: rest)%list, o) in
        Forall (no_progress p) (fst r) /\
        (In (Fetch p) (fst r) -> exists msg, snd r = Raised (RuntimeError msg))).
      { intros ys se Hy. cbv zeta.
        assert (Hhere : Forall (no_progress p) (evs ++ ys ++ [SaveProgress (page_no + 1)])).
        { repeat apply Forall_app_2.
          - apply (attempts_no_progress p page_no), Ha.
          - eapply Forall_impl; [exact Hy|]. intros [ | | |]; simpl; try tauto. lia.
          - repeat constructor. simpl. lia. }
        assert (Hnot : ~ In (Fetch p) (evs ++ ys ++ [SaveProgress (page_no + 1)])).
        { rewrite !in_app_iff. intros [Hin|[Hin|[Hin|[]]]]; [| |discriminate Hin].
          - apply (attempts_fetch p page_no) in Hin; [congruence | exact Ha].
          - rewrite Forall_forall in Hy. apply list_elem_of_In in Hin.
            exact (Hy _ Hin). }
        destruct (pages_reached pages page_no); cbn [fst snd].
        - split; [exact Hhere | intros Hin; contradiction].
        - specialize (IH n' (page_no + 1)%Z se ltac:(lia)). cbv zeta in IH.
          destruct (iter_loop fuel srv start_page page_size max_pages n' (page_no + 1) se)
            as [rest o]. cbn [fst snd] in *. destruct IH as [IH1 IH2]. split.
          + apply Forall_app_2; [exact Hhere|]. constructor; [exact I | exact IH1].
          + rewrite in_app_iff. intros [Hin|[Hin|Hin]];
              [contradiction | discriminate Hin | exact (IH2 Hin)]. }
      destruct (negb (truthy records)).
      * destruct (2 <=? seen_empty + 1)%Z; [apply Hquiet|].
        apply (Hcont [] (seen_empty + 1)%Z). constructor.
      * destruct (dict_records records) as [recs|e]; [|apply Hquiet].
        apply (Hcont _ 0%Z). apply Forall_forall. intros e He.
        apply list_elem_of_fmap in He as (rec & -> & _). reflexivity.
Qed.
End BusinessFailure.

(** C7: a response with status 200 whose JSON body says ["success": false]
    makes [fetch_page] raise (a [RuntimeError]: the script has one class for
    all its failures) instead of returning records, as it does on the body
    that says login required, and what [fetch_page] does return always has
    [success] true; when every reply for a page [p] is
    such a response, the crawl hands over rows of earlier pages only, saves
    no checkpoint beyond [next_page_no = p] (the progress file still names
    the failed page as the next one to fetch), and ends with the error once
    it has asked for the page. *)
Theorem C7_declared_failure_raises_and_keeps_checkpoint :
  forall (L : Py.Lib) (resp : Http.response) (srv : Http.server) (fuel : nat)
         (start_page page_size : Z) (max_pages : option Z) (p : Z),
    HefeiCentre.declares_failure resp = true ->
    (forall n, exists r, srv n p page_size = Py.Ok r /\ HefeiCentre.declares_failure r = true) ->
    (start_page <= p)%Z ->
    (exists msg, HefeiCentre.fetch_page (Py.Ok resp) = Py.Raise (Py.RuntimeError msg)) /\
    HefeiCentre.fetch_page (Py.Ok Scenario.login_required)
      = Py.Raise (Py.RuntimeError
          "Likely blocked/cookie expired: API success=false, msg=login required. Body head: {}") /\
    (forall reply data, HefeiCentre.fetch_page reply = Py.Ok data ->
                        HefeiCentre.success_is_true data = true) /\
    Forall (HefeiCentre.no_progress p)
           (fst (HefeiCentre.iter_records fuel srv start_page page_size max_pages)) /\
    (In (HefeiCentre.Fetch p)
        (fst (HefeiCentre.iter_records fuel srv start_page page_size max_pages)) ->
     exists msg, snd (HefeiCentre.iter_records fuel srv start_page page_size max_pages)
                 = HefeiCentre.Raised (Py.RuntimeError msg)).
Proof.
  intros L resp srv fuel start_page page_size max_pages p Hresp Hsrv Hle.
  split; [apply fetch_page_declared_failure, Hresp|].
  split; [vm_compute; reflexivity|].
  split; [apply fetch_page_ok|].
  apply (iter_loop_failing_page srv start_page page_size max_pages p); [|exact Hle].
  intros n. destruct (Hsrv n) as (r & -> & Hr). apply fetch_page_declared_failure, Hr.
Qed.

Lemma C7_declared_failure_raises_and_keeps_checkpoint_witness :
  (exists msg, @HefeiCentre.fetch_page Scenario.sample_lib (Py.Ok Scenario.login_required)
               = Py.Raise (Py.RuntimeError msg)) /\
  @HefeiCentre.fetch_page Scenario.sample_lib (Py.Ok Scenario.login_required)
    = Py.Raise (Py.RuntimeError
        "Likely blocked/cookie expired: API success=false, msg=login required. Body head: {}") /\
  (forall reply data, @HefeiCentre.fetch_page Scenario.sample_lib reply = Py.Ok data ->
                      HefeiCentre.success_is_true data = true) /\
  Forall (HefeiCentre.no_progress 1)
         (fst (@HefeiCentre.iter_records Scenario.sample_lib 3
                 (fun _ _ _ => Py.Ok Scenario.login_required) 1 10 None)) /\
  (In (HefeiCentre.Fetch 1)
      (fst (@HefeiCentre.iter_records Scenario.sample_lib 3
              (fun _ _ _ => Py.Ok Scenario.login_required) 1 10 None)) ->
   exists msg, snd (@HefeiCentre.iter_records Scenario.sample_lib 3
                      (fun _ _ _ => Py.Ok Scenario.login_required) 1 10 None)
               = HefeiCentre.Raised (Py.RuntimeError msg)).
Proof.
  apply (C7_declared_failure_raises_and_keeps_checkpoint Scenario.sample_lib
           Scenario.login_required (fun _ _ _ => Py.Ok Scenario.login_required)
           3 1 10 None 1).
  - reflexivity.
  - intros n. exists Scenario.login_required. split; reflexivity.
  - lia.
Defined.

(** ** Tags joined into one column *)

Lemma filter_twice {A} (p q : A -> bool) (l : list A) :
  List.filter p (List.filter q l) = List.filter (fun y => q y && p y) l.
Proof.
  induction l as [|a l IH]; [reflexivity|]. cbn [List.filter].
  destruct (q a); cbn [List.filter andb]; [destruct (p a)|]; rewrite IH; reflexivity.
Qed.

Lemma first_occurrences_elem (l : list string) (x : string) :
  x ∈ Anhui.first_occurrences l <-> x ∈ l.
Proof.
  induction l as [|a l IH]; [cbn [Anhui.first_occurrences]; tauto|].
  cbn [Anhui.first_occurrences].
  rewrite !elem_of_cons, <- IH, list_elem_of_In, filter_In, <- list_elem_of_In.
  rewrite negb_true_iff, String.eqb_neq.
  destruct (decide (x = a)); tauto.
Qed.

Lemma first_occurrences_NoDup (l : list string) : NoDup (Anhui.first_occurrences l).
Proof.
  induction l as [|a l IH]; [constructor|]. cbn [Anhui.first_occurrences].
  apply NoDup_cons. split.
  - rewrite list_elem_of_In, filter_In, negb_true_iff, String.eqb_neq. tauto.
  - apply NoDup_ListNoDup, List.NoDup_filter, NoDup_ListNoDup, IH.
Qed.

Lemma filter_is_sublist {A} (p : A -> bool) (l : list A) : List.filter p l `sublist_of` l.
Proof.
  induction l as [|a l IH]; [constructor|]. cbn [List.filter].
  destruct (p a); [apply sublist_skip | apply sublist_cons]; exact IH.
Qed.

Lemma first_occurrences_sublist (l : list string) : Anhui.first_occurrences l `sublist_of` l.
Proof.
  induction l as [|a l IH]; [constructor|]. cbn [Anhui.first_occurrences].
  apply sublist_skip. etransitivity; [apply filter_is_sublist | exact IH].
Qed.

(** The loop with its seen-set computes the first occurrences. *)
Lemma unique_stripped_spec (tags : list string) :
  forall (seen : gset string) (out : list string),
    Anhui.unique_stripped tags seen out
    = (out ++ List.filter (fun y => negb (bool_decide (y ∈ seen)))
                (Anhui.first_occurrences
                   (List.filter Anhui.nonblank (List.map Py.strip tags))))%list.
Proof.
  induction tags as [|x tags IH]; intros seen out.
  - simpl. rewrite app_nil_r. reflexivity.
  - cbn [Anhui.unique_stripped List.map List.filter]. unfold Anhui.nonblank at 1.
    destruct (String.eqb (Py.strip x) EmptyString) eqn:Eblank; cbn [negb orb].
    + apply IH.
    + cbn [Anhui.first_occurrences List.filter]. rewrite filter_twice.
      destruct (bool_decide (Py.strip x ∈ seen)) eqn:Eseen; cbn [negb].
      * rewrite IH. f_equal. apply List.filter_ext. intros y.
        destruct (String.eqb_spec y (Py.strip x)) as [->|Hne]; cbn [negb andb];
          [rewrite Eseen|]; reflexivity.
      * rewrite IH, <- app_assoc. cbn [app]. do 2 f_equal.
        apply List.filter_ext. intros y.
        destruct (String.eqb_spec y (Py.strip x)) as [->|Hne]; cbn [negb andb].
        -- rewrite bool_decide_eq_true_2; [reflexivity|].
           apply elem_of_union_l, elem_of_singleton. reflexivity.
        -- f_equal. apply bool_decide_ext. rewrite elem_of_union, elem_of_singleton. tauto.
Qed.

Lemma filter_all {A} (l : list A) : List.filter (fun _ => true) l = l.
Proof. induction l as [|a l IH]; [reflexivity|]. cbn [List.filter]. rewrite IH. reflexivity. Qed.

Lemma assoc_set_same (k : string) (v : Py.json) (l : list (string * Py.json)) :
  Py.assoc k (Py.assoc_set k v l) = Some v.
Proof.
  induction l as [|[k' v'] l IH]; cbn [Py.assoc_set Py.assoc].
  - rewrite String.eqb_refl. reflexivity.
  - destruct (String.eqb k k') eqn:E; cbn [Py.assoc]; rewrite ?String.eqb_refl, ?E;
      [reflexivity | exact IH].
Qed.

Lemma assoc_set_other (k k' : string) (v : Py.json) (l : list (string * Py.json)) :
  k <> k' -> Py.assoc k (Py.assoc_set k' v l) = Py.assoc k l.
Proof.
  intros Hne. induction l as [|[k0 v0] l IH]; cbn [Py.assoc_set Py.assoc].
  - apply String.eqb_neq in Hne. rewrite Hne. reflexivity.
  - destruct (String.eqb k' k0) eqn:E; cbn [Py.assoc].
    + apply String.eqb_eq in E. subst k0. apply String.eqb_neq in Hne. rewrite Hne.
      reflexivity.
    + destruct (String.eqb k k0); [reflexivity | exact IH].
Qed.

Lemma join_field_other `{Py.Lib} (k k' : string) (out : list (string * Py.json)) :
  k <> k' -> Py.assoc k (Shanghai.join_field out k') = Py.assoc k out.
Proof.
  intros Hne. unfold Shanghai.join_field.
  destruct (Py.assoc k' out) as [[]|]; apply assoc_set_other, Hne.
Qed.

(** C8, as stated, fails on 上海/cl.py: [normalize_item] joins the tags of
    a list column as they come, so a tag met twice is written twice. *)
Lemma C8_shanghai_keeps_repeated_tags :
  @Shanghai.normalize_item Scenario.sample_lib [("aiTag", Scenario.tags_aba)]
  = [("aiTag", Py.JStr "A|B|A"); ("sectorName", Py.JStr EmptyString);
     ("zoneName", Py.JStr EmptyString)].
Proof. vm_compute. reflexivity. Qed.

(** C8 (amended): [_flatten_product_tags] of 安徽/cl.py, whose result goes
    to the column productTag_flat, renders a list of tags as their texts,
    stripped, the blank ones dropped, each kept once at the place of its first
    occurrence (so without repeats and in the order of the list), and joined
    with "|"; the tags A, B, A give "A|B".
    [normalize_item] of 上海/cl.py rewrites a list column in place as the
    texts of its elements joined with "|", in the order of the list and with
    repeats kept. *)
Theorem C8_tags_joined_first_occurrences :
  forall (L : Py.Lib) (ts : list Py.json) (item : list (string * Py.json))
         (l : list string) (x : string),
    Anhui._flatten_product_tags (Py.JArr ts)
      = Py.join "|" (Anhui.first_occurrences
                       (List.filter Anhui.nonblank
                          (List.map Py.strip (List.map Anhui.tag_text ts)))) /\
    NoDup (Anhui.first_occurrences l) /\
    (x ∈ Anhui.first_occurrences l <-> x ∈ l) /\
    Anhui.first_occurrences l `sublist_of` l /\
    Anhui._flatten_product_tags Scenario.tags_aba = "A|B" /\
    (Py.assoc "aiTag" item = Some (Py.JArr ts) ->
     Py.assoc "aiTag" (Shanghai.normalize_item item)
       = Some (Py.JStr (Py.join "|" (List.map Py.py_str ts)))).
Proof.
  intros L ts item l x. split; [|split; [|split; [|split; [|split]]]].
  - unfold Anhui._flatten_product_tags. destruct ts as [|t ts]; [reflexivity|].
    change (Py.truthy (Py.JArr (t :: ts))) with true. cbn [negb].
    rewrite unique_stripped_spec. cbn [app]. f_equal.
    rewrite <- (filter_all (Anhui.first_occurrences _)) at 2.
    apply List.filter_ext. intros y. reflexivity.
  - apply first_occurrences_NoDup.
  - apply first_occurrences_elem.
  - apply first_occurrences_sublist.
  - vm_compute. reflexivity.
  - intros Hai. unfold Shanghai.normalize_item. cbn [fold_left].
    rewrite !join_field_other by discriminate.
    unfold Shanghai.join_field. rewrite Hai. apply assoc_set_same.
Qed.

(** ** The classifier *)

Lemma fallback_in_labels : Tag.FALLBACK ∈ Tag.TARGET_CATEGORIES.
Proof. apply (bool_decide_unpack _). vm_compute. exact I. Qed.

Lemma normalize_category_in_labels (cat : string) :
  Tag.normalize_category cat ∈ Tag.TARGET_CATEGORIES.
Proof.
  unfold Tag.normalize_category. case_bool_decide as Hin; [exact Hin | apply fallback_in_labels].
Qed.

Lemma normalize_category_unknown (cat : string) :
  Py.strip cat ∉ Tag.TARGET_CATEGORIES -> Tag.normalize_category cat = Tag.FALLBACK.
Proof.
  intros Hout. unfold Tag.normalize_category.
  rewrite bool_decide_eq_false_2 by exact Hout. reflexivity.
Qed.

Section ClassifierFacts.
Context `{Py.Lib}.
Import Py Tag.

(** An attempt that classifies returns a label of the list and a
    confidence read by [read_confidence]. *)
Lemma attempt_ok (r : result reply) (c : classification) :
  attempt r = Ok c ->
  mapped_category c ∈ TARGET_CATEGORIES /\
  exists data, confidence c = read_confidence data.
Proof.
  unfold attempt. destruct r as [resp|e]; [|discriminate]. cbn [bind].
  destruct (String.eqb _ _); [discriminate|].
  destruct (safe_get_json (decoded resp)) as [data|]; [|discriminate].
  destruct (negb (truthy data)); [discriminate|].
  destruct (get_default data "mapped_category" _) as [cat|]; [|discriminate]. cbn [bind].
  destruct (get_default data "reason" _) as [why|]; [|discriminate]. cbn [bind].
  intros [= <-]. cbn [mapped_category confidence]. split.
  - apply normalize_category_in_labels.
  - exists data. reflexivity.
Qed.

Lemma attempt_unusable (r : result reply) :
  unusable r -> exists e, attempt r = Raise e.
Proof.
  unfold unusable, attempt. destruct r as [resp|e]; [|intros _; eexists; reflexivity].
  cbn [bind]. intros [Hblank|Hdata].
  - rewrite Hblank. eexists. reflexivity.
  - destruct (String.eqb _ _); [eexists; reflexivity|].
    destruct (safe_get_json (decoded resp)) as [data|]; [|eexists; reflexivity].
    rewrite Hdata. eexists. reflexivity.
Qed.

Lemma retry_loop_cases (api : service) (max_retries : nat) :
  forall left no last_err,
    (exists e, retry_loop api max_retries left no last_err = fallback e) \/
    (exists n c, attempt (api n) = Ok c /\
                 retry_loop api max_retries left no last_err = c).
Proof.
  induction left as [|left IH]; intros no last_err; cbn [retry_loop].
  - left. eexists. reflexivity.
  - destruct (attempt (api no)) as [c|e] eqn:Ea.
    + right. exists no, c. split; [exact Ea | reflexivity].
    + destruct (_ && _); [apply IH | left; eexists; reflexivity].
Qed.

Lemma retry_loop_all_fail (api : service) (max_retries : nat) :
  (forall n, exists e, attempt (api n) = Raise e) ->
  forall left no last_err,
    exists e, retry_loop api max_retries left no last_err = fallback e.
Proof.
  intros Hfail left no last_err.
  destruct (retry_loop_cases api max_retries left no last_err) as [He|(n & c & Hn & _)];
    [exact He|].
  destruct (Hfail n) as [e He]. rewrite He in Hn. discriminate Hn.
Qed.



End ClassifierFacts.

(** * Further properties of the crawlers *)

(** ** 安徽/合肥中心.py: what one request may return *)

(** X1: [fetch_page] returns a document exactly when the response has
    status 200, a content type that names application/json in any letter
    case, a body that decodes, and a decoded body that is an object whose
    [success] is [True]; the document returned is that body. *)
Theorem X1_fetch_page_returns_iff :
  forall (L : Py.Lib) (resp : Http.response) (data : Py.json),
    HefeiCentre.fetch_page (Py.Ok resp) = Py.Ok data <->
    (Http.status_code resp = 200 /\
     Py.contains "application/json"
       (Py.lower (default EmptyString (Http.content_type resp))) = true /\
     Http.body resp = Some data /\
     HefeiCentre.success_is_true data = true).
Proof.
  intros L resp data. unfold HefeiCentre.fetch_page, HefeiCentre.is_likely_blocked.
  destruct (Z.eqb_spec (Http.status_code resp) 200) as [Hs|Hs]; cbn [negb].
  2:{ split; [discriminate | intros [Hc _]; contradiction]. }
  destruct (Py.contains "application/json" _) eqn:Hct; cbn [negb].
  2:{ split; [|intros (_ & Hc & _); discriminate].
      destruct (_ || _); discriminate. }
  destruct (Http.body resp) as [d|] eqn:Hb.
  2:{ split; [discriminate | intros (_ & _ & Hc & _); discriminate]. }
  assert (Hgo : (if HefeiCentre.success_is_true d then Py.Ok d
                 else Py.Raise (Py.RuntimeError
                        ("Unexpected JSON: " ++ Py.take_chars 300 (Py.dumps d))))
                = Py.Ok data <->
                Http.status_code resp = 200 /\ true = true /\ Some d = Some data /\
                HefeiCentre.success_is_true data = true).
  { destruct (HefeiCentre.success_is_true d) eqn:Hd; split.
    - intros [= <-]. auto.
    - intros (_ & _ & [= <-] & _). reflexivity.
    - discriminate.
    - intros (_ & _ & [= <-] & Hc). congruence. }
  destruct d as [| | | | | |kvs]; try exact Hgo.
  destruct (Py.assoc "success" kvs) as [[|[|]| | | | |]|] eqn:Hsucc; try exact Hgo.
  split; [discriminate|]. intros (_ & _ & [= <-] & Hc).
  cbn [HefeiCentre.success_is_true] in Hc. rewrite Hsucc in Hc. discriminate.
Qed.

(** ** 安徽/合肥中心.py: the pages of a crawl *)

Section CrawlShape.
Context `{Py.Lib}.
Import Py Http HefeiCentre.

(** One turn of the loop, by the way it is left. *)
Lemma iter_loop_shape srv start_page page_size max_pages fuel n page_no seen_empty :
  let run := iter_loop (S fuel) srv start_page page_size max_pages n page_no seen_empty in
  (over_max_pages max_pages start_page page_no = true /\ run = ([], Returned)) \/
  (over_max_pages max_pages start_page page_no = false /\
   exists evs n' r, try_fetch srv 2 n page_no page_size = (evs, n', r) /\
     ((exists o, run = (evs, o) /\ o <> OutOfFuel) \/
      exists ys se,
        Forall (yield_of page_no) ys /\ (ys <> [] -> se = 0) /\
        (run = ((evs ++ ys ++ [SaveProgress (page_no + 1)])%list, Returned) \/
         run = (((evs ++ ys ++ [SaveProgress (page_no + 1)]) ++ Sleep ::
                   fst (iter_loop fuel srv start_page page_size max_pages n'
                                  (page_no + 1) se))%list,
                snd (iter_loop fuel srv start_page page_size max_pages n'
                               (page_no + 1) se))))).
Proof.
  cbv zeta. cbn [iter_loop].
  destruct (over_max_pages max_pages start_page page_no); [left; split; reflexivity|].
  right. split; [reflexivity|].
  destruct (try_fetch srv 2 n page_no page_size) as [[evs n'] r].
  exists evs, n', r. split; [reflexivity|].
  destruct (bind r page_fields) as [[records pages]|e].
  2:{ left. eexists. split; [reflexivity | discriminate]. }
  assert (Hcont : forall ys se,
    Forall (yield_of page_no) ys -> (ys <> [] -> se = 0) ->
    let r := if pages_reached pages page_no
             then ((evs ++ ys ++ [SaveProgress (page_no + 1)])%list, Returned)
             else let '(rest, o) := iter_loop fuel srv start_page page_size max_pages n'
                                              (page_no + 1) se in
                  (((evs ++ ys ++ [SaveProgress (page_no + 1)]) ++ Sleep :: rest)%list, o) in
    (exists o, r = (evs, o) /\ o <> OutOfFuel) \/
    exists ys se,
      Forall (yield_of page_no) ys /\ (ys <> [] -> se = 0) /\
      (r = ((evs ++ ys ++ [SaveProgress (page_no + 1)])%list, Returned) \/
       r = (((evs ++ ys ++ [SaveProgress (page_no + 1)]) ++ Sleep ::
               fst (iter_loop fuel srv start_page page_size max_pages n'
                              (page_no + 1) se))%list,
            snd (iter_loop fuel srv start_page page_size max_pages n'
                           (page_no + 1) se)))).
  { intros ys se Hy Hse. cbv zeta. right. exists ys, se.
    split; [exact Hy|]. split; [exact Hse|].
    destruct (pages_reached pages page_no); [left; reflexivity|].
    right. destruct (iter_loop fuel srv start_page page_size max_pages n' (page_no + 1) se).
    reflexivity. }
  destruct (negb (truthy records)).
  - destruct (2 <=? seen_empty + 1)%Z.
    + left. eexists. split; [reflexivity | discriminate].
    + apply (Hcont [] (seen_empty + 1)%Z); [constructor | intros []; reflexivity].
  - destruct (dict_records records) as [recs|e].
    2:{ left. eexists. split; [reflexivity | discriminate]. }
    apply (Hcont _ 0%Z); [|reflexivity].
    apply Forall_forall. intros e He.
    apply list_elem_of_fmap in He as (rec & -> & _). reflexivity.
Qed.

Lemma fetched_app (a b : list event) : fetched (a ++ b) = (fetched a ++ fetched b)%list.
Proof. apply omap_app. Qed.

Lemma saved_app (a b : list event) : saved (a ++ b) = (saved a ++ saved b)%list.
Proof. apply omap_app. Qed.

Lemma yielded_app (a b : list event) : yielded (a ++ b) = (yielded a ++ yielded b)%list.
Proof. apply omap_app. Qed.

Lemma yields_fetched p ys : Forall (yield_of p) ys -> fetched ys = [] /\ saved ys = [].
Proof.
  induction 1 as [|e ys He _ [IH1 IH2]]; [split; reflexivity|].
  destruct e; try contradiction. split; assumption.
Qed.

(** The attempts at one page: between one and three requests, all for
    that page, nothing handed over and nothing saved. *)
Lemma try_fetch_requests srv more : forall n page_no page_size,
  let evs := fst (fst (try_fetch srv more n page_no page_size)) in
  (exists c, (1 <= c <= S more)%nat /\ fetched evs = repeat page_no c) /\
  saved evs = [] /\ yielded evs = [].
Proof.
  induction more as [|more IH]; intros n page_no page_size; cbv zeta; cbn [try_fetch];
    destruct (fetch_page _); cbn [fst];
    try (split; [exists 1%nat; split; [lia | reflexivity] | split; reflexivity]).
  specialize (IH (S n) page_no page_size). cbv zeta in IH.
  destruct (try_fetch srv more (S n) page_no page_size) as [[evs n'] r].
  cbn [fst] in *. destruct IH as ((c & Hc & Hf) & Hs & Hy).
  split; [|split; assumption].
  exists (S c). split; [lia|]. cbn. unfold fetched in Hf. rewrite Hf. reflexivity.
Qed.

Lemma sorted_app_le (l1 l2 : list Z) :
  StronglySorted Z.le l1 -> StronglySorted Z.le l2 ->
  (forall x y, In x l1 -> In y l2 -> (x <= y)%Z) ->
  StronglySorted Z.le (l1 ++ l2).
Proof.
  intros H1 H2 Hle. induction H1 as [|a l1 Hl1 IH Ha]; [exact H2|].
  cbn. constructor.
  - apply IH. intros x y Hx Hy. apply Hle; [right; exact Hx | exact Hy].
  - apply List.Forall_app. split; [exact Ha|].
    apply List.Forall_forall. intros y Hy. apply Hle; [left; reflexivity | exact Hy].
Qed.

Lemma sorted_repeat (p : Z) (c : nat) : StronglySorted Z.le (repeat p c).
Proof.
  induction c as [|c IH]; cbn; constructor; [exact IH|].
  apply List.Forall_forall. intros y Hy. apply repeat_spec in Hy. lia.
Qed.

Lemma count_occ_repeat (p q : Z) (c : nat) :
  count_occ Z.eq_dec (repeat p c) q = if Z.eq_dec p q then c else 0%nat.
Proof.
  induction c as [|c IH]; cbn; [destruct (Z.eq_dec p q); reflexivity|].
  rewrite IH. destruct (Z.eq_dec p q); reflexivity.
Qed.

(** The pages asked for and the checkpoints saved by a crawl that is at
    page [p]: [k] pages from [p] on, each asked for at most three times,
    in order; the checkpoints name the pages after the first [j] of them,
    where [j] is [k] or one less. *)
Lemma iter_loop_pages srv start_page page_size max_pages fuel :
  forall n p seen_empty,
    let evs := fst (iter_loop fuel srv start_page page_size max_pages n p seen_empty) in
    exists k j : nat,
      (j <= k <= j + 1)%nat /\
      (forall q, In q (fetched evs) <-> (p <= q < p + Z.of_nat k)%Z) /\
      StronglySorted Z.le (fetched evs) /\
      (forall q, (count_occ Z.eq_dec (fetched evs) q <= 3)%nat) /\
      saved evs = List.map (fun i => (p + Z.of_nat i)%Z) (seq 1 j).
Proof.
  induction fuel as [|fuel IH]; intros n p seen_empty; cbv zeta.
  { exists 0%nat, 0%nat. cbn. repeat split; try lia; try constructor; intros []. }
  destruct (iter_loop_shape srv start_page page_size max_pages fuel n p seen_empty)
    as [[_ ->]|(_ & evs & n' & r & Htry & Hrun)].
  { exists 0%nat, 0%nat. cbn. repeat split; try lia; try constructor; intros []. }
  pose proof (try_fetch_requests srv 2 n p page_size) as Hreq. cbv zeta in Hreq.
  rewrite Htry in Hreq. cbn [fst] in Hreq. destruct Hreq as ((c & Hc & Hf) & Hs & _).
  assert (Hone : forall evs', fetched evs' = repeat p c -> forall j, (j <= 1)%nat ->
            saved evs' = List.map (fun i => (p + Z.of_nat i)%Z) (seq 1 j) ->
            exists k j : nat,
              (j <= k <= j + 1)%nat /\
              (forall q, In q (fetched evs') <-> (p <= q < p + Z.of_nat k)%Z) /\
              StronglySorted Z.le (fetched evs') /\
              (forall q, (count_occ Z.eq_dec (fetched evs') q <= 3)%nat) /\
              saved evs' = List.map (fun i => (p + Z.of_nat i)%Z) (seq 1 j)).
  { intros evs' Hf' j Hj Hs'. exists 1%nat, j. rewrite Hf'.
    split; [lia|]. split; [|split; [apply sorted_repeat|split; [|exact Hs']]].
    - intros q. split.
      + intros Hq. apply repeat_spec in Hq. lia.
      + intros Hq. assert (q = p) as -> by lia.
        destruct c as [|c]; [lia|]. left. reflexivity.
    - intros q. rewrite count_occ_repeat. destruct (Z.eq_dec p q); lia. }
  destruct Hrun as [(o & -> & _)|(ys & se & Hy & _ & [-> | ->])]; cbn [fst].
  - apply (Hone evs Hf 0%nat); [lia | exact Hs].
  - destruct (yields_fetched p ys Hy) as [Hyf Hys].
    apply (Hone _) with (j := 1%nat); [|lia|].
    + rewrite !fetched_app, Hyf, Hf. cbn. rewrite app_nil_r. reflexivity.
    + rewrite !saved_app, Hys, Hs. reflexivity.
  - destruct (yields_fetched p ys Hy) as [Hyf Hys].
    destruct (IH n' (p + 1)%Z se) as (k & j & Hkj & Hin & Hsort & Hcount & Hsaved).
    cbv zeta in *.
    set (rest := fst (iter_loop fuel srv start_page page_size max_pages n' (p + 1) se)) in *.
    assert (Hfe : fetched ((evs ++ ys ++ [SaveProgress (p + 1)]) ++ Sleep :: rest)
                  = (repeat p c ++ fetched rest)%list).
    { rewrite !fetched_app, Hyf, Hf. cbn. rewrite app_nil_r. reflexivity. }
    assert (Hsa : saved ((evs ++ ys ++ [SaveProgress (p + 1)]) ++ Sleep :: rest)
                  = ((p + 1)%Z :: saved rest)%list).
    { rewrite !saved_app, Hys, Hs. reflexivity. }
    exists (S k), (S j). rewrite Hfe, Hsa.
    split; [lia|]. split; [|split; [|split]].
    + intros q. rewrite in_app_iff, Hin. split.
      * intros [Hq|Hq]; [apply repeat_spec in Hq|]; lia.
      * intros Hq. destruct (Z.eq_dec q p) as [->|Hne]; [|right; lia].
        left. destruct c as [|c]; [lia|]. left. reflexivity.
    + apply sorted_app_le; [apply sorted_repeat | exact Hsort|].
      intros x y Hx Hy'. apply repeat_spec in Hx. apply Hin in Hy'. lia.
    + intros q. rewrite count_occ_app, count_occ_repeat.
      destruct (Z.eq_dec p q) as [<-|Hne]; [|apply Hcount].
      assert (count_occ Z.eq_dec (fetched rest) p = 0%nat) as ->; [|lia].
      apply count_occ_not_In. intros Hp. apply Hin in Hp. lia.
    + rewrite Hsaved. cbn [seq List.map]. f_equal.
      rewrite <- (seq_shift j 1), List.map_map. apply List.map_ext. intros i. lia.
Qed.
End CrawlShape.

(** X2: [iter_records] asks for the pages one after the other from
    [start_page] on, without leaving one out: the page numbers requested
    never decrease, they fill an interval that starts at [start_page], and
    no page is asked for more than three times. *)
Theorem X2_pages_requested_in_order_at_most_thrice :
  forall (L : Py.Lib) (fuel : nat) (srv : Http.server) (start_page page_size : Z)
         (max_pages : option Z),
    let pages := HefeiCentre.fetched
                   (fst (HefeiCentre.iter_records fuel srv start_page page_size max_pages)) in
    StronglySorted Z.le pages /\
    (forall q, (count_occ Z.eq_dec pages q <= 3)%nat) /\
    exists k : nat, forall q, In q pages <-> (start_page <= q < start_page + Z.of_nat k)%Z.
Proof.
  intros L fuel srv start_page page_size max_pages. cbv zeta.
  destruct (iter_loop_pages srv start_page page_size max_pages fuel 0%nat start_page 0%Z)
    as (k & j & _ & Hin & Hsort & Hcount & _).
  split; [exact Hsort|]. split; [exact Hcount|]. exists k. exact Hin.
Qed.

(** X3: the checkpoints [iter_records] saves are [start_page + 1],
    [start_page + 2], ... in this order, one for each page it has
    finished; at most one page it asked for, the last one, is left without
    a checkpoint after it. *)
Theorem X3_checkpoints_count_the_finished_pages :
  forall (L : Py.Lib) (fuel : nat) (srv : Http.server) (start_page page_size : Z)
         (max_pages : option Z),
    let evs := fst (HefeiCentre.iter_records fuel srv start_page page_size max_pages) in
    exists k j : nat,
      HefeiCentre.saved evs = List.map (fun i => (start_page + Z.of_nat i)%Z) (seq 1 j) /\
      (forall q, In q (HefeiCentre.fetched evs) <->
                 (start_page <= q < start_page + Z.of_nat k)%Z) /\
      (j <= k <= j + 1)%nat.
Proof.
  intros L fuel srv start_page page_size max_pages. cbv zeta.
  destruct (iter_loop_pages srv start_page page_size max_pages fuel 0%nat start_page 0%Z)
    as (k & j & Hkj & Hin & _ & _ & Hsaved).
  exists k, j. split; [exact Hsaved|]. split; [exact Hin | exact Hkj].
Qed.

Section CrawlBounds.
Context `{Py.Lib}.
Import Py Http HefeiCentre.

(** With [max_pages = m] the loop at page [p] has [m - (p - start_page)]
    pages left: it ends within that many turns and sends at most three
    requests for each of them. *)
Lemma iter_loop_max_pages srv start_page page_size m fuel :
  forall n p seen_empty,
    let run := iter_loop fuel srv start_page page_size (Some m) n p seen_empty in
    ((Z.to_nat (m - (p - start_page)) < fuel)%nat -> snd run <> OutOfFuel) /\
    Forall (fun q => (p <= q < start_page + m)%Z) (fetched (fst run)) /\
    (List.length (fetched (fst run)) <= 3 * Z.to_nat (m - (p - start_page)))%nat.
Proof.
  induction fuel as [|fuel IH]; intros n p seen_empty; cbv zeta.
  { cbn. split; [lia|]. split; [constructor | lia]. }
  destruct (iter_loop_shape srv start_page page_size (Some m) fuel n p seen_empty)
    as [[_ ->]|(Hover & evs & n' & r & Htry & Hrun)].
  { cbn. split; [discriminate|]. split; [constructor | lia]. }
  cbn [over_max_pages] in Hover. apply Z.ltb_ge in Hover.
  pose proof (try_fetch_requests srv 2 n p page_size) as Hreq. cbv zeta in Hreq.
  rewrite Htry in Hreq. cbn [fst] in Hreq. destruct Hreq as ((c & Hc & Hf) & _ & _).
  assert (Hrep : Forall (fun q => (p <= q < start_page + m)%Z) (repeat p c)).
  { apply Forall_forall. intros q Hq. apply list_elem_of_In, repeat_spec in Hq. lia. }
  destruct Hrun as [(o & -> & Ho)|(ys & se & Hy & _ & [-> | ->])]; cbn [fst snd].
  - rewrite Hf, repeat_length. split; [intros _; exact Ho|]. split; [exact Hrep | lia].
  - destruct (yields_fetched p ys Hy) as [Hyf _].
    rewrite !fetched_app, Hyf, Hf. cbn. rewrite app_nil_r, repeat_length.
    split; [discriminate|]. split; [exact Hrep | lia].
  - destruct (yields_fetched p ys Hy) as [Hyf _].
    destruct (IH n' (p + 1)%Z se) as (IH1 & IH2 & IH3). cbv zeta in *.
    rewrite !fetched_app, Hyf, Hf.
    change (fetched [SaveProgress (p + 1)]) with (@nil Z).
    change (fetched (Sleep :: ?l)) with (fetched l). rewrite !app_nil_r.
    split; [intros Hfuel; apply IH1; lia|]. split.
    + apply Forall_app_2; [exact Hrep|].
      eapply Forall_impl; [exact IH2|]. intros q Hq. cbn in Hq. lia.
    + rewrite length_app, repeat_length. lia.
Qed.

(** A page whose reply is well formed and holds no record. *)
Lemma iter_loop_two_empty_pages srv start_page page_size max_pages fuel n p :
  (forall n q, exists data pages,
      fetch_page (srv n q page_size) = Ok data /\
      page_fields data = Ok (JArr [], pages) /\ pages_reached pages q = false) ->
  over_max_pages max_pages start_page (p + 1) = false ->
  over_max_pages max_pages start_page p = false ->
  iter_loop (2 + fuel) srv start_page page_size max_pages n p 0
  = ([Fetch p; SaveProgress (p + 1); Sleep; Fetch (p + 1)], Returned).
Proof.
  intros Hsrv Hover1 Hover0. cbn [Nat.add iter_loop try_fetch].
  rewrite Hover0. destruct (Hsrv n p) as (d0 & pg0 & -> & Hp0 & Hr0).
  cbn [bind]. rewrite Hp0. cbn [truthy negb Z.add Z.leb Z.compare Pos.compare
                                Pos.compare_cont].
  rewrite Hr0, Hover1.
  destruct (Hsrv (S n) (p + 1)%Z) as (d1 & pg1 & -> & Hp1 & Hr1).
  cbn [bind]. rewrite Hp1. reflexivity.
Qed.
End CrawlBounds.

(** X4: with [max_pages = m] the crawl ends by itself, whatever the
    source answers: [m + 1] turns of the loop are enough; it asks only for
    the [m] pages from [start_page] on and sends at most [3 * m]
    requests. *)
Theorem X4_max_pages_bounds_the_crawl :
  forall (L : Py.Lib) (srv : Http.server) (start_page page_size m : Z) (extra : nat),
    let run := HefeiCentre.iter_records (S (Z.to_nat m) + extra) srv start_page page_size
                 (Some m) in
    snd run <> HefeiCentre.OutOfFuel /\
    Forall (fun q => (start_page <= q < start_page + m)%Z) (HefeiCentre.fetched (fst run)) /\
    (List.length (HefeiCentre.fetched (fst run)) <= 3 * Z.to_nat m)%nat.
Proof.
  intros L srv start_page page_size m extra. cbv zeta.
  destruct (iter_loop_max_pages srv start_page page_size m (S (Z.to_nat m) + extra)
              0%nat start_page 0%Z) as (H1 & H2 & H3).
  cbv zeta in *. replace (m - (start_page - start_page))%Z with m in * by lia.
  split; [apply H1; lia|]. split; [exact H2 | exact H3].
Qed.

(** X5: on a source whose every page is well formed and empty, a crawl
    without page limit (or with a limit of two pages or more) asks for the
    first page and the one after it, once each, and returns; [scrape_all]
    then raises "No data fetched", writes no line, and yet has saved a
    checkpoint that names the second page as the next one. *)
Theorem X5_empty_source_raises_after_two_pages :
  forall (L : Py.Lib) (srv : Http.server) (fuel : nat) (out_csv_path : string)
         (progress : Fs.file) (file_exists resume : bool) (page_size : Z)
         (max_pages : option Z),
    let start_page := if resume then HefeiCentre.load_progress progress else 1 in
    (forall n q, exists data pages,
        HefeiCentre.fetch_page (srv n q page_size) = Py.Ok data /\
        HefeiCentre.page_fields data = Py.Ok (Py.JArr [], pages) /\
        HefeiCentre.pages_reached pages q = false) ->
    (forall m, max_pages = Some m -> (2 <= m)%Z) ->
    file_exists && negb resume = false ->
    HefeiCentre.scrape_all (2 + fuel) srv out_csv_path progress file_exists resume
      page_size max_pages
    = ([],
       [HefeiCentre.Fetch start_page; HefeiCentre.SaveProgress (start_page + 1);
        HefeiCentre.Sleep; HefeiCentre.Fetch (start_page + 1)],
       Some (Py.Raise (Py.RuntimeError "No data fetched. Possibly blocked or cookie expired."))).
Proof.
  intros L srv fuel out_csv_path progress file_exists resume page_size max_pages.
  cbv zeta. intros Hsrv Hmax Hmode. unfold HefeiCentre.scrape_all.
  rewrite Hmode. unfold HefeiCentre.iter_records.
  rewrite iter_loop_two_empty_pages; [reflexivity | exact Hsrv | |].
  - destruct max_pages as [m|]; [|reflexivity]. cbn. specialize (Hmax m eq_refl).
    apply Z.ltb_ge. lia.
  - destruct max_pages as [m|]; [|reflexivity]. cbn. specialize (Hmax m eq_refl).
    apply Z.ltb_ge. lia.
Qed.

Lemma X5_empty_source_raises_after_two_pages_witness :
  @HefeiCentre.scrape_all Scenario.sample_lib (2 + 3) Samples.empty_source "out.csv"
    Fs.Absent false false 10 None
  = ([],
     [HefeiCentre.Fetch 1; HefeiCentre.SaveProgress (1 + 1);
      HefeiCentre.Sleep; HefeiCentre.Fetch (1 + 1)],
     Some (Py.Raise (Py.RuntimeError "No data fetched. Possibly blocked or cookie expired."))).
Proof.
  apply (X5_empty_source_raises_after_two_pages Scenario.sample_lib Samples.empty_source
           3 "out.csv" Fs.Absent false false 10 None).
  - intros n q. eexists. exists Py.JNull. split; [reflexivity|]. split; reflexivity.
  - intros m Hm. discriminate Hm.
  - reflexivity.
Defined.

(** ** 安徽/合肥中心.py: picking a crawl up again *)

Section Resume.
Context `{Py.Lib}.
Import Py Http HefeiCentre.
Variable srv : server.
Variable page_size : Z.
Hypothesis by_page : forall n n' p, srv n p page_size = srv n' p page_size.

Lemma try_fetch_by_page more : forall n n2 p,
  fst (fst (try_fetch srv more n p page_size)) = fst (fst (try_fetch srv more n2 p page_size)) /\
  snd (try_fetch srv more n p page_size) = snd (try_fetch srv more n2 p page_size).
Proof.
  induction more as [|more IH]; intros n n2 p; cbn [try_fetch];
    rewrite (by_page n n2 p); destruct (fetch_page _); cbn [fst snd];
    try (split; reflexivity).
  specialize (IH (S n) (S n2) p).
  destruct (try_fetch srv more (S n) p page_size) as [[evs n'] r].
  destruct (try_fetch srv more (S n2) p page_size) as [[evs2 n2'] r2].
  cbn [fst snd] in *. destruct IH as [-> ->]. split; reflexivity.
Qed.

(** Without a page limit, neither the page the crawl started at nor the
    number of requests sent so far changes what the loop does next. *)
Lemma iter_loop_by_page fuel : forall s s2 n n2 p se,
  iter_loop fuel srv s page_size None n p se = iter_loop fuel srv s2 page_size None n2 p se.
Proof.
  induction fuel as [|fuel IH]; intros s s2 n n2 p se; [reflexivity|].
  cbn [iter_loop over_max_pages].
  destruct (try_fetch_by_page 2 n n2 p) as [Hevs Hr].
  destruct (try_fetch srv 2 n p page_size) as [[evs n'] r].
  destruct (try_fetch srv 2 n2 p page_size) as [[evs2 n2'] r2].
  cbn [fst snd] in Hevs, Hr. subst evs2 r2.
  destruct (bind r page_fields) as [[records pages]|e]; [|reflexivity].
  destruct (negb (truthy records)).
  - destruct (2 <=? se + 1)%Z; [reflexivity|].
    destruct (pages_reached pages p); [reflexivity|].
    rewrite (IH s s2 n' n2' (p + 1)%Z (se + 1)%Z). reflexivity.
  - destruct (dict_records records) as [recs|e]; [|reflexivity].
    destruct (pages_reached pages p); [reflexivity|].
    rewrite (IH s s2 n' n2' (p + 1)%Z 0%Z). reflexivity.
Qed.

Lemma not_yield_quiet q row evs : Forall quiet evs -> ~ In (Yield q row) evs.
Proof.
  intros Hq Hin. rewrite Forall_forall in Hq. apply list_elem_of_In in Hin.
  exact (Hq _ Hin).
Qed.

(** A crawl stopped after [f1] turns of the loop, and the crawl that
    goes on from there. *)
Lemma iter_loop_split s : forall f1 n p se evs1,
  iter_loop f1 srv s page_size None n p se = (evs1, OutOfFuel) ->
  exists se',
    (forall f2,
       iter_loop (f1 + f2) srv s page_size None n p se
       = ((evs1 ++ fst (iter_loop f2 srv s page_size None n (p + Z.of_nat f1) se'))%list,
          snd (iter_loop f2 srv s page_size None n (p + Z.of_nat f1) se'))) /\
    (f1 = 0%nat -> se' = se) /\
    ((exists row, In (Yield (p + Z.of_nat f1 - 1) row) evs1) -> se' = 0%Z) /\
    saved evs1 = List.map (fun i => (p + Z.of_nat i)%Z) (seq 1 f1).
Proof.
  induction f1 as [|f1 IH]; intros n p se evs1 Hrun.
  { injection Hrun as <-. exists se. split; [|split; [|split]].
    - intros f2. cbn [Nat.add app]. rewrite Z.add_0_r.
      destruct (iter_loop f2 srv s page_size None n p se). reflexivity.
    - reflexivity.
    - intros [row []].
    - reflexivity. }
  cbn [iter_loop over_max_pages] in Hrun.
  pose proof (try_fetch_quiet srv 2 n p page_size) as Hq.
  pose proof (try_fetch_requests srv 2 n p page_size) as Hreq. cbv zeta in Hreq.
  destruct (try_fetch srv 2 n p page_size) as [[evs n'] r] eqn:Htry.
  cbn [fst] in Hq, Hreq. destruct Hreq as (_ & Hsv & _).
  destruct (bind r page_fields) as [[records pages]|e] eqn:Hfields; [|discriminate].
  assert (Hcont : forall ys se0,
    Forall (yield_of p) ys -> (ys = [] \/ se0 = 0%Z) ->
    (if pages_reached pages p
     then ((evs ++ ys ++ [SaveProgress (p + 1)])%list, Returned)
     else let '(rest, o) := iter_loop f1 srv s page_size None n' (p + 1) se0 in
          (((evs ++ ys ++ [SaveProgress (p + 1)]) ++ Sleep :: rest)%list, o))
    = (evs1, OutOfFuel) ->
    exists se',
      (forall f2,
         (if pages_reached pages p
          then ((evs ++ ys ++ [SaveProgress (p + 1)])%list, Returned)
          else let '(rest, o) := iter_loop (f1 + f2) srv s page_size None n' (p + 1) se0 in
               (((evs ++ ys ++ [SaveProgress (p + 1)]) ++ Sleep :: rest)%list, o))
         = ((evs1 ++ fst (iter_loop f2 srv s page_size None n (p + Z.of_nat (S f1)) se'))%list,
            snd (iter_loop f2 srv s page_size None n (p + Z.of_nat (S f1)) se'))) /\
      ((exists row, In (Yield (p + Z.of_nat (S f1) - 1) row) evs1) -> se' = 0%Z) /\
      saved evs1 = List.map (fun i => (p + Z.of_nat i)%Z) (seq 1 (S f1))).
  { intros ys se0 Hy Hse0 Hrun'.
    destruct (pages_reached pages p); [discriminate|].
    destruct (iter_loop f1 srv s page_size None n' (p + 1) se0) as [rest o] eqn:Hrest.
    injection Hrun' as <- ->.
    destruct (IH n' (p + 1)%Z se0 rest Hrest) as (se' & Hsplit & Hzero & Hyield & Hsaved).
    destruct (yields_fetched p ys Hy) as [_ Hys].
    exists se'. split; [|split].
    - intros f2. rewrite Hsplit.
      replace (p + 1 + Z.of_nat f1)%Z with (p + Z.of_nat (S f1))%Z by lia.
      rewrite (iter_loop_by_page f2 s s n' n). rewrite <- !app_assoc. reflexivity.
    - intros [row Hin]. destruct f1 as [|f1].
      + rewrite (Hzero eq_refl). destruct Hse0 as [-> | ->]; [|reflexivity].
        exfalso. injection Hrest as <-.
        rewrite !in_app_iff in Hin. destruct Hin as [[Hin|[[]|[Hin|[]]]]|[Hin|[]]];
          try discriminate Hin.
        exact (not_yield_quiet _ _ _ Hq Hin).
      + apply Hyield. exists row.
        replace (p + 1 + Z.of_nat (S f1) - 1)%Z with (p + Z.of_nat (S (S f1)) - 1)%Z by lia.
        rewrite !in_app_iff in Hin. destruct Hin as [[Hin|[Hin|[Hin|[]]]]|[Hin|Hin]];
          try discriminate Hin; [| |exact Hin].
        * exfalso. exact (not_yield_quiet _ _ _ Hq Hin).
        * exfalso. rewrite Forall_forall in Hy. apply list_elem_of_In in Hin.
          specialize (Hy _ Hin). cbn in Hy. lia.
    - rewrite !saved_app, Hys, Hsv. cbn [app]. 
      change (saved [SaveProgress (p + 1)]) with [(p + 1)%Z].
      change (saved (Sleep :: rest)) with (saved rest). rewrite Hsaved.
      cbn [seq List.map app]. f_equal.
      rewrite <- (seq_shift f1 1), List.map_map. apply List.map_ext. intros i. lia. }
  cbn [Nat.add iter_loop over_max_pages]. rewrite Htry, Hfields.
  destruct (negb (truthy records)).
  - destruct (2 <=? se + 1)%Z; [discriminate|].
    destruct (Hcont [] (se + 1)%Z (Forall_nil_2 _) (or_introl eq_refl) Hrun)
      as (se' & H1 & H2 & H3).
    exists se'. split; [exact H1|]. split; [discriminate|]. split; assumption.
  - destruct (dict_records records) as [recs|e]; [|discriminate].
    assert (Hy : Forall (yield_of p)
                   (List.map (fun rec => Yield p (flatten_record rec)) recs)).
    { apply Forall_forall. intros e He.
      apply list_elem_of_fmap in He as (rec & -> & _). reflexivity. }
    destruct (Hcont _ 0%Z Hy (or_intror eq_refl) Hrun) as (se' & H1 & H2 & H3).
    exists se'. split; [exact H1|]. split; [discriminate|]. split; assumption.
Qed.
End Resume.

(** X6: picking a crawl up again gives what the uninterrupted crawl would
    have given.  For a source whose reply depends on the page asked for
    only, and without page limit: when a crawl from [start_page >= 1] is
    stopped after [f1] turns of its loop, its checkpoints are
    [start_page + 1 .. start_page + f1], so that [load_progress] on the
    file of the last one answers [start_page + f1]; and when the last page
    it did handed over a row, the events of the crawl left running for
    [f2] turns more are the events before the stop followed by those of a
    new crawl of [f2] turns from that page, which also ends the same way.
    (The count of empty pages in a row is not kept in the checkpoint: this
    is why the last page must have held a row.) *)
Theorem X6_resumed_crawl_continues_the_stopped_one :
  forall (L : Py.Lib) (srv : Http.server) (page_size start_page : Z) (f1 f2 : nat)
         (evs1 : list HefeiCentre.event) (doc : string) (ts : Z),
    (forall n n' p, srv n p page_size = srv n' p page_size) ->
    (1 <= start_page)%Z ->
    HefeiCentre.iter_records f1 srv start_page page_size None
      = (evs1, HefeiCentre.OutOfFuel) ->
    (f1 = 0%nat \/
     exists row, In (HefeiCentre.Yield (start_page + Z.of_nat f1 - 1) row) evs1) ->
    let next := (start_page + Z.of_nat f1)%Z in
    HefeiCentre.saved evs1
      = List.map (fun i => (start_page + Z.of_nat i)%Z) (seq 1 f1) /\
    HefeiCentre.load_progress
      (Fs.Content doc (Some (Py.JObj [("next_page_no", Py.JInt next); ("ts", Py.JInt ts)])))
      = next /\
    HefeiCentre.iter_records (f1 + f2) srv start_page page_size None
      = ((evs1 ++ fst (HefeiCentre.iter_records f2 srv next page_size None))%list,
         snd (HefeiCentre.iter_records f2 srv next page_size None)).
Proof.
  intros L srv page_size start_page f1 f2 evs1 doc ts Hsrv Hstart Hrun Hlast. cbv zeta.
  unfold HefeiCentre.iter_records in *.
  destruct (iter_loop_split srv page_size Hsrv start_page f1 0%nat start_page 0%Z evs1 Hrun)
    as (se' & Hsplit & Hzero & Hyield & Hsaved).
  assert (se' = 0%Z) as -> by (destruct Hlast as [Hf|Hrow]; auto).
  split; [exact Hsaved|]. split.
  - cbn. lia.
  - rewrite Hsplit.
    rewrite (iter_loop_by_page srv page_size Hsrv f2 start_page
               (start_page + Z.of_nat f1)%Z 0%nat 0%nat).
    reflexivity.
Qed.

Lemma X6_resumed_crawl_continues_the_stopped_one_witness :
  HefeiCentre.saved
    (fst (@HefeiCentre.iter_records Scenario.sample_lib 2 Samples.numbered_source 1 10 None))
    = List.map (fun i => (1 + Z.of_nat i)%Z) (seq 1 2) /\
  @HefeiCentre.load_progress
    (Fs.Content "{}" (Some (Py.JObj [("next_page_no", Py.JInt (1 + Z.of_nat 2));
                                     ("ts", Py.JInt 0)])))
    = (1 + Z.of_nat 2)%Z /\
  @HefeiCentre.iter_records Scenario.sample_lib (2 + 4) Samples.numbered_source 1 10 None
    = ((fst (@HefeiCentre.iter_records Scenario.sample_lib 2 Samples.numbered_source 1 10 None)
        ++ fst (@HefeiCentre.iter_records Scenario.sample_lib 4 Samples.numbered_source
                  (1 + Z.of_nat 2) 10 None))%list,
       snd (@HefeiCentre.iter_records Scenario.sample_lib 4 Samples.numbered_source
              (1 + Z.of_nat 2) 10 None)).
Proof.
  apply (X6_resumed_crawl_continues_the_stopped_one Scenario.sample_lib
           Samples.numbered_source 10 1 2 4
           (fst (@HefeiCentre.iter_records Scenario.sample_lib 2 Samples.numbered_source
                   1 10 None)) "{}" 0).
  - intros n n' p. reflexivity.
  - lia.
  - vm_compute. reflexivity.
  - right. eexists. vm_compute. do 23 right. left. reflexivity.
Defined.

(** ** The cookie header *)

Section CookieFacts.
Import Py Cookies.

Lemma append_nil_l (s : string) : EmptyString ++ s = s.
Proof. reflexivity. Qed.

Lemma append_cons (c : ascii) (a b : string) : String c a ++ b = String c (a ++ b).
Proof. reflexivity. Qed.

Lemma append_assoc_r (a b c : string) : (a ++ b) ++ c = a ++ (b ++ c).
Proof.
  induction a as [|x a IH]; [reflexivity|]. rewrite !append_cons, IH. reflexivity.
Qed.

Lemma split_nonempty sep s : exists part parts, split sep s = part :: parts.
Proof.
  destruct s as [|c rest]; cbn [split]; [eauto|].
  destruct (Ascii.eqb c sep); [eauto|]. destruct (split sep rest); eauto.
Qed.

Lemma split_app sep a b :
  split sep (a ++ String sep b) = (split sep a ++ split sep b)%list.
Proof.
  induction a as [|c a IH]; rewrite ?append_cons, ?append_nil_l; cbn [split].
  - rewrite Ascii.eqb_refl. reflexivity.
  - destruct (Ascii.eqb c sep); [rewrite IH; reflexivity|].
    rewrite IH. destruct (split_nonempty sep a) as (part & parts & ->). reflexivity.
Qed.

Lemma free_of_app seps a b :
  free_of seps (a ++ b) = free_of seps a && free_of seps b.
Proof.
  induction a as [|c a IH]; rewrite ?append_cons, ?append_nil_l; cbn [free_of]; [reflexivity|].
  rewrite IH, andb_assoc. reflexivity.
Qed.

Lemma free_of_weaken seps seps' s :
  (forall c, In c seps' -> In c seps) -> free_of seps s = true -> free_of seps' s = true.
Proof.
  intros Hsub. induction s as [|c s IH]; cbn [free_of]; [reflexivity|].
  intros Hs. apply andb_true_iff in Hs as [Hc Hs]. rewrite (IH Hs), andb_true_r.
  apply negb_true_iff. apply negb_true_iff in Hc.
  destruct (existsb (Ascii.eqb c) seps') eqn:E; [|reflexivity].
  apply existsb_exists in E as (x & Hx & Hcx).
  rewrite <- Hc. symmetry. apply existsb_exists. exists x. split; [apply Hsub, Hx | exact Hcx].
Qed.

Lemma split_free sep s : free_of [sep] s = true -> split sep s = [s].
Proof.
  induction s as [|c s IH]; cbn [free_of split existsb]; [reflexivity|].
  intros Hs. apply andb_true_iff in Hs as [Hc Hs].
  rewrite orb_false_r in Hc. apply negb_true_iff in Hc. rewrite Hc, (IH Hs). reflexivity.
Qed.

Lemma split_once_app sep k v :
  free_of [sep] k = true -> split_once sep (k ++ String sep v) = Some (k, v).
Proof.
  induction k as [|c k IH]; rewrite ?append_cons, ?append_nil_l; cbn [free_of split_once existsb].
  - intros _. rewrite Ascii.eqb_refl. reflexivity.
  - intros Hs. apply andb_true_iff in Hs as [Hc Hs].
    rewrite orb_false_r in Hc. apply negb_true_iff in Hc. rewrite Hc, (IH Hs). reflexivity.
Qed.

Lemma contains_app_sep k v : contains "=" (k ++ String "=" v) = true.
Proof.
  induction k as [|c k IH]; rewrite ?append_cons, ?append_nil_l; cbn [contains].
  - cbn [String.prefix]. destruct (ascii_dec "=" "=") as [_|Hne]; [|contradiction].
    destruct v; reflexivity.
  - rewrite IH. apply orb_true_r.
Qed.

Lemma contains_free s : free_of ["="%char] s = true -> contains "=" s = false.
Proof.
  induction s as [|c s IH]; cbn [free_of contains existsb]; [reflexivity|].
  intros Hs. apply andb_true_iff in Hs as [Hc Hs].
  rewrite orb_false_r in Hc. apply negb_true_iff in Hc. rewrite (IH Hs), orb_false_r.
  cbn [String.prefix]. destruct (ascii_dec "=" c) as [<-|Hne]; [|reflexivity].
  rewrite Ascii.eqb_refl in Hc. discriminate.
Qed.

(** What follows a text that [rstrip] leaves alone is kept with it. *)
Lemma rstrip_app s t :
  t <> EmptyString -> rstrip t = t -> rstrip (s ++ t) = s ++ t.
Proof.
  intros Hne Ht. induction s as [|c s IH]; rewrite ?append_cons, ?append_nil_l; cbn [rstrip]; [exact Ht|].
  rewrite IH. destruct (s ++ t) eqn:E; [|reflexivity].
  destruct s; cbn in E; [contradiction | discriminate].
Qed.

Lemma no_blank_ends_strip s : no_blank_ends s = true -> strip s = s.
Proof.
  destruct s as [|c s]; [reflexivity|]. cbn [no_blank_ends].
  intros Hs. apply andb_true_iff in Hs as [Hc Hr].
  apply negb_true_iff in Hc. apply String.eqb_eq in Hr.
  unfold strip. cbn [lstrip]. rewrite Hc. exact Hr.
Qed.

Lemma no_blank_ends_rstrip s : no_blank_ends s = true -> rstrip s = s.
Proof.
  destruct s as [|c s]; [reflexivity|]. cbn [no_blank_ends].
  intros Hs. apply andb_true_iff in Hs as [_ Hr]. apply String.eqb_eq in Hr. exact Hr.
Qed.

Lemma rstrip_entry v : no_blank_ends v = true -> rstrip (String "=" v) = String "=" v.
Proof.
  intros Hv. apply no_blank_ends_rstrip in Hv. cbn [rstrip]. rewrite Hv.
  destruct v; reflexivity.
Qed.

(** [name=value], with or without a blank before it, read as one part. *)
Lemma add_part_entry cookies (blank : bool) k v :
  free_of ["="%char] k = true -> no_blank_ends k = true -> no_blank_ends v = true ->
  add_part cookies ((if blank then " " else EmptyString) ++ k ++ String "=" v)
  = <[k := v]> cookies.
Proof.
  intros Hk Hkb Hvb. unfold add_part.
  assert (Hstrip : strip ((if blank then " " else EmptyString) ++ k ++ String "=" v)
                   = k ++ String "=" v).
  { unfold strip.
    assert (lstrip ((if blank then " " else EmptyString) ++ k ++ String "=" v)
            = k ++ String "=" v) as ->.
    { assert (Hl : lstrip (k ++ String "=" v) = k ++ String "=" v).
      { destruct k as [|c k]; [reflexivity|]. cbn [no_blank_ends] in Hkb.
        apply andb_true_iff in Hkb as [Hc _]. apply negb_true_iff in Hc.
        rewrite append_cons. cbn [lstrip]. rewrite Hc. reflexivity. }
      destruct blank; [|exact Hl]. exact Hl. }
    apply rstrip_app; [discriminate | apply rstrip_entry, Hvb]. }
  rewrite Hstrip, contains_app_sep, (split_once_app _ _ _ Hk).
  rewrite (no_blank_ends_strip k Hkb), (no_blank_ends_strip v Hvb).
  destruct k; reflexivity.
Qed.

Lemma render_cons p q rest :
  render (p :: q :: rest) = (fst p ++ String "=" (snd p)) ++ String ";" (" " ++ render (q :: rest)).
Proof.
  unfold render, join. cbn [List.map String.concat fst snd].
  rewrite !append_assoc_r. reflexivity.
Qed.

Lemma free_of_blank (blank : bool) seps :
  ~ In " "%char seps -> free_of seps (if blank then " " else EmptyString) = true.
Proof.
  intros Hn. destruct blank; [|reflexivity]. cbn [free_of]. rewrite andb_true_r.
  apply negb_true_iff. destruct (existsb (Ascii.eqb " ") seps) eqn:E; [|reflexivity].
  apply existsb_exists in E as (x & Hx & Hcx). apply Ascii.eqb_eq in Hcx. subst x.
  contradiction.
Qed.

(** Reading back a header written from pairs inserts the pairs in order. *)
Lemma cookies_of_render pairs :
  Forall (fun kv => free_of [";"%char; "="%char] (fst kv) = true /\
                    no_blank_ends (fst kv) = true /\
                    free_of [";"%char] (snd kv) = true /\
                    no_blank_ends (snd kv) = true) pairs ->
  pairs <> [] ->
  forall (blank : bool) cookies,
    fold_left add_part
      (split ";" ((if blank then " " else EmptyString) ++ render pairs)) cookies
    = fold_left (fun m kv => <[fst kv := snd kv]> m) pairs cookies.
Proof.
  induction 1 as [|p pairs (Hk & Hkb & Hv & Hvb) Hall IH]; [contradiction|].
  intros _ blank cookies.
  assert (Hk1 : free_of [";"%char] (fst p) = true).
  { apply (free_of_weaken [";"%char; "="%char] [";"%char]);
      [intros c [<-|[]]; left; reflexivity | exact Hk]. }
  assert (Hk2 : free_of ["="%char] (fst p) = true).
  { apply (free_of_weaken [";"%char; "="%char] ["="%char]);
      [intros c [<-|[]]; right; left; reflexivity | exact Hk]. }
  assert (Hfree : free_of [";"%char]
                    ((if blank then " " else EmptyString) ++ fst p ++ String "=" (snd p)) = true).
  { rewrite !free_of_app, Hk1, free_of_blank by (intros [Hc|[]]; discriminate Hc).
    cbn [free_of existsb]. rewrite Hv. reflexivity. }
  destruct pairs as [|q rest].
  - change (render [p]) with (fst p ++ String "=" (snd p)).
    rewrite (split_free _ _ Hfree). cbn [fold_left].
    apply add_part_entry; assumption.
  - rewrite render_cons, <- append_assoc_r, split_app, (split_free _ _ Hfree).
    cbn [app fold_left]. rewrite add_part_entry by assumption.
    apply (IH ltac:(discriminate) true).
Qed.

Lemma fold_insert_rev (pairs : list (string * string)) (cookies : gmap string string) :
  fold_left (fun m kv => <[fst kv := snd kv]> m) pairs cookies
  = foldr (fun kv m => <[fst kv := snd kv]> m) cookies (rev pairs).
Proof.
  revert cookies. induction pairs as [|p pairs IH]; intros cookies; [reflexivity|].
  cbn [fold_left rev]. rewrite IH, foldr_app. reflexivity.
Qed.

Lemma lstrip_free seps s : free_of seps s = true -> free_of seps (lstrip s) = true.
Proof.
  induction s as [|c s IH]; [reflexivity|]. intros Hs. cbn [lstrip].
  destruct (is_space c); [|exact Hs].
  cbn [free_of] in Hs. apply andb_true_iff in Hs as [_ Hs]. exact (IH Hs).
Qed.

Lemma rstrip_free seps s : free_of seps s = true -> free_of seps (rstrip s) = true.
Proof.
  induction s as [|c s IH]; [reflexivity|]. cbn [free_of rstrip]. intros Hs.
  apply andb_true_iff in Hs as [Hc Hs]. specialize (IH Hs).
  destruct (rstrip s) as [|c' r].
  - destruct (is_space c); [reflexivity|]. cbn [free_of]. rewrite Hc. reflexivity.
  - cbn [free_of] in *. rewrite Hc, IH. reflexivity.
Qed.

Lemma split_parts_free seps sep s :
  free_of seps s = true -> Forall (fun part => free_of seps part = true) (split sep s).
Proof.
  induction s as [|c s IH]; cbn [free_of split]; [repeat constructor|].
  intros Hs. apply andb_true_iff in Hs as [Hc Hs]. specialize (IH Hs).
  destruct (Ascii.eqb c sep); [constructor; [reflexivity | exact IH]|].
  destruct (split sep s) as [|part parts]; [repeat constructor; cbn; rewrite Hc; reflexivity|].
  apply Forall_cons in IH as [Hp Hps]. constructor; [|exact Hps].
  cbn [free_of]. rewrite Hc, Hp. reflexivity.
Qed.

(** Parts without an equals sign change nothing. *)
Lemma add_parts_without_equals parts cookies :
  Forall (fun part => free_of ["="%char] part = true) parts ->
  fold_left add_part parts cookies = cookies.
Proof.
  induction 1 as [|part parts Hp _ IH]; [reflexivity|]. cbn [fold_left].
  assert (add_part cookies part = cookies) as ->; [|exact IH].
  unfold add_part. rewrite (contains_free (strip part)).
  - rewrite orb_true_r. reflexivity.
  - apply rstrip_free, lstrip_free, Hp.
Qed.
End CookieFacts.

(** X7: a cookie header written as [name=value] pairs joined by ["; "] is
    read back by [cookie_str_to_dict] as the dict of these pairs, a name
    given twice keeping the value given last, as long as no name holds a
    semicolon or an equals sign, no value holds a semicolon, and neither
    starts or ends with a blank; a value may hold equals signs, since a
    part is cut at its first one only. *)
Theorem X7_cookie_header_read_back :
  forall pairs : list (string * string),
    Forall (fun kv => Cookies.free_of [";"%char; "="%char] (fst kv) = true /\
                      Cookies.no_blank_ends (fst kv) = true /\
                      Cookies.free_of [";"%char] (snd kv) = true /\
                      Cookies.no_blank_ends (snd kv) = true) pairs ->
    Cookies.cookie_str_to_dict (Cookies.render pairs) = list_to_map (rev pairs).
Proof.
  intros pairs Hok. unfold Cookies.cookie_str_to_dict.
  destruct pairs as [|p pairs]; [reflexivity|].
  rewrite (cookies_of_render (p :: pairs) Hok ltac:(discriminate) false ∅).
  apply fold_insert_rev.
Qed.

Lemma X7_cookie_header_read_back_witness :
  Cookies.cookie_str_to_dict (Cookies.render [("sid", "1"); ("key", "ab%3D=="); ("sid", "2")])
  = list_to_map (rev [("sid", "1"); ("key", "ab%3D=="); ("sid", "2")]).
Proof.
  apply (X7_cookie_header_read_back [("sid", "1"); ("key", "ab%3D=="); ("sid", "2")]).
  repeat constructor.
Defined.

(** X8: what stands between two semicolons without an equals sign in it
    is passed over: such text put before or after a cookie header, with a
    semicolon in between, does not change the dict read from it. *)
Theorem X8_cookie_parts_without_equals_ignored :
  forall s junk : string,
    Cookies.free_of ["="%char] junk = true ->
    Cookies.cookie_str_to_dict (s ++ String ";" junk) = Cookies.cookie_str_to_dict s /\
    Cookies.cookie_str_to_dict (junk ++ String ";" s) = Cookies.cookie_str_to_dict s.
Proof.
  intros s junk Hjunk. unfold Cookies.cookie_str_to_dict.
  rewrite !split_app, !fold_left_app.
  pose proof (split_parts_free ["="%char] ";" junk Hjunk) as Hparts.
  split.
  - apply add_parts_without_equals, Hparts.
  - rewrite (add_parts_without_equals _ ∅ Hparts). reflexivity.
Qed.

Lemma X8_cookie_parts_without_equals_ignored_witness :
  Cookies.cookie_str_to_dict ("a=1; b=2" ++ String ";" " Secure; HttpOnly ")
    = Cookies.cookie_str_to_dict "a=1; b=2" /\
  Cookies.cookie_str_to_dict (" Secure; HttpOnly " ++ String ";" "a=1; b=2")
    = Cookies.cookie_str_to_dict "a=1; b=2".
Proof.
  apply (X8_cookie_parts_without_equals_ignored "a=1; b=2" " Secure; HttpOnly ").
  reflexivity.
Defined.

(** ** 数据清洗/tag.py: how often the service is called *)

Section RetryFacts.
Context `{Py.Lib}.
Import Py Tag TagMain.

Lemma retryable_invalid_json (s : string) :
  is_retryable_error (ValueError ("invalid json: " ++ s)) = true.
Proof.
  unfold is_retryable_error, retry_keywords. cbn [exn_str].
  change (lower ("invalid json: " ++ s)) with ("invalid json: " ++ lower s).
  cbn [existsb]. rewrite !orb_true_iff. do 14 right. left.
  cbn [String.append contains String.prefix].
  repeat (match goal with
          | |- context [ascii_dec ?a ?b] => destruct (ascii_dec a b); [|contradiction]
          end).
  destruct (lower s); reflexivity.
Qed.

(** A call that is tried again fails with an error of the kind that is. *)
Lemma retried_attempt (r : result reply) :
  retried r -> exists e, attempt r = Raise e /\ is_retryable_error e = true.
Proof.
  unfold retried, unusable, attempt. destruct r as [resp|e].
  2:{ intros He. exists e. split; [reflexivity | exact He]. }
  cbn [bind]. intros [Hblank|Hdata].
  - rewrite Hblank. eexists. split; reflexivity.
  - destruct (String.eqb _ _); [eexists; split; reflexivity|].
    destruct (safe_get_json (decoded resp)) as [data|].
    + rewrite Hdata. eexists. split; [reflexivity | apply retryable_invalid_json].
    + eexists. split; [reflexivity | apply retryable_invalid_json].
Qed.

(** An attempt fails with the error the call raised, or on a reply that
    is tried again. *)
Lemma attempt_raise (r : result reply) (e : exn) :
  attempt r = Raise e -> r = Raise e \/ ((exists resp, r = Ok resp) /\ retried r).
Proof.
  unfold retried, unusable, attempt. destruct r as [resp|e']; cbn [bind].
  2:{ intros [= ->]. left. reflexivity. }
  intros Ha. right. split; [eauto|].
  destruct (String.eqb _ _) eqn:Eb; [left; apply String.eqb_eq, Eb|].
  right. unfold safe_get_json in *.
  destruct (decoded resp) as [[| | | | | |kvs]|]; try exact I.
  destruct (truthy (JObj kvs)); [|reflexivity]. discriminate Ha.
Qed.


Lemma retry_loop_same_replies (api api' : service) (max_retries : nat) :
  forall left no last_err,
    (forall j, (no <= j < no + left)%nat -> api j = api' j) ->
    retry_loop api max_retries left no last_err
    = retry_loop api' max_retries left no last_err.
Proof.
  induction left as [|left IH]; intros no last_err Hsame; [reflexivity|].
  cbn [retry_loop]. rewrite <- (Hsame no) by lia.
  destruct (attempt (api no)) as [c|e]; [reflexivity|].
  destruct (_ && _); [|reflexivity].
  apply IH. intros j Hj. apply Hsame. lia.
Qed.

Lemma take_chars_count (n : nat) (s : string) : (char_count (take_chars n s) <= n)%nat.
Proof.
  revert n. induction s as [|c s IH]; intros n; cbn [take_chars char_count]; [lia|].
  destruct (is_continuation c) eqn:Ec.
  - cbn [char_count]. rewrite Ec. apply IH.
  - destruct n as [|n]; cbn [char_count]; [lia|]. rewrite Ec. specialize (IH n). lia.
Qed.

Lemma char_count_app (a b : string) : char_count (a ++ b) = (char_count a + char_count b)%nat.
Proof.
  induction a as [|c a IH]; [reflexivity|].
  change (String c a ++ b) with (String c (a ++ b)). cbn [char_count].
  rewrite IH. destruct (is_continuation c); reflexivity.
Qed.

Lemma attempt_lengths (r : result reply) (c : classification) :
  attempt r = Ok c ->
  (char_count (Tag.reason c) <= 60)%nat /\ error c = EmptyString /\
  exists resp, r = Ok resp /\ raw_json c = strip (default EmptyString (content resp)).
Proof.
  unfold attempt. destruct r as [resp|e]; [|discriminate]. cbn [bind].
  destruct (String.eqb _ _); [discriminate|].
  destruct (safe_get_json (decoded resp)) as [data|]; [|discriminate].
  destruct (negb (truthy data)); [discriminate|].
  destruct (get_default data "mapped_category" _) as [cat|]; [|discriminate]. cbn [bind].
  destruct (get_default data "reason" _) as [why|]; [|discriminate]. cbn [bind].
  intros [= <-]. cbn [Tag.reason error raw_json].
  split; [apply take_chars_count|]. split; [reflexivity|]. exists resp. split; reflexivity.
Qed.

Lemma fallback_lengths (last_err : option exn) :
  (char_count (Tag.reason (fallback last_err)) <= 48)%nat /\
  (char_count (error (fallback last_err)) <= 200)%nat.
Proof.
  unfold fallback. cbn [Tag.reason error]. split.
  - rewrite char_count_app.
    change (char_count "调用/解析失败：") with 8%nat.
    apply (Nat.add_le_mono_l _ 40 8), take_chars_count.
  - destruct last_err as [e|]; [apply take_chars_count|].
    apply Nat.leb_le. vm_compute. reflexivity.
Qed.
End RetryFacts.



(** X10: [call_deepseek_json] makes no more than [max_retries] calls:
    two services that agree on the calls 1 to [max_retries] get the same
    result. *)
Theorem X10_at_most_max_retries_calls :
  forall (L : Py.Lib) (api api' : Tag.service) (max_retries : nat),
    (forall j, (1 <= j <= max_retries)%nat -> api j = api' j) ->
    Tag.call_deepseek_json api max_retries = Tag.call_deepseek_json api' max_retries.
Proof.
  intros L api api' max_retries Hsame. unfold Tag.call_deepseek_json.
  apply retry_loop_same_replies. intros j Hj. apply Hsame. lia.
Qed.

Lemma X10_at_most_max_retries_calls_witness :
  @Tag.call_deepseek_json Scenario.sample_lib Samples.third_time_lucky 2%nat
  = @Tag.call_deepseek_json Scenario.sample_lib (fun _ => Py.Ok Samples.blank_reply) 2%nat.
Proof.
  apply (X10_at_most_max_retries_calls Scenario.sample_lib Samples.third_time_lucky
           (fun _ => Py.Ok Samples.blank_reply) 2%nat).
  intros j Hj. destruct j as [|[|[|j]]]; try lia; reflexivity.
Defined.

(** X11: whatever the service answers, the reason returned has at most
    60 characters and the error text at most 200. *)
Theorem X11_reason_and_error_are_short :
  forall (L : Py.Lib) (api : Tag.service) (max_retries : nat),
    (TagMain.char_count (Tag.reason (Tag.call_deepseek_json api max_retries)) <= 60)%nat /\
    (TagMain.char_count (Tag.error (Tag.call_deepseek_json api max_retries)) <= 200)%nat.
Proof.
  intros L api max_retries. unfold Tag.call_deepseek_json.
  destruct (retry_loop_cases api max_retries max_retries 1 None)
    as [[e ->]|(n & c & Hc & ->)].
  - destruct (fallback_lengths e) as [Hr He]. split; [lia | exact He].
  - destruct (attempt_lengths _ _ Hc) as (Hr & -> & _). split; [exact Hr | cbn; lia].
Qed.

(** ** 湖北/cl.py: retries *)

Section WithRetryFacts.
Import Py HubeiMain.
Context {A : Type}.
Variable coro_fn : nat -> result A.



End WithRetryFacts.


(** ** 湖北/cl.py: the seen keys read back, and the last pass *)

Section SeenKeysFacts.
Import Py Hubei HubeiMain.

Lemma seen_from_urls (keys : list key) :
  Forall (fun k => exists u, k = inl u) keys ->
  seen_from (List.map key_json keys) = Ok (list_to_set keys).
Proof.
  intros Hurls. unfold seen_from.
  assert (forallb (fun v => negb (is_list v || is_dict v)) (List.map key_json keys) = true
          /\ omap (fun v => match v with JStr u => Some (inl u) | _ => None end)
                  (List.map key_json keys) = keys) as [-> ->]; [|reflexivity].
  induction Hurls as [|k keys [u ->] _ [IH1 IH2]]; [split; reflexivity|].
  cbn [List.map forallb key_json is_list is_dict orb negb andb].
  rewrite IH1. split; [reflexivity|].
  change (omap ?f (JStr u :: ?l)) with (inl u :: omap f l : list key).
  f_equal. exact IH2.
Qed.

Lemma seen_from_pair (keys : list key) (t o : option string) :
  inr (t, o) ∈ keys -> seen_from (List.map key_json keys) = Raise TypeError.
Proof.
  intros Hin. unfold seen_from.
  assert (forallb (fun v => negb (is_list v || is_dict v)) (List.map key_json keys) = false)
    as ->; [|reflexivity].
  induction keys as [|k keys IH]; [inversion Hin|].
  cbn [List.map forallb]. apply elem_of_cons in Hin as [<-|Hin]; [reflexivity|].
  rewrite (IH Hin). apply andb_false_r.
Qed.
End SeenKeysFacts.

(** X13: the seen keys of a checkpoint can be read back only if all of
    them are detail URLs.  When they are, [set(ck.get("seen_keys", []))]
    on the list that [save_checkpoint] wrote is the set that was saved.  A
    card without a link to its detail page goes into the seen-set under
    the pair of its title and its organisation; the checkpoint holds that
    pair as a list, and on it the set cannot be built: the resumed [main]
    ends with a [TypeError]. *)
Theorem X13_seen_keys_read_back_only_if_urls :
  forall seen : gset Hubei.key,
    ((forall k, k ∈ seen -> exists u, k = inl u) ->
     HubeiMain.seen_from (List.map Hubei.key_json (elements seen)) = Py.Ok seen) /\
    (forall t o, inr (t, o) ∈ seen ->
     HubeiMain.seen_from (List.map Hubei.key_json (elements seen)) = Py.Raise Py.TypeError) /\
    (forall x : Hubei.item,
        Hubei.detail_url x = None ->
        inr (Hubei.title x, Hubei.org x) ∈ fst (Hubei.add_items [x] seen)).
Proof.
  intros seen. split; [|split].
  - intros Hurls. rewrite seen_from_urls.
    + f_equal. apply set_eq. intros k. rewrite elem_of_list_to_set, elem_of_elements.
      reflexivity.
    + apply Forall_forall. intros k Hk. apply Hurls, elem_of_elements, Hk.
  - intros t o Hin. apply (seen_from_pair _ t o), elem_of_elements, Hin.
  - intros x Hx. unfold Hubei.add_items, Dedup.run. cbn [fold_left].
    unfold Dedup.step. cbn [fst snd].
    assert (Hubei.key_of x = inr (Hubei.title x, Hubei.org x)) as Hk
      by (unfold Hubei.key_of; rewrite Hx; reflexivity).
    rewrite Hk.
    destruct (Dedup.should_emit _ _ _) eqn:E; cbn [fst]; [set_solver|].
    destruct (decide (inr (Hubei.title x, Hubei.org x) ∈ seen)) as [Hin|Hnot]; [exact Hin|].
    exfalso. 
    assert (Dedup.should_emit Hubei.key_truthy
              (inr (Hubei.title x, Hubei.org x) : Hubei.key) seen = true); [|congruence].
    apply should_emit_true. split; [reflexivity | exact Hnot].
Qed.

Section LastPassFacts.
Context {A K : Type} `{Countable K}.
Variable key_of : A -> K.
Variable key_truthy : K -> bool.

Local Abbreviation run := (Dedup.run key_of key_truthy).

(** Rows with pairwise distinct keys, all of them new, pass unchanged. *)
Lemma run_distinct_keys xs : forall seen out,
  NoDup (List.map key_of xs) ->
  (forall x, x ∈ xs -> (key_of x ∉ seen) /\ key_truthy (key_of x) = true) ->
  snd (run xs (seen, out)) = (out ++ xs)%list.
Proof.
  induction xs as [|x xs IH]; intros seen out Hnd Hnew.
  - cbn. rewrite app_nil_r. reflexivity.
  - cbn [Dedup.run fold_left]. unfold Dedup.step at 2. cbn [fst snd].
    destruct (Hnew x ltac:(left)) as [Hx Ht].
    rewrite (proj2 (should_emit_true key_truthy (key_of x) seen) (conj Ht Hx)).
    cbn [List.map] in Hnd. apply NoDup_cons in Hnd as [Hnotin Hnd].
    change (fold_left (Dedup.step key_of key_truthy) xs ?st) with (run xs st).
    rewrite IH; [rewrite <- app_assoc; reflexivity | exact Hnd |].
    intros y Hy. destruct (Hnew y ltac:(right; exact Hy)) as [Hy1 Hy2].
    split; [|exact Hy2]. intros Hin. apply elem_of_union in Hin as [Hin|Hin]; [|contradiction].
    apply elem_of_singleton in Hin. apply Hnotin. rewrite <- Hin.
    apply list_elem_of_fmap. exists y. split; [reflexivity | exact Hy].
Qed.

Lemma run_sublist xs : forall seen, sublist (snd (run xs (seen, []))) xs.
Proof.
  induction xs as [|x xs IH]; intros seen; [constructor|].
  cbn [Dedup.run fold_left]. unfold Dedup.step at 2. cbn [fst snd].
  change (fold_left (Dedup.step key_of key_truthy) xs ?st) with (run xs st).
  destruct (Dedup.should_emit key_truthy (key_of x) seen).
  - rewrite run_out_prefix. cbn [snd app]. apply sublist_skip, IH.
  - apply sublist_cons, IH.
Qed.

(** Every truthy key met is in the seen-set afterwards, and what is in
    the seen-set was there at the start or is the key of a row let
    through. *)
Lemma run_seen_exact xs : forall seen k,
  k ∈ fst (run xs (seen, [])) <->
  k ∈ seen \/ k ∈ List.map key_of (snd (run xs (seen, []))).
Proof.
  induction xs as [|x xs IH]; intros seen k.
  - cbn. split; [auto | intros [Hk|Hk]; [exact Hk | inversion Hk]].
  - cbn [Dedup.run fold_left]. unfold Dedup.step at 2 4. cbn [fst snd].
    change (fold_left (Dedup.step key_of key_truthy) xs ?st) with (run xs st).
    destruct (Dedup.should_emit key_truthy (key_of x) seen); [|apply IH].
    rewrite run_out_prefix. cbn [fst snd app List.map].
    rewrite IH, elem_of_union, elem_of_singleton, elem_of_cons. tauto.
Qed.

Lemma run_covers xs : forall seen x,
  x ∈ xs -> key_truthy (key_of x) = true -> key_of x ∈ fst (run xs (seen, [])).
Proof.
  induction xs as [|y xs IH]; intros seen x Hx Ht; [inversion Hx|].
  cbn [Dedup.run fold_left].
  change (fold_left (Dedup.step key_of key_truthy) xs ?st) with (run xs st).
  apply elem_of_cons in Hx as [->|Hx].
  - set (st := Dedup.step key_of key_truthy (seen, []) y).
    assert (key_of y ∈ fst st) as Hin.
    { subst st. unfold Dedup.step. cbn [fst snd].
      destruct (Dedup.should_emit key_truthy (key_of y) seen) eqn:E; cbn [fst].
      - apply elem_of_union_l, elem_of_singleton. reflexivity.
      - destruct (decide (key_of y ∈ seen)) as [Hin|Hnot]; [exact Hin|].
        rewrite (proj2 (should_emit_true key_truthy (key_of y) seen) (conj Ht Hnot)) in E.
        discriminate. }
    apply (run_seen_mono key_of key_truthy xs st), Hin.
  - unfold Dedup.step. cbn [fst snd].
    destruct (Dedup.should_emit key_truthy (key_of y) seen).
    + rewrite run_out_prefix. cbn [fst]. apply IH; assumption.
    + apply IH; assumption.
Qed.
End LastPassFacts.

(** X15: the last pass drops nothing of what the crawl wrote.  When the
    lines already in the JSONL file carry pairwise distinct keys that are
    all in the seen-set the crawl starts with, the lines of the file after
    the crawl, the old ones followed by the ones appended, pass the last
    pass unchanged. *)
Theorem X15_last_pass_leaves_crawl_output_unchanged :
  forall (old : list Hubei.item) (later : list (list Hubei.item)) (cur : list Hubei.item)
         (page_index : Z) (seen : gset Hubei.key),
    NoDup (List.map Hubei.key_of old) ->
    (forall x, x ∈ old -> Hubei.key_of x ∈ seen) ->
    HubeiMain.final_dedup
      (old ++ Hubei.appended (fst (Hubei.crawl later cur page_index seen)))
    = (old ++ Hubei.appended (fst (Hubei.crawl later cur page_index seen)))%list.
Proof.
  intros old later cur page_index seen Hnd Hold. rewrite hubei_crawl_run.
  pose proof (run_inv Hubei.key_of Hubei.key_truthy seen (cur ++ concat later) (seen, [])
                (dedup_inv_init Hubei.key_of Hubei.key_truthy seen)) as (_ & Hnd' & Hall).
  set (new := snd (Dedup.run Hubei.key_of Hubei.key_truthy (cur ++ concat later) (seen, []))) in *.
  unfold HubeiMain.final_dedup. rewrite run_distinct_keys; [reflexivity | |].
  - rewrite List.map_app. apply NoDup_app. split; [exact Hnd|]. split; [|exact Hnd'].
    intros k Hk Hk'. apply list_elem_of_fmap in Hk as (x & -> & Hx).
    apply list_elem_of_fmap in Hk' as (y & Hy & Hyin).
    rewrite Forall_forall in Hall. destruct (Hall y Hyin) as (_ & Hfresh & _).
    apply Hfresh. rewrite <- Hy. apply Hold, Hx.
  - intros x _. split; [apply not_elem_of_empty | reflexivity].
Qed.

Lemma X15_last_pass_leaves_crawl_output_unchanged_witness :
  HubeiMain.final_dedup
    ([Samples.card_linked]
       ++ Hubei.appended
            (fst (Hubei.crawl [[Samples.card_unlinked]]
                    [Samples.card_linked; Samples.card_unlinked] 2
                    {[ Hubei.key_of Samples.card_linked ]})))
  = ([Samples.card_linked]
       ++ Hubei.appended
            (fst (Hubei.crawl [[Samples.card_unlinked]]
                    [Samples.card_linked; Samples.card_unlinked] 2
                    {[ Hubei.key_of Samples.card_linked ]})))%list.
Proof.
  apply (X15_last_pass_leaves_crawl_output_unchanged [Samples.card_linked]
           [[Samples.card_unlinked]] [Samples.card_linked; Samples.card_unlinked] 2
           {[ Hubei.key_of Samples.card_linked ]}).
  - repeat constructor. intros Hin. inversion Hin.
  - intros x Hx. apply list_elem_of_singleton in Hx. subst x.
    apply elem_of_singleton. reflexivity.
Defined.

(** ** 数据清洗/tag.py: batches and the result columns *)

Section BatchFacts.
Import Py Tag TagMain.

Lemma starts_past (fuel start n c : nat) : (n <= start)%nat -> starts fuel start n c = [].
Proof.
  intros Hle. destruct fuel as [|fuel]; [reflexivity|]. cbn [starts].
  destruct (Nat.ltb_spec start n); [lia | reflexivity].
Qed.

Lemma starts_cover (c : nat) (n : nat) : (0 < c)%nat ->
  forall fuel start, (start <= n)%nat -> (n - start <= fuel)%nat ->
    concat (List.map (fun s => seq s (Nat.min n (s + c) - s)) (starts fuel start n c))
    = seq start (n - start).
Proof.
  intros Hc. induction fuel as [|fuel IH]; intros start Hle Hfuel.
  - replace (n - start)%nat with 0%nat by lia. reflexivity.
  - cbn [starts]. destruct (Nat.ltb_spec start n) as [Hlt|Hge].
    2:{ replace (n - start)%nat with 0%nat by lia. reflexivity. }
    cbn [List.map concat]. destruct (Nat.le_gt_cases (start + c) n) as [Hin|Hout].
    + rewrite IH by lia. replace (Nat.min n (start + c) - start)%nat with c by lia.
      replace (n - start)%nat with (c + (n - (start + c)))%nat by lia.
      rewrite seq_app. reflexivity.
    + rewrite starts_past by lia. cbn [List.map concat]. rewrite app_nil_r.
      replace (Nat.min n (start + c) - start)%nat with (n - start)%nat by lia. reflexivity.
Qed.

Lemma starts_below (c n : nat) : forall fuel start,
  Forall (fun s => (s < n)%nat) (starts fuel start n c).
Proof.
  induction fuel as [|fuel IH]; intros start; [constructor|]. cbn [starts].
  destruct (Nat.ltb_spec start n); [constructor; [assumption | apply IH] | constructor].
Qed.

Lemma batches_cover (n : nat) (chunksize_submit : Z) :
  (0 < chunksize_submit)%Z ->
  exists bs, batches n chunksize_submit = Ok bs /\
    concat bs = seq 0 n /\
    Forall (fun b => (1 <= List.length b <= Z.to_nat chunksize_submit)%nat) bs.
Proof.
  intros Hc. unfold batches.
  destruct (Z.eqb_spec chunksize_submit 0) as [|_]; [lia|].
  destruct (Z.ltb_spec chunksize_submit 0) as [|_]; [lia|].
  eexists. split; [reflexivity|]. split.
  - rewrite (starts_cover (Z.to_nat chunksize_submit) n ltac:(lia) n 0%nat) by lia.
    rewrite Nat.sub_0_r. reflexivity.
  - apply Forall_fmap. eapply Forall_impl; [apply starts_below|].
    intros s Hs. unfold compose. cbv beta in *. rewrite length_seq. lia.
Qed.
End BatchFacts.

(** X16: the batches [main] submits hold every row index from 0 to
    [n - 1] once, in order, each batch between one and [chunksize_submit]
    of them, when [chunksize_submit] is positive; with a negative
    [chunksize_submit] there is no batch at all, and with 0 the [range]
    that steps through the rows raises a [ValueError]. *)
Theorem X16_batches_hold_every_row_once :
  forall (n : nat) (chunksize_submit : Z),
    ((0 < chunksize_submit)%Z ->
     exists bs, TagMain.batches n chunksize_submit = Py.Ok bs /\
       concat bs = seq 0 n /\
       Forall (fun b => (1 <= List.length b <= Z.to_nat chunksize_submit)%nat) bs) /\
    ((chunksize_submit < 0)%Z -> TagMain.batches n chunksize_submit = Py.Ok []) /\
    TagMain.batches n 0 = Py.Raise (Py.ValueError "range() arg 3 must not be zero").
Proof.
  intros n chunksize_submit. split; [apply batches_cover|]. split; [|reflexivity].
  intros Hneg. unfold TagMain.batches.
  destruct (Z.eqb_spec chunksize_submit 0) as [|_]; [lia|].
  destruct (Z.ltb_spec chunksize_submit 0) as [_|]; [reflexivity | lia].
Qed.

Section InsertFacts.
Context {B : Type}.
Variable f : nat -> B.

Local Abbreviation put := (fun (l : list B) (i : nat) => <[i := f i]> l).

Lemma fold_put_length order : forall l, List.length (fold_left put order l) = List.length l.
Proof.
  induction order as [|j order IH]; intros l; [reflexivity|].
  cbn [fold_left]. rewrite IH. apply length_insert.
Qed.

Lemma fold_put_lookup order : forall l i,
  (i < List.length l)%nat ->
  fold_left put order l !! i = if bool_decide (i ∈ order) then Some (f i) else l !! i.
Proof.
  induction order as [|j order IH]; intros l i Hi.
  - cbn [fold_left]. rewrite bool_decide_eq_false_2; [reflexivity | apply not_elem_of_nil].
  - cbn [fold_left]. rewrite IH by (rewrite length_insert; exact Hi).
    destruct (decide (i ∈ order)) as [Hin|Hnot].
    + rewrite !bool_decide_eq_true_2; [reflexivity | right; exact Hin | exact Hin].
    + rewrite (bool_decide_eq_false_2 _ Hnot). destruct (decide (i = j)) as [->|Hne].
      * rewrite bool_decide_eq_true_2 by left. apply list_lookup_insert_eq. exact Hi.
      * rewrite bool_decide_eq_false_2
          by (intros Hc; apply elem_of_cons in Hc as [Hc|Hc]; contradiction).
        apply list_lookup_insert_ne. congruence.
Qed.

(** Written in any order, the values of all indices fill the list. *)
Lemma fold_put_all order n l :
  order ≡ₚ seq 0 n -> List.length l = n -> fold_left put order l = List.map f (seq 0 n).
Proof.
  intros Hperm Hlen. apply list_eq. intros i.
  destruct (Nat.lt_ge_cases i n) as [Hi|Hi].
  - rewrite fold_put_lookup by lia.
    rewrite bool_decide_eq_true_2 by (rewrite Hperm; apply elem_of_seq; lia).
    change (List.map f (seq 0 n)) with (f <$> seq 0 n).
    rewrite list_lookup_fmap, lookup_seq_lt by exact Hi. reflexivity.
  - rewrite !lookup_ge_None_2; [reflexivity | |].
    + rewrite length_map, length_seq. exact Hi.
    + rewrite fold_put_length. lia.
Qed.
End InsertFacts.

Lemma filter_length_perm {B} (p : B -> bool) (l l' : list B) :
  l ≡ₚ l' -> List.length (List.filter p l) = List.length (List.filter p l').
Proof.
  induction 1 as [|x l l' _ IH|x y l|l l' l'' _ IH1 _ IH2]; cbn [List.filter].
  - reflexivity.
  - destruct (p x); cbn [List.length]; congruence.
  - destruct (p x), (p y); reflexivity.
  - congruence.
Qed.

Lemma filter_length_split {B} (p : B -> bool) (l : list B) :
  (List.length (List.filter p l) + List.length (List.filter (fun x => negb (p x)) l)
   = List.length l)%nat.
Proof.
  induction l as [|x l IH]; [reflexivity|]. cbn [List.filter].
  destruct (p x); cbn [negb List.length]; lia.
Qed.

Section MainFacts.
Context `{Py.Lib}.
Import Py Tag TagMain.
Variable api : nat -> service.
Variable completion : list nat -> list nat.

Local Abbreviation result_of := (fun idx : nat => call_deepseek_json (api idx) 5).
Local Abbreviation record := (fun (t : tally) (idx : nat) => record_result t idx (result_of idx)).
Local Abbreviation failed := (fun idx : nat => negb (String.eqb (error (result_of idx)) EmptyString)).

Lemma run_batches_flat bs : forall t,
  fold_left (run_batch api completion) bs t
  = fold_left record (concat (List.map completion bs)) t.
Proof.
  induction bs as [|b bs IH]; intros t; [reflexivity|].
  cbn [fold_left List.map concat]. rewrite fold_left_app, IH. reflexivity.
Qed.

Lemma record_fields order : forall t,
  mapped (fold_left record order t)
    = fold_left (fun l i => <[i := mapped_category (result_of i)]> l) order (mapped t) /\
  conf (fold_left record order t)
    = fold_left (fun l i => <[i := confidence (result_of i)]> l) order (conf t) /\
  TagMain.reason (fold_left record order t)
    = fold_left (fun l i => <[i := Tag.reason (result_of i)]> l) order (TagMain.reason t) /\
  err (fold_left record order t)
    = fold_left (fun l i => <[i := error (result_of i)]> l) order (err t) /\
  success_cnt (fold_left record order t)
    = (success_cnt t + List.length (List.filter (fun i => negb (failed i)) order))%nat /\
  fail_cnt (fold_left record order t)
    = (fail_cnt t + List.length (List.filter failed order))%nat.
Proof.
  induction order as [|i order IH]; intros t.
  - cbn. repeat split; lia.
  - cbn [fold_left]. destruct (IH (record_result t i (result_of i)))
      as (-> & -> & -> & -> & -> & ->).
    cbn [mapped conf TagMain.reason err success_cnt fail_cnt record_result List.filter].
    destruct (String.eqb _ _); cbn [negb List.length].
    all: repeat split; lia.
Qed.

Lemma completion_order bs n :
  (forall b, completion b ≡ₚ b) -> concat bs = seq 0 n ->
  concat (List.map completion bs) ≡ₚ seq 0 n.
Proof.
  intros Hperm <-. induction bs as [|b bs IH]; [reflexivity|].
  cbn [List.map concat]. rewrite (Hperm b), IH. reflexivity.
Qed.
End MainFacts.

(** X17: the columns [main] adds do not depend on the order in which the
    worker threads finish.  With the API key set, the three input columns
    present and a positive [chunksize_submit], whatever order
    [as_completed] hands over the futures of each batch in, row [i] of
    each of the four columns holds what [call_deepseek_json] returned for
    row [i]; the two counters add up to the number of rows, [fail_cnt]
    being the number of rows with a non-empty error text. *)
Theorem X17_columns_do_not_depend_on_completion_order :
  forall (L : Py.Lib) (api : nat -> Tag.service) (completion : list nat -> list nat)
         (api_key : option string) (columns : list string)
         (col_product_name col_raw_category col_intro : string) (n : nat)
         (chunksize_submit : Z),
    TagMain.unset api_key = false ->
    col_product_name ∈ columns -> col_raw_category ∈ columns -> col_intro ∈ columns ->
    (0 < chunksize_submit)%Z ->
    (forall b, completion b ≡ₚ b) ->
    exists t,
      TagMain.main api completion api_key columns col_product_name col_raw_category
        col_intro n chunksize_submit = Py.Ok t /\
      TagMain.mapped t
        = List.map (fun i => Tag.mapped_category (Tag.call_deepseek_json (api i) 5)) (seq 0 n) /\
      TagMain.conf t
        = List.map (fun i => Tag.confidence (Tag.call_deepseek_json (api i) 5)) (seq 0 n) /\
      TagMain.reason t
        = List.map (fun i => Tag.reason (Tag.call_deepseek_json (api i) 5)) (seq 0 n) /\
      TagMain.err t
        = List.map (fun i => Tag.error (Tag.call_deepseek_json (api i) 5)) (seq 0 n) /\
      (TagMain.success_cnt t + TagMain.fail_cnt t = n)%nat /\
      TagMain.fail_cnt t
        = List.length
            (List.filter
               (fun i => negb (String.eqb (Tag.error (Tag.call_deepseek_json (api i) 5))
                                          EmptyString))
               (seq 0 n)).
Proof.
  intros L api completion api_key columns c1 c2 c3 n chunk Hkey H1 H2 H3 Hchunk Hperm.
  unfold TagMain.main. rewrite Hkey. cbn [List.filter].
  rewrite !bool_decide_eq_true_2 by assumption. cbn [negb].
  destruct (batches_cover n chunk Hchunk) as (bs & -> & Hcover & _). cbn [Py.bind].
  eexists. split; [reflexivity|].
  rewrite run_batches_flat.
  pose proof (completion_order completion bs n Hperm Hcover) as Horder.
  destruct (record_fields api (concat (List.map completion bs)) (TagMain.start n))
    as (-> & -> & -> & -> & -> & ->).
  cbn [TagMain.start TagMain.mapped TagMain.conf TagMain.reason TagMain.err
       TagMain.success_cnt TagMain.fail_cnt].
  rewrite !(fold_put_all _ _ n) by (try exact Horder; apply length_replicate).
  repeat (split; [reflexivity|]).
  rewrite !(filter_length_perm _ _ _ Horder). split; [|reflexivity].
  cbn [Nat.add].
  rewrite Nat.add_comm.
  rewrite (filter_length_split
             (fun i => negb (String.eqb (Tag.error (Tag.call_deepseek_json (api i) 5))
                                        EmptyString)) (seq 0 n)).
  apply length_seq.
Qed.

Lemma X17_columns_do_not_depend_on_completion_order_witness :
  exists t,
    @TagMain.main Scenario.sample_lib (fun _ => Samples.third_time_lucky) (@rev nat)
      (Some "sk-demo") ["产品名称"; "类别_原始"; "产品介绍"] "产品名称" "类别_原始" "产品介绍"
      7 3 = Py.Ok t /\
    TagMain.mapped t
      = List.map (fun i => Tag.mapped_category
                             (@Tag.call_deepseek_json Scenario.sample_lib
                                ((fun _ => Samples.third_time_lucky) i) 5)) (seq 0 7) /\
    TagMain.conf t
      = List.map (fun i => Tag.confidence
                             (@Tag.call_deepseek_json Scenario.sample_lib
                                ((fun _ => Samples.third_time_lucky) i) 5)) (seq 0 7) /\
    TagMain.reason t
      = List.map (fun i => Tag.reason
                             (@Tag.call_deepseek_json Scenario.sample_lib
                                ((fun _ => Samples.third_time_lucky) i) 5)) (seq 0 7) /\
    TagMain.err t
      = List.map (fun i => Tag.error
                             (@Tag.call_deepseek_json Scenario.sample_lib
                                ((fun _ => Samples.third_time_lucky) i) 5)) (seq 0 7) /\
    (TagMain.success_cnt t + TagMain.fail_cnt t = 7)%nat /\
    TagMain.fail_cnt t
      = List.length
          (List.filter
             (fun i => negb (String.eqb
                               (Tag.error (@Tag.call_deepseek_json Scenario.sample_lib
                                             ((fun _ => Samples.third_time_lucky) i) 5))
                               EmptyString))
             (seq 0 7)).
Proof.
  apply (X17_columns_do_not_depend_on_completion_order Scenario.sample_lib
           (fun _ => Samples.third_time_lucky) (@rev nat) (Some "sk-demo")
           ["产品名称"; "类别_原始"; "产品介绍"] "产品名称" "类别_原始" "产品介绍" 7%nat 3).
  - reflexivity.
  - apply (bool_decide_unpack _). vm_compute. exact I.
  - apply (bool_decide_unpack _). vm_compute. exact I.
  - apply (bool_decide_unpack _). vm_compute. exact I.
  - lia.
  - intros b. symmetry. apply Permutation_rev.
Defined.

(** ** 上海/cl.py: the list columns after [normalize_item] *)

Section NormalizeItemFacts.
Context `{Py.Lib}.
Import Py Shanghai.

Lemma join_field_same (k : string) (out : list (string * json)) :
  exists s, assoc k (join_field out k) = Some (JStr s).
Proof.
  unfold join_field. destruct (assoc k out) as [[]|]; eexists; apply assoc_set_same.
Qed.

Lemma assoc_set_id (k : string) (v : json) (l : list (string * json)) :
  assoc k l = Some v -> assoc_set k v l = l.
Proof.
  induction l as [|[k' v'] l IH]; cbn [assoc assoc_set]; [discriminate|].
  destruct (String.eqb k k') eqn:E.
  - intros [= ->]. apply String.eqb_eq in E. subst k'. reflexivity.
  - intros Hl. rewrite (IH Hl). reflexivity.
Qed.

Lemma join_field_fixed (k s : string) (out : list (string * json)) :
  assoc k out = Some (JStr s) -> join_field out k = out.
Proof.
  intros Hk. unfold join_field. rewrite Hk. cbn [py_str]. apply assoc_set_id, Hk.
Qed.

Lemma normalize_item_columns (item : list (string * json)) :
  (exists s, assoc "aiTag" (normalize_item item) = Some (JStr s)) /\
  (exists s, assoc "sectorName" (normalize_item item) = Some (JStr s)) /\
  (exists s, assoc "zoneName" (normalize_item item) = Some (JStr s)).
Proof.
  unfold normalize_item. cbn [fold_left]. split; [|split].
  - rewrite !join_field_other by discriminate. apply join_field_same.
  - rewrite join_field_other by discriminate. apply join_field_same.
  - apply join_field_same.
Qed.
End NormalizeItemFacts.

(** X18: after [normalize_item] the three list columns [aiTag],
    [sectorName] and [zoneName] are there and hold a string each, every
    other field of the item is as it was, and normalising the result once
    more changes nothing. *)
Theorem X18_normalize_item_makes_three_string_columns :
  forall (L : Py.Lib) (item : list (string * Py.json)),
    (forall k, k ∈ ["aiTag"; "sectorName"; "zoneName"] ->
               exists s, Py.assoc k (Shanghai.normalize_item item) = Some (Py.JStr s)) /\
    (forall k, k ∉ ["aiTag"; "sectorName"; "zoneName"] ->
               Py.assoc k (Shanghai.normalize_item item) = Py.assoc k item) /\
    Shanghai.normalize_item (Shanghai.normalize_item item) = Shanghai.normalize_item item.
Proof.
  intros L item.
  destruct (normalize_item_columns item) as ([s1 H1] & [s2 H2] & [s3 H3]).
  split; [|split].
  - intros k Hk. repeat (apply elem_of_cons in Hk as [->|Hk]); eauto. inversion Hk.
  - intros k Hk. unfold Shanghai.normalize_item. cbn [fold_left].
    rewrite !join_field_other; [reflexivity | | |]; intros ->; apply Hk;
      repeat constructor.
  - set (out := Shanghai.normalize_item item) in *.
    unfold Shanghai.normalize_item at 1. cbn [fold_left].
    rewrite (join_field_fixed "aiTag" s1 out H1).
    rewrite (join_field_fixed "sectorName" s2 out H2).
    apply (join_field_fixed "zoneName" s3 out H3).
Qed.

(** ** 安徽/cl.py: the pages asked for and the rows collected *)

Section AnhuiCrawlFacts.
Context `{Py.Lib}.
Import Py Http AnhuiCrawl.

Lemma consume_list_rows lst rows rows' :
  consume_list lst rows = Ok rows' ->
  exists new, rows' = (rows ++ new)%list /\
              Forall (fun r => exists item, r = with_tag_columns item) new.
Proof.
  unfold consume_list. destruct (negb (truthy lst)).
  - intros [= <-]. exists []. split; [rewrite app_nil_r; reflexivity | constructor].
  - destruct lst as [| | | | |items|]; try discriminate. intros [= <-].
    eexists. split; [reflexivity|]. apply Forall_forall. intros r Hr.
    apply list_elem_of_omap in Hr as (item & _ & Hitem).
    destruct item as [| | | | | |kvs]; try discriminate. injection Hitem as <-.
    exists kvs. reflexivity.
Qed.

Lemma later_pages_spec srv : forall page_nos n rows,
  fst (later_pages srv n page_nos rows) `prefix_of` page_nos /\
  forall rows', snd (later_pages srv n page_nos rows) = Ok rows' ->
    fst (later_pages srv n page_nos rows) = page_nos /\
    exists new, rows' = (rows ++ new)%list /\
                Forall (fun r => exists item, r = with_tag_columns item) new.
Proof.
  induction page_nos as [|page_no rest IH]; intros n rows; cbn [later_pages].
  - cbn [fst snd]. split; [reflexivity|]. intros rows' [= <-]. split; [reflexivity|].
    exists []. split; [rewrite app_nil_r; reflexivity | constructor].
  - destruct (bind (_request_page (srv n page_no PAGE_SIZE)) _) as [rows1|e] eqn:Epage.
    2:{ cbn [fst snd]. split; [|discriminate]. exists rest. reflexivity. }
    assert (exists new, rows1 = (rows ++ new)%list /\
                        Forall (fun r => exists item, r = with_tag_columns item) new)
      as (new1 & -> & Hnew1).
    { destruct (_request_page (srv n page_no PAGE_SIZE)) as [j|]; [|discriminate].
      cbn [bind] in Epage. destruct (get j "data") as [d|]; [|discriminate].
      cbn [bind] in Epage. destruct (get (or_else d (JObj [])) "list") as [lst|]; [|discriminate].
      cbn [bind] in Epage. exact (consume_list_rows _ _ _ Epage). }
    specialize (IH (S n) (rows ++ new1)%list).
    destruct (later_pages srv (S n) rest (rows ++ new1)) as [asked r].
    cbn [fst snd] in *. destruct IH as [Hpre Hok]. split.
    + apply prefix_cons, Hpre.
    + intros rows' Hr. destruct (Hok rows' Hr) as (-> & new & -> & Hnew).
      split; [reflexivity|]. exists (new1 ++ new)%list.
      split; [rewrite app_assoc; reflexivity | apply Forall_app_2; assumption].
Qed.

Lemma with_tag_columns_fields (item : list (string * json)) :
  assoc "productTag_flat" (with_tag_columns item)
    = Some (JStr (Anhui._flatten_product_tags (default JNull (assoc "productTag" item)))) /\
  assoc "productTag_json" (with_tag_columns item)
    = Some (JStr (dumps (default (JArr []) (assoc "productTag" item)))) /\
  forall k, k <> "productTag_flat" -> k <> "productTag_json" ->
            assoc k (with_tag_columns item) = assoc k item.
Proof.
  unfold with_tag_columns. cbv zeta. split; [|split].
  - rewrite assoc_set_other by discriminate. apply assoc_set_same.
  - rewrite (assoc_set_other "productTag" "productTag_flat") by discriminate.
    apply assoc_set_same.
  - intros k H1 H2. rewrite !assoc_set_other by assumption. reflexivity.
Qed.
End AnhuiCrawlFacts.

(** X19: [crawl_all] asks for page 1, reads [totalPage] off its reply and
    then asks for the pages 2 to [pages], one request each, in order,
    where [pages] is [totalPage] (1 when it is absent or not positive), cut
    down to [max_pages] if given.  It stops at the first request that
    fails and returns rows only if none did; the rows then start with
    those of the first page, and every row is a copy of an item with the
    two columns [productTag_flat] and [productTag_json] set from its
    [productTag] and its other fields unchanged. *)
Theorem X19_crawl_all_asks_the_announced_pages :
  forall (L : Py.Lib) (srv : Http.server) (max_pages : option Z) (first : Py.json)
         (total_page : Z) (rows1 : list (list (string * Py.json))),
    AnhuiCrawl._request_page (srv 0%nat 1 AnhuiCrawl.PAGE_SIZE) = Py.Ok first ->
    AnhuiCrawl.first_page first = Py.Ok (total_page, rows1) ->
    let pages := AnhuiCrawl.page_count total_page max_pages in
    let run := AnhuiCrawl.crawl_all srv max_pages in
    fst run `prefix_of` (1 :: AnhuiCrawl.py_range 2 (pages + 1)) /\
    (forall rows, snd run = Py.Ok rows ->
       fst run = 1 :: AnhuiCrawl.py_range 2 (pages + 1) /\
       rows1 `prefix_of` rows /\
       Forall (fun r => exists item,
                 r = AnhuiCrawl.with_tag_columns item /\
                 Py.assoc "productTag_flat" r
                   = Some (Py.JStr (Anhui._flatten_product_tags
                                      (default Py.JNull (Py.assoc "productTag" item)))) /\
                 Py.assoc "productTag_json" r
                   = Some (Py.JStr (Py.dumps (default (Py.JArr []) (Py.assoc "productTag" item)))) /\
                 forall k, k <> "productTag_flat" -> k <> "productTag_json" ->
                           Py.assoc k r = Py.assoc k item) rows).
Proof.
  intros L srv max_pages first total_page rows1 Hfirst Hmeta. cbv zeta.
  unfold AnhuiCrawl.crawl_all. rewrite Hfirst. cbn [Py.bind]. rewrite Hmeta.
  pose proof (later_pages_spec srv
                (AnhuiCrawl.py_range 2 (AnhuiCrawl.page_count total_page max_pages + 1))
                1%nat rows1) as [Hpre Hok].
  destruct (AnhuiCrawl.later_pages srv 1 _ rows1) as [asked r]. cbn [fst snd] in *.
  split; [apply prefix_cons, Hpre|].
  intros rows Hr. destruct (Hok rows Hr) as (-> & new & -> & Hnew).
  split; [reflexivity|]. split; [apply prefix_app_r; reflexivity|].
  assert (Htag : forall l, Forall (fun r => exists item, r = AnhuiCrawl.with_tag_columns item) l ->
            Forall (fun r => exists item,
                 r = AnhuiCrawl.with_tag_columns item /\
                 Py.assoc "productTag_flat" r
                   = Some (Py.JStr (Anhui._flatten_product_tags
                                      (default Py.JNull (Py.assoc "productTag" item)))) /\
                 Py.assoc "productTag_json" r
                   = Some (Py.JStr (Py.dumps (default (Py.JArr []) (Py.assoc "productTag" item)))) /\
                 forall k, k <> "productTag_flat" -> k <> "productTag_json" ->
                           Py.assoc k r = Py.assoc k item) l).
  { intros l Hl. eapply Forall_impl; [exact Hl|]. intros r0 [item ->]. exists item.
    split; [reflexivity|]. apply with_tag_columns_fields. }
  apply Forall_app_2; [|apply Htag, Hnew].
  apply Htag. unfold AnhuiCrawl.first_page in Hmeta.
  destruct (Py.get first "data") as [d|]; [|discriminate]. cbn [Py.bind] in Hmeta.
  destruct (Py.get (Py.or_else d (Py.JObj [])) "total") as [t|]; [|discriminate].
  cbn [Py.bind] in Hmeta.
  destruct (Py.py_int (Py.or_else t (Py.JInt 0))) as [total|]; [|discriminate].
  cbn [Py.bind] in Hmeta.
  destruct (Py.get (Py.or_else d (Py.JObj [])) "totalPage") as [tp|]; [|discriminate].
  cbn [Py.bind] in Hmeta.
  destruct (Py.py_int (Py.or_else tp (Py.JInt 0))) as [tpz|]; [|discriminate].
  cbn [Py.bind] in Hmeta.
  destruct (Py.get (Py.or_else d (Py.JObj [])) "size") as [sz|]; [|discriminate].
  cbn [Py.bind] in Hmeta.
  destruct (Py.py_int (Py.or_else sz (Py.JInt AnhuiCrawl.PAGE_SIZE))) as [size|]; [|discriminate].
  cbn [Py.bind] in Hmeta.
  destruct (Py.get (Py.or_else d (Py.JObj [])) "list") as [lst|]; [|discriminate].
  cbn [Py.bind] in Hmeta.
  destruct (AnhuiCrawl.consume_list lst []) as [rows0|] eqn:Econs; [|discriminate].
  cbn [Py.bind] in Hmeta. injection Hmeta as _ <-.
  destruct (consume_list_rows _ _ _ Econs) as (new0 & -> & Hnew0). exact Hnew0.
Qed.

Lemma X19_crawl_all_asks_the_announced_pages_witness :
  let pages := AnhuiCrawl.page_count 2 None in
  let run := @AnhuiCrawl.crawl_all Scenario.sample_lib Samples.anhui_source None in
  fst run `prefix_of` (1 :: AnhuiCrawl.py_range 2 (pages + 1)) /\
  (forall rows, snd run = Py.Ok rows ->
     fst run = 1 :: AnhuiCrawl.py_range 2 (pages + 1) /\
     snd (default (0, []) (match @AnhuiCrawl.first_page Scenario.sample_lib Samples.anhui_first with
                           | Py.Ok x => Some x | Py.Raise _ => None end))
       `prefix_of` rows /\
     Forall (fun r => exists item,
               r = @AnhuiCrawl.with_tag_columns Scenario.sample_lib item /\
               Py.assoc "productTag_flat" r
                 = Some (Py.JStr (@Anhui._flatten_product_tags Scenario.sample_lib
                                    (default Py.JNull (Py.assoc "productTag" item)))) /\
               Py.assoc "productTag_json" r
                 = Some (Py.JStr (@Py.dumps Scenario.sample_lib
                                    (default (Py.JArr []) (Py.assoc "productTag" item)))) /\
               forall k, k <> "productTag_flat" -> k <> "productTag_json" ->
                         Py.assoc k r = Py.assoc k item) rows).
Proof.
  apply (X19_crawl_all_asks_the_announced_pages Scenario.sample_lib Samples.anhui_source None
           Samples.anhui_first 2).
  - reflexivity.
  - vm_compute. reflexivity.
Defined.

(** ** 北京/cl.py: the pages of a crawl *)

Section BeijingBounds.
Context `{Py.Lib}.
Import Py Http Beijing.

Lemma crawl_loop_bound srv page_size max_pages fuel :
  forall n page_num all_rows,
    let run := crawl_loop fuel srv page_size max_pages n page_num all_rows in
    ((Z.to_nat (max_pages - page_num + 1) < fuel)%nat -> snd run <> OutOfFuel) /\
    (exists k : nat,
        fst (fst run) = List.map (fun i => (page_num + Z.of_nat i)%Z) (seq 0 k) /\
        (Z.of_nat k <= Z.max 0 (max_pages - page_num + 1))%Z) /\
    all_rows `prefix_of` snd (fst run).
Proof.
  induction fuel as [|fuel IH]; intros n page_num all_rows; cbv zeta.
  { cbn. split; [lia|]. split; [exists 0%nat; split; [reflexivity | lia] | reflexivity]. }
  cbn [crawl_loop].
  assert (Hstop : forall o rows, o <> OutOfFuel -> all_rows `prefix_of` rows ->
            (max_pages <? page_num)%Z = false ->
            ((Z.to_nat (max_pages - page_num + 1) < S fuel)%nat ->
             snd ([page_num], rows, o) <> OutOfFuel) /\
            (exists k : nat,
                fst (fst ([page_num], rows, o))
                = List.map (fun i => (page_num + Z.of_nat i)%Z) (seq 0 k) /\
                (Z.of_nat k <= Z.max 0 (max_pages - page_num + 1))%Z) /\
            all_rows `prefix_of` snd (fst ([page_num], rows, o))).
  { intros o rows Ho Hpre Hle. apply Z.ltb_ge in Hle. cbn [fst snd].
    split; [intros _; exact Ho|]. split; [|exact Hpre].
    exists 1%nat. cbn. split; [f_equal; lia | lia]. }
  destruct (max_pages <? page_num)%Z eqn:Hmax.
  { cbn [fst snd]. split; [discriminate|].
    split; [exists 0%nat; split; [reflexivity | lia] | reflexivity]. }
  destruct (fetch_page (srv n page_num page_size)) as [lst|e].
  2:{ apply Hstop; [discriminate | reflexivity | reflexivity]. }
  destruct (negb (truthy lst)).
  { apply Hstop; [discriminate | reflexivity | reflexivity]. }
  destruct (bind (page_items lst) _) as [[rs len]|e].
  2:{ apply Hstop; [discriminate | reflexivity | reflexivity]. }
  destruct (Z.of_nat len <? page_size)%Z.
  { apply Hstop; [discriminate | apply prefix_app_r; reflexivity | reflexivity]. }
  specialize (IH (S n) (page_num + 1)%Z (all_rows ++ rs)%list). cbv zeta in IH.
  destruct (crawl_loop fuel srv page_size max_pages (S n) (page_num + 1) (all_rows ++ rs))
    as [[ps rows] o]. cbn [fst snd] in *.
  destruct IH as (IH1 & (k & -> & Hk) & IH3). apply Z.ltb_ge in Hmax.
  split; [intros Hfuel; apply IH1; lia|]. split.
  - exists (S k). split; [|lia]. cbn [seq List.map]. f_equal; [f_equal; lia|].
    rewrite <- seq_shift, List.map_map. apply List.map_ext. intros i. lia.
  - etransitivity; [|exact IH3]. apply prefix_app_r. reflexivity.
Qed.
End BeijingBounds.

(** X20: [crawl_all] ends by itself, whatever the source answers:
    [max_pages + 1] turns of its loop are enough; it asks for the pages
    1, 2, ... one after the other, once each, and for no more than
    [max_pages] of them. *)
Theorem X20_beijing_crawl_is_bounded_by_max_pages :
  forall (L : Py.Lib) (srv : Http.server) (page_size max_pages : Z) (extra : nat),
    let run := Beijing.crawl_all (S (Z.to_nat max_pages) + extra) srv page_size max_pages in
    snd run <> Beijing.OutOfFuel /\
    exists k : nat,
      fst (fst run) = List.map Z.of_nat (seq 1 k) /\ (Z.of_nat k <= Z.max 0 max_pages)%Z.
Proof.
  intros L srv page_size max_pages extra. cbv zeta. unfold Beijing.crawl_all.
  destruct (crawl_loop_bound srv page_size max_pages (S (Z.to_nat max_pages) + extra)
              0%nat 1%Z []) as (H1 & (k & Hk & Hle) & _).
  cbv zeta in *. split; [apply H1; lia|].
  exists k. split; [|lia]. rewrite Hk, <- seq_shift, List.map_map.
  apply List.map_ext. intros i. lia.
Qed.

(** ** 合肥数据流通/cl.py: what a reply must look like, and when the crawl ends *)

(** X21: [ensure_json_response] returns a document exactly when the
    response has status 200, a content type that holds the text
    application/json in these very letters (lower case), a body that
    decodes, and a decoded body that is an object whose [success] is
    [True]; the document returned is that body. *)
Theorem X21_ensure_json_response_returns_iff :
  forall (L : Py.Lib) (resp : Http.response) (data : Py.json),
    HefeiFlow.ensure_json_response resp = Py.Ok data <->
    (Http.status_code resp = 200 /\
     Py.contains "application/json" (default EmptyString (Http.content_type resp)) = true /\
     Http.body resp = Some data /\
     exists kvs, data = Py.JObj kvs /\ Py.assoc "success" kvs = Some (Py.JBool true)).
Proof.
  intros L resp data. unfold HefeiFlow.ensure_json_response.
  destruct (Z.eqb_spec (Http.status_code resp) 200) as [Hs|Hs]; cbn [negb].
  2:{ split; [discriminate | intros [Hc _]; contradiction]. }
  destruct (Py.contains "application/json" _) eqn:Hct; cbn [negb].
  2:{ split; [discriminate | intros (_ & Hc & _); discriminate]. }
  destruct (Http.body resp) as [d|] eqn:Hb.
  2:{ split; [discriminate | intros (_ & _ & Hc & _); discriminate]. }
  destruct d as [| | | | | |kvs];
    try (split; [discriminate | intros (_ & _ & [= <-] & kvs & Hk & _); discriminate]).
  destruct (Py.assoc "success" kvs) as [[|[|]| | | | |]|] eqn:Hsucc;
    try (split; [discriminate
                | intros (_ & _ & [= <-] & kvs' & [= <-] & Hk); congruence]).
  split.
  - intros [= <-]. repeat split; try assumption. exists kvs. split; [reflexivity | exact Hsucc].
  - intros (_ & _ & [= <-] & _). reflexivity.
Qed.

Section FlowBounds.
Context `{Py.Lib}.
Import Py Http HefeiFlow.

Lemma first_int_keeps (keys : list string) (meta : json) (z : Z) :
  first_int keys meta (Some z) = Some z.
Proof. induction keys as [|key keys IH]; [reflexivity | exact IH]. Qed.

(** The loop asks for consecutive pages, once each; once a page count
    is known it goes no further than that page. *)
Lemma crawl_loop_pages srv start_page page_size max_pages fuel :
  forall n p total_pages total_items all_rows,
    let run := crawl_loop fuel srv start_page page_size max_pages n p
                 total_pages total_items all_rows in
    exists k : nat,
      fetched (fst (fst run)) = List.map (fun i => (p + Z.of_nat i)%Z) (seq 0 k) /\
      forall tp, total_pages = Some tp ->
        (Z.of_nat k <= Z.max 0 (tp - p + 1))%Z /\
        ((Z.to_nat (tp - p + 1) < fuel)%nat -> snd run <> OutOfFuel).
Proof.
  induction fuel as [|fuel IH]; intros n p total_pages total_items all_rows; cbv zeta.
  { exists 0%nat. split; [reflexivity|]. intros tp _. split; cbn; lia. }
  cbn [crawl_loop].
  assert (Hnone : forall (rows : list Csv.row) (o : outcome), o <> OutOfFuel ->
            exists k : nat,
              fetched (fst (fst (@nil event, rows, o)))
              = List.map (fun i => (p + Z.of_nat i)%Z) (seq 0 k) /\
              forall tp, total_pages = Some tp ->
                (Z.of_nat k <= Z.max 0 (tp - p + 1))%Z /\
                ((Z.to_nat (tp - p + 1) < S fuel)%nat -> snd (@nil event, rows, o) <> OutOfFuel)).
  { intros rows o Ho. exists 0%nat. split; [reflexivity|]. intros tp _.
    split; [cbn; lia | intros _; exact Ho]. }
  destruct (over_max_pages max_pages start_page p); [apply Hnone; discriminate|].
  destruct (past_total_pages total_pages p) eqn:Hpast; [apply Hnone; discriminate|].
  assert (Hone : forall (evs : list event) (rows : list Csv.row) (o : outcome),
            o <> OutOfFuel -> fetched evs = [p] ->
            exists k : nat,
              fetched (fst (fst (evs, rows, o)))
              = List.map (fun i => (p + Z.of_nat i)%Z) (seq 0 k) /\
              forall tp, total_pages = Some tp ->
                (Z.of_nat k <= Z.max 0 (tp - p + 1))%Z /\
                ((Z.to_nat (tp - p + 1) < S fuel)%nat -> snd (evs, rows, o) <> OutOfFuel)).
  { intros evs rows o Ho Hf. exists 1%nat. cbn [fst snd]. rewrite Hf.
    split; [cbn; f_equal; lia|]. intros tp ->. cbn [past_total_pages] in Hpast.
    apply Z.ltb_ge in Hpast. split; [lia | intros _; exact Ho]. }
  destruct (fetch_page (srv n p page_size)) as [[records meta]|e];
    [|apply Hone; [discriminate | reflexivity]].
  destruct records as [|r records]; [apply Hone; [discriminate | reflexivity]|].
  destruct (got_all _ _); [apply Hone; [discriminate | reflexivity]|].
  specialize (IH (S n) (p + 1)%Z
                (first_int ["pages"; "totalPages"; "pageCount"] meta total_pages)
                (first_int ["total"; "totalCount"; "count"] meta total_items)
                (all_rows ++ flat_rows (r :: records))%list).
  cbv zeta in IH.
  destruct (crawl_loop fuel srv start_page page_size max_pages (S n) (p + 1) _ _ _)
    as [[evs rows] o]. cbn [fst snd] in *.
  destruct IH as (k & Hk & Htp). exists (S k). split.
  - change (fetched (Fetch p :: Sleep :: evs)) with (p :: fetched evs). rewrite Hk.
    cbn [seq List.map]. f_equal; [lia|].
    rewrite <- seq_shift, List.map_map. apply List.map_ext. intros i. lia.
  - intros tp ->. cbn [past_total_pages] in Hpast. apply Z.ltb_ge in Hpast.
    destruct (Htp tp (first_int_keeps _ _ _)) as [Hle Hfuel].
    split; [lia | intros Hf; apply Hfuel; lia].
Qed.
End FlowBounds.

(** X22: [scrape_all] asks for consecutive pages from [start_page] on,
    each of them once.  When the first reply names the number of pages
    (an integer under [pages], [totalPages] or [pageCount]), the crawl
    ends by itself within that many turns of its loop, and asks for no
    page beyond that number. *)
Theorem X22_flow_crawl_stops_at_reported_page_count :
  forall (L : Py.Lib) (srv : Http.server) (start_page page_size : Z) (max_pages : option Z)
         (records : list Py.json) (meta : Py.json) (tp : Z) (extra : nat),
    HefeiFlow.fetch_page (srv 0%nat start_page page_size) = Py.Ok (records, meta) ->
    HefeiFlow.first_int ["pages"; "totalPages"; "pageCount"] meta None = Some tp ->
    let run := HefeiFlow.scrape_all (2 + Z.to_nat (tp - start_page) + extra) srv start_page
                 page_size max_pages in
    snd run <> None /\
    exists k : nat,
      HefeiFlow.fetched (fst run)
        = List.map (fun i => (start_page + Z.of_nat i)%Z) (seq 0 k) /\
      (Z.of_nat k <= Z.max 1 (tp - start_page + 1))%Z.
Proof.
  intros L srv start_page page_size max_pages records meta tp extra Hfetch Hpages. cbv zeta.
  unfold HefeiFlow.scrape_all.
  set (f := S (Z.to_nat (tp - start_page) + extra)).
  assert (Hf : (Z.to_nat (tp - (start_page + 1) + 1) < f)%nat) by (subst f; lia).
  change (2 + Z.to_nat (tp - start_page) + extra)%nat with (S f).
  clearbody f.
  cbn [HefeiFlow.crawl_loop]. cbn [HefeiFlow.past_total_pages].
  destruct (HefeiFlow.over_max_pages max_pages start_page start_page).
  { cbn [fst snd]. split; [discriminate|]. exists 0%nat. split; [reflexivity | lia]. }
  rewrite Hfetch, Hpages.
  destruct records as [|r records].
  { cbn [fst snd]. split; [discriminate|]. exists 1%nat.
    split; [cbn; f_equal; lia | lia]. }
  destruct (HefeiFlow.got_all _ _).
  { cbn [fst snd]. split; [destruct (_ ++ _)%list; discriminate|]. exists 1%nat.
    split; [cbn; f_equal; lia | lia]. }
  destruct (crawl_loop_pages srv start_page page_size max_pages
              f 1%nat (start_page + 1)%Z (Some tp)
              (HefeiFlow.first_int ["total"; "totalCount"; "count"] meta None)
              ([] ++ HefeiFlow.flat_rows (r :: records))%list) as (k & Hk & Htp).
  cbv zeta in *. destruct (Htp tp eq_refl) as [Hle Hfuel].
  destruct (HefeiFlow.crawl_loop _ srv start_page page_size max_pages 1 (start_page + 1) _ _ _)
    as [[evs rows] o]. cbn [fst snd] in *. split.
  - specialize (Hfuel Hf). destruct o; try discriminate; [|contradiction].
    destruct rows; discriminate.
  - exists (S k). split; [|lia].
    change (HefeiFlow.fetched (HefeiFlow.Fetch start_page :: HefeiFlow.Sleep :: evs))
      with (start_page :: HefeiFlow.fetched evs). rewrite Hk.
    cbn [seq List.map]. f_equal; [lia|].
    rewrite <- seq_shift, List.map_map. apply List.map_ext. intros i. lia.
Qed.

Lemma X22_flow_crawl_stops_at_reported_page_count_witness :
  let run := @HefeiFlow.scrape_all Scenario.sample_lib (2 + Z.to_nat (3 - 1) + 0)
               (Scenario.hefei_source [("pages", Py.JInt 3)] (fun i => [("id", Py.JInt (Z.of_nat i))]))
               1 10 None in
  snd run <> None /\
  exists k : nat,
    HefeiFlow.fetched (fst run) = List.map (fun i => (1 + Z.of_nat i)%Z) (seq 0 k) /\
    (Z.of_nat k <= Z.max 1 (3 - 1 + 1))%Z.
Proof.
  eapply (X22_flow_crawl_stops_at_reported_page_count Scenario.sample_lib
            (Scenario.hefei_source [("pages", Py.JInt 3)] (fun i => [("id", Py.JInt (Z.of_nat i))]))
            1 10 None _ _ 3 0%nat).
  - vm_compute. reflexivity.
  - reflexivity.
Defined.

(** ** 广东/cl.py: the order of the files *)

Section FileOrderFacts.
Import GuangdongFiles.

Local Abbreviation le_key := (fun a b : string => key_le (sort_key a) (sort_key b) = true).

Lemma key_le_total (a b : Z * Z) : key_le a b = false -> key_le b a = true.
Proof.
  unfold key_le. intros Hab. apply orb_false_iff in Hab as [H1 H2].
  apply Z.ltb_ge in H1. apply andb_false_iff in H2.
  apply orb_true_iff. destruct (Z.eq_dec (fst a) (fst b)) as [He|Hne].
  - right. destruct H2 as [H2|H2]; [apply Z.eqb_neq in H2; contradiction|].
    apply Z.leb_gt in H2. apply andb_true_iff.
    split; [apply Z.eqb_eq; congruence | apply Z.leb_le; lia].
  - left. apply Z.ltb_lt. lia.
Qed.

Lemma key_le_trans (a b c : Z * Z) :
  key_le a b = true -> key_le b c = true -> key_le a c = true.
Proof.
  unfold key_le. rewrite !orb_true_iff, !andb_true_iff, !Z.ltb_lt, !Z.eqb_eq, !Z.leb_le.
  intros [H1|[H1 H2]] [H3|[H3 H4]]; [left; lia | left; lia | left; lia | right; split; lia].
Qed.

Lemma insert_file_perm x l : insert_file x l ≡ₚ x :: l.
Proof.
  induction l as [|y l IH]; cbn [insert_file]; [reflexivity|].
  destruct (key_le _ _); [reflexivity|]. rewrite IH. apply Permutation_swap.
Qed.

Lemma insert_file_sorted x l :
  StronglySorted le_key l -> StronglySorted le_key (insert_file x l).
Proof.
  induction 1 as [|y l Hl IH Hy]; cbn [insert_file]; [repeat constructor|].
  destruct (key_le (sort_key x) (sort_key y)) eqn:E.
  - constructor; [constructor; assumption|]. constructor; [exact E|].
    eapply List.Forall_impl; [|exact Hy]. intros z Hz. cbv beta in *.
    exact (key_le_trans _ _ _ E Hz).
  - constructor; [exact IH|].
    apply List.Forall_forall. intros z Hz.
    apply (Permutation_in _ (insert_file_perm x l)) in Hz. destruct Hz as [<-|Hz].
    + apply key_le_total, E.
    + rewrite List.Forall_forall in Hy. apply Hy, Hz.
Qed.

(** Files with the same key stay in the order they had. *)
Lemma insert_file_stable key x l :
  List.filter (fun f => key_eqb (sort_key f) key) (insert_file x l)
  = List.filter (fun f => key_eqb (sort_key f) key) (x :: l).
Proof.
  induction l as [|y l IH]; cbn [insert_file]; [reflexivity|].
  destruct (key_le (sort_key x) (sort_key y)) eqn:E; [reflexivity|].
  cbn [List.filter] in *. rewrite IH.
  destruct (key_eqb (sort_key x) key) eqn:Ex; [|reflexivity].
  destruct (key_eqb (sort_key y) key) eqn:Ey; [|reflexivity].
  exfalso. unfold key_eqb, key_le in *.
  apply andb_true_iff in Ex as [Ex1 Ex2]. apply andb_true_iff in Ey as [Ey1 Ey2].
  apply Z.eqb_eq in Ex1, Ex2, Ey1, Ey2.
  apply orb_false_iff in E as [_ E]. apply andb_false_iff in E as [E|E].
  - apply Z.eqb_neq in E. congruence.
  - apply Z.leb_gt in E. lia.
Qed.

Lemma sort_files_spec (files : list string) :
  sort_files files ≡ₚ files /\
  StronglySorted le_key (sort_files files) /\
  forall key, List.filter (fun f => key_eqb (sort_key f) key) (sort_files files)
              = List.filter (fun f => key_eqb (sort_key f) key) files.
Proof.
  induction files as [|x files (IH1 & IH2 & IH3)]; [repeat split; constructor|].
  cbn [sort_files foldr]. change (foldr insert_file [] files) with (sort_files files).
  split; [|split].
  - rewrite insert_file_perm, IH1. reflexivity.
  - apply insert_file_sorted, IH2.
  - intros key. rewrite insert_file_stable. cbn [List.filter]. rewrite IH3. reflexivity.
Qed.
End FileOrderFacts.

(** X23: [list_target_files] returns the names that start with
    [pageQuerySjspList], each as often as the directory lists it, ordered
    by their key: names without a number in brackets first, then the
    others by that number, as a number (2 before 10); names with the same
    key keep the order in which the directory listed them. *)
Theorem X23_target_files_in_numeric_order :
  forall names : list string,
    let files := GuangdongFiles.list_target_files names in
    files ≡ₚ List.filter (String.prefix "pageQuerySjspList") names /\
    StronglySorted
      (fun a b => GuangdongFiles.key_le (GuangdongFiles.sort_key a)
                                        (GuangdongFiles.sort_key b) = true) files /\
    (forall key,
        List.filter (fun f => GuangdongFiles.key_eqb (GuangdongFiles.sort_key f) key) files
        = List.filter (fun f => GuangdongFiles.key_eqb (GuangdongFiles.sort_key f) key)
            (List.filter (String.prefix "pageQuerySjspList") names)) /\
    GuangdongFiles.list_target_files
      ["pageQuerySjspList[10].json"; "readme.txt"; "pageQuerySjspList[2].json";
       "pageQuerySjspList.json"]
    = ["pageQuerySjspList.json"; "pageQuerySjspList[2].json"; "pageQuerySjspList[10].json"].
Proof.
  intros names. cbv zeta. unfold GuangdongFiles.list_target_files.
  destruct (sort_files_spec (List.filter (String.prefix "pageQuerySjspList") names))
    as (H1 & H2 & H3).
  split; [exact H1|]. split; [exact H2|]. split; [exact H3|]. vm_compute. reflexivity.
Qed.

(** ** 广东/cl.py: the table written *)

Section TableFacts.
Context `{Py.Lib} `{GuangdongFiles.Clock}.
Import Py GuangdongFiles.

Lemma norm_keys (item : list (string * json)) (source_file : string) :
  List.map fst (norm item source_file) = fieldnames.
Proof. reflexivity. Qed.

(** Every cell of a line comes from the row: no field name misses its key. *)
Lemma writerow_norm (item : list (string * json)) (source_file : string) :
  writerow (norm item source_file) = List.map snd (norm item source_file).
Proof. reflexivity. Qed.

Local Abbreviation from_files :=
  (fun (names : list string) (r : list (string * json)) =>
     exists item src, r = norm item src /\ src ∈ names).

Lemma add_file_inv (done : list string) st fp :
  Forall (from_files done) (snd st) ->
  Dedup.inv Guangdong.dedup_key Guangdong.key_truthy ∅ st ->
  Forall (from_files (done ++ [fst fp])%list) (snd (add_file st fp)) /\
  Dedup.inv Guangdong.dedup_key Guangdong.key_truthy ∅ (add_file st fp).
Proof.
  intros Hrows Hinv.
  assert (Hold : Forall (from_files (done ++ [fst fp])%list) (snd st)).
  { eapply Forall_impl; [exact Hrows|]. intros r (item & src & -> & Hsrc).
    exists item, src. split; [reflexivity | apply elem_of_app; left; exact Hsrc]. }
  unfold add_file. destruct (file_rows (snd fp)) as [rows|]; [|split; assumption].
  unfold Guangdong.add_rows. split; [|apply run_inv, Hinv].
  destruct st as [seen out]. rewrite run_out_prefix. cbn [fst snd] in *.
  apply Forall_app_2; [exact Hold|].
  apply Forall_forall. intros r Hr.
  apply (sublist_subseteq _ _ (run_sublist _ _ _ seen)) in Hr.
  apply list_elem_of_omap in Hr as (it & _ & Hit).
  destruct it as [| | | | | |kvs]; try discriminate. injection Hit as <-.
  exists kvs, (fst fp). split; [reflexivity | apply elem_of_app; right; left].
Qed.

Lemma fold_add_file_inv files : forall done st,
  Forall (from_files done) (snd st) ->
  Dedup.inv Guangdong.dedup_key Guangdong.key_truthy ∅ st ->
  Forall (from_files (done ++ List.map fst files)%list) (snd (fold_left add_file files st)) /\
  Dedup.inv Guangdong.dedup_key Guangdong.key_truthy ∅ (fold_left add_file files st).
Proof.
  induction files as [|fp files IH]; intros done st Hrows Hinv.
  - cbn [fold_left List.map]. rewrite app_nil_r. split; assumption.
  - cbn [fold_left List.map]. destruct (add_file_inv done st fp Hrows Hinv) as [H1 H2].
    destruct (IH (done ++ [fst fp])%list (add_file st fp) H1 H2) as [H3 H4].
    rewrite <- app_assoc in H3. split; assumption.
Qed.
End TableFacts.

(** X24: what [main] writes.  With no file it exits; with files that
    yield no row it exits as well; else it writes the header and one line
    per row kept.  Every row kept is [norm] of an item of one of the files,
    with that file's name as its source; its keys are the twenty field
    names of the header, in order, so that every cell of its line is a
    value of the row and none is left to the blank default; the rows kept
    carry pairwise distinct, non-blank identities. *)
Theorem X24_table_lines_are_the_normalised_rows :
  forall (L : Py.Lib) (C : GuangdongFiles.Clock) (files : list (string * Fs.file)),
    let rows_out := snd (fold_left GuangdongFiles.add_file files (∅, [])) in
    (GuangdongFiles.main files = GuangdongFiles.NoFiles <-> files = []) /\
    (GuangdongFiles.main files = GuangdongFiles.NoRows <-> files <> [] /\ rows_out = []) /\
    (forall lines, GuangdongFiles.main files = GuangdongFiles.Saved lines ->
       lines = List.map Py.JStr GuangdongFiles.fieldnames :: List.map (List.map snd) rows_out) /\
    Forall (fun r => exists item src,
              r = GuangdongFiles.norm item src /\ src ∈ List.map fst files /\
              List.map fst r = GuangdongFiles.fieldnames) rows_out /\
    NoDup (List.map Guangdong.dedup_key rows_out) /\
    Forall (fun r => Guangdong.dedup_key r <> EmptyString) rows_out.
Proof.
  intros L C files. cbv zeta.
  destruct (fold_add_file_inv files [] (∅, []) (Forall_nil_2 _)
              (dedup_inv_init Guangdong.dedup_key Guangdong.key_truthy ∅))
    as [Hrows (_ & Hnd & Hall)].
  cbn [app] in Hrows.
  set (rows_out := snd (fold_left GuangdongFiles.add_file files (∅, []))) in *.
  assert (Hlines : List.map GuangdongFiles.writerow rows_out = List.map (List.map snd) rows_out).
  { apply Forall_fmap_ext_1. eapply Forall_impl; [exact Hrows|].
    intros r (item & src & -> & _). apply writerow_norm. }
  unfold GuangdongFiles.main. fold rows_out. clearbody rows_out.
  split; [|split; [|split; [|split; [|split]]]].
  - destruct files as [|fp files]; [split; reflexivity|].
    split; [|discriminate]. destruct rows_out; discriminate.
  - destruct files as [|fp files]; [split; [discriminate | intros [Hc _]; contradiction]|].
    destruct rows_out as [|r rows]; split.
    + intros _. split; [discriminate | reflexivity].
    + intros _. reflexivity.
    + discriminate.
    + intros [_ Hc]. discriminate Hc.
  - intros lines. destruct files as [|fp files]; [discriminate|].
    destruct rows_out as [|r rows] eqn:E; [discriminate|].
    intros Hs. rewrite <- Hlines. congruence.
  - eapply Forall_impl; [exact Hrows|]. intros r (item & src & -> & Hsrc).
    exists item, src. split; [reflexivity|]. split; [exact Hsrc | apply norm_keys].
  - exact Hnd.
  - eapply Forall_impl; [exact Hall|]. intros r (_ & _ & Ht) Hblank.
    unfold Guangdong.key_truthy in Ht. rewrite Hblank in Ht. discriminate Ht.
Qed.

(** ** 湖北/cl.py: deduplication across a restart *)


(** ** 上海/cl.py: the pages asked for and the table written *)

Section ShanghaiCrawlFacts.
Context `{Py.Lib}.
Import Py Http ShanghaiCrawl.

Local Abbreviation normalised :=
  (fun r : list (string * json) => exists item, r = Shanghai.normalize_item item).

Lemma extract_list_rows page_json rows :
  extract_list page_json = Ok rows -> Forall normalised rows.
Proof.
  unfold extract_list.
  destruct (get_default page_json "data" _) as [d|]; [|discriminate]. cbn [bind].
  destruct (get_default d "list" _) as [lst|]; [|discriminate]. cbn [bind].
  destruct lst as [| | | | |xs|]; intros [= <-]; try constructor.
  apply Forall_forall. intros r Hr.
  apply list_elem_of_omap in Hr as (x & _ & Hx).
  destruct x as [| | | | | |kvs]; try discriminate. injection Hx as <-.
  exists kvs. reflexivity.
Qed.

Lemma shanghai_later_pages_spec srv page_size : forall page_nos n all_rows,
  fst (later_pages srv page_size n page_nos all_rows) `prefix_of` page_nos /\
  forall rows', snd (later_pages srv page_size n page_nos all_rows) = Ok rows' ->
    fst (later_pages srv page_size n page_nos all_rows) = page_nos /\
    exists new, rows' = (all_rows ++ new)%list /\ Forall normalised new.
Proof.
  induction page_nos as [|p rest IH]; intros n all_rows; cbn [later_pages].
  - cbn [fst snd]. split; [reflexivity|]. intros rows' [= <-]. split; [reflexivity|].
    exists []. split; [rewrite app_nil_r; reflexivity | constructor].
  - destruct (bind (fetch_page (srv n p page_size)) extract_list) as [rows|e] eqn:Epage.
    2:{ cbn [fst snd]. split; [|discriminate]. exists rest. reflexivity. }
    assert (Forall normalised rows) as Hrows.
    { destruct (fetch_page (srv n p page_size)) as [j|]; [|discriminate].
      exact (extract_list_rows _ _ Epage). }
    specialize (IH (S n) (all_rows ++ rows)%list).
    destruct (later_pages srv page_size (S n) rest (all_rows ++ rows)) as [asked r].
    cbn [fst snd] in *. destruct IH as [Hpre Hok]. split.
    + apply prefix_cons, Hpre.
    + intros rows' Hr. destruct (Hok rows' Hr) as (-> & new & -> & Hnew).
      split; [reflexivity|]. exists (rows ++ new)%list.
      split; [rewrite app_assoc; reflexivity | apply Forall_app_2; assumption].
Qed.

Lemma assoc_key (k : string) (v : json) (r : list (string * json)) :
  assoc k r = Some v -> k ∈ List.map fst r.
Proof.
  induction r as [|[k' v'] r IH]; cbn [assoc List.map fst]; [discriminate|].
  destruct (String.eqb_spec k k') as [->|Hne]; [intros _; left|].
  intros Hr. right. exact (IH Hr).
Qed.

Lemma elem_of_header (rows : list (list (string * json))) (k : string) :
  k ∈ header rows <-> exists r, r ∈ rows /\ k ∈ List.map fst r.
Proof.
  unfold header. rewrite elem_of_sorted, elem_of_union_list. split.
  - intros (X & HX & Hk). apply list_elem_of_fmap in HX as (r & -> & Hr).
    exists r. split; [exact Hr|]. apply elem_of_list_to_set in Hk. exact Hk.
  - intros (r & Hr & Hk). exists (list_to_set (List.map fst r)). split.
    + apply list_elem_of_fmap. exists r. split; [reflexivity | exact Hr].
    + apply elem_of_list_to_set. exact Hk.
Qed.

Lemma first_page_rows first total_page rows :
  first_page first = inr (total_page, rows) -> Forall normalised rows.
Proof.
  unfold first_page. destruct first as [| | | | | |kvs]; try discriminate.
  destruct (assoc "data" kvs) as [meta|]; [|discriminate].
  destruct (get_default meta "totalPage" _) as [tp|]; [|discriminate]. cbn [bind].
  destruct (py_int tp) as [tpz|]; [|discriminate]. cbn [bind].
  destruct (get_default meta "total" _) as [t|]; [|discriminate]. cbn [bind].
  destruct (py_int t) as [tz|]; [|discriminate]. cbn [bind].
  destruct (extract_list (JObj kvs)) as [rows0|] eqn:E; [|discriminate]. cbn [bind].
  intros [= _ <-]. exact (extract_list_rows _ _ E).
Qed.
End ShanghaiCrawlFacts.

(** X26: [crawl_all_to_csv] asks for page 1, reads [totalPage] off its
    reply and then asks for the pages 2 to [totalPage], one request each,
    in order; it stops at the first request that fails and writes a table
    only if none did and a row was found.  The header of the table is in
    order, names no column twice, and names [aiTag], [sectorName] and
    [zoneName], which every row has; there is a line for a row at least,
    and every line has one cell for each name of the header. *)
Theorem X26_crawl_all_to_csv_pages_and_header :
  forall (L : Py.Lib) (srv : Http.server) (page_size : Z) (first : Py.json)
         (total_page : Z) (rows1 : list (list (string * Py.json))),
    ShanghaiCrawl.fetch_page (srv 0%nat 1 page_size) = Py.Ok first ->
    ShanghaiCrawl.first_page first = inr (total_page, rows1) ->
    let run := ShanghaiCrawl.crawl_all_to_csv srv page_size in
    fst run `prefix_of` (1 :: AnhuiCrawl.py_range 2 (total_page + 1)) /\
    (forall fieldnames lines,
        snd run = ShanghaiCrawl.Written fieldnames lines ->
        fst run = 1 :: AnhuiCrawl.py_range 2 (total_page + 1) /\
        Sorted Csv.str_le fieldnames /\
        NoDup fieldnames /\
        (forall k, k ∈ ["aiTag"; "sectorName"; "zoneName"] -> k ∈ fieldnames) /\
        lines <> [] /\
        Forall (fun line => List.length line = List.length fieldnames) lines).
Proof.
  intros L srv page_size first total_page rows1 Hfirst Hmeta. cbv zeta.
  unfold ShanghaiCrawl.crawl_all_to_csv. rewrite Hfirst, Hmeta.
  pose proof (shanghai_later_pages_spec srv page_size
                (AnhuiCrawl.py_range 2 (total_page + 1)) 1%nat rows1) as [Hpre Hok].
  destruct (ShanghaiCrawl.later_pages srv page_size 1 _ rows1) as [asked r].
  cbn [fst snd] in *. split; [apply prefix_cons, Hpre|].
  intros fieldnames lines Hrun.
  destruct r as [all_rows|e]; [|discriminate].
  destruct (Hok all_rows eq_refl) as (-> & new & -> & Hnew).
  pose proof (first_page_rows _ _ _ Hmeta) as Hrows1.
  assert (Hall : Forall (fun r => exists item, r = Shanghai.normalize_item item)
                        (rows1 ++ new)) by (apply Forall_app_2; assumption).
  destruct (rows1 ++ new)%list as [|r0 rows] eqn:E; [discriminate|].
  injection Hrun as <- <-.
  split; [reflexivity|]. split; [apply Sorted_sorted|]. split; [apply NoDup_sorted|].
  split; [|split].
  - intros k Hk. apply elem_of_header. exists r0. split; [left|].
    apply Forall_cons in Hall as [[item ->] _].
    destruct (normalize_item_columns item) as ([s1 H1] & [s2 H2] & [s3 H3]).
    repeat (apply elem_of_cons in Hk as [->|Hk]); [| | |inversion Hk];
      eapply assoc_key; eassumption.
  - discriminate.
  - apply Forall_forall. intros line Hline.
    change (line ∈ List.map (ShanghaiCrawl.writerow (ShanghaiCrawl.header (r0 :: rows)))
                            (r0 :: rows)) in Hline.
    apply list_elem_of_fmap in Hline as (r & -> & _). apply length_map.
Qed.

Lemma X26_crawl_all_to_csv_pages_and_header_witness :
  let run := @ShanghaiCrawl.crawl_all_to_csv Scenario.sample_lib Samples.shanghai_source 10 in
  fst run `prefix_of` (1 :: AnhuiCrawl.py_range 2 (2 + 1)) /\
  (forall fieldnames lines,
      snd run = ShanghaiCrawl.Written fieldnames lines ->
      fst run = 1 :: AnhuiCrawl.py_range 2 (2 + 1) /\
      Sorted Csv.str_le fieldnames /\
      NoDup fieldnames /\
      (forall k, k ∈ ["aiTag"; "sectorName"; "zoneName"] -> k ∈ fieldnames) /\
      lines <> [] /\
      Forall (fun line => List.length line = List.length fieldnames) lines).
Proof.
  eapply (X26_crawl_all_to_csv_pages_and_header Scenario.sample_lib Samples.shanghai_source 10
            Samples.shanghai_first 2).
  - reflexivity.
  - vm_compute. reflexivity.
Defined.

(** ** 数据清洗/tag.py: the classifier with its pauses *)

Section BackoffFacts.
Context `{Py.Lib}.
Import Py Tag TagMain.

Lemma backoff_small (a : nat) : (a <= 1024)%nat -> TagBackoff.backoff a = Ok tt.
Proof.
  intros Ha.
  assert (Hall : forallb (fun a => match TagBackoff.backoff a with
                                   | Ok _ => true
                                   | Raise _ => false
                                   end) (seq 0 1025) = true)
    by (vm_compute; reflexivity).
  rewrite forallb_forall in Hall. specialize (Hall a).
  destruct (TagBackoff.backoff a) as [[]|e]; [reflexivity|].
  discriminate Hall. apply in_seq. lia.
Qed.


(** What an attempt on a usable reply returns, field by field. *)
Lemma attempt_usable (resp : reply) (kvs : list (string * json)) :
  strip (default EmptyString (content resp)) <> EmptyString ->
  decoded resp = Some (JObj kvs) -> kvs <> [] ->
  attempt (Ok resp)
  = Ok {| mapped_category :=
            normalize_category
              (py_str (default (JStr EmptyString) (assoc "mapped_category" kvs)));
          confidence := read_confidence (JObj kvs);
          Tag.reason :=
            take_chars 60 (py_str (default (JStr EmptyString) (assoc "reason" kvs)));
          raw_json := strip (default EmptyString (content resp));
          error := EmptyString |}.
Proof.
  intros Hcontent Hdec Hkvs. unfold attempt. cbn [bind].
  destruct (String.eqb_spec (strip (default EmptyString (content resp))) EmptyString)
    as [He|_]; [contradiction|].
  rewrite Hdec. cbn [safe_get_json].
  destruct kvs as [|kv kvs]; [contradiction|]. reflexivity.
Qed.

(** An attempt returns only what it read from a usable reply. *)
Lemma attempt_reads (r : result reply) (c : classification) :
  attempt r = Ok c ->
  exists resp kvs,
    r = Ok resp /\ strip (default EmptyString (content resp)) <> EmptyString /\
    decoded resp = Some (JObj kvs) /\ kvs <> [] /\
    mapped_category c
    = normalize_category
        (py_str (default (JStr EmptyString) (assoc "mapped_category" kvs))) /\
    confidence c = read_confidence (JObj kvs).
Proof.
  destruct r as [resp|e]; [|discriminate]. intros Ha. exists resp.
  assert (Hcontent : strip (default EmptyString (content resp)) <> EmptyString).
  { intros He. unfold attempt in Ha. cbn [bind] in Ha. rewrite He in Ha. discriminate Ha. }
  destruct (decoded resp) as [[| | | | | |kvs]|] eqn:Hdec;
    try (unfold attempt in Ha; cbn [bind] in Ha; rewrite Hdec in Ha;
         cbn [safe_get_json] in Ha; destruct (String.eqb _ _); discriminate Ha).
  exists kvs.
  assert (Hkvs : kvs <> []).
  { intros ->. unfold attempt in Ha. cbn [bind] in Ha. rewrite Hdec in Ha.
    cbn [safe_get_json truthy] in Ha. destruct (String.eqb _ _); discriminate Ha. }
  rewrite (attempt_usable resp kvs Hcontent Hdec Hkvs) in Ha.
  injection Ha as <-. cbn [mapped_category confidence]. repeat split; assumption.
Qed.

Lemma backoff_loop_cases (api : service) (max_retries : nat) :
  forall left no last_err c,
    TagBackoff.retry_loop api max_retries left no last_err = Ok c ->
    (exists e, c = fallback e) \/
    (exists n, (no <= n < no + left)%nat /\ attempt (api n) = Ok c).
Proof.
  induction left as [|left IH]; intros no last_err c; cbn [TagBackoff.retry_loop].
  - intros [= <-]. left. eexists. reflexivity.
  - destruct (attempt (api no)) as [c0|e] eqn:Ea.
    + intros [= <-]. right. exists no. split; [lia | exact Ea].
    + destruct (_ && _).
      * destruct (TagBackoff.backoff no) as [u|e']; cbn [bind]; [|discriminate].
        intros Hrec. destruct (IH _ _ _ Hrec) as [He|(n & Hn & Hc)]; [left; exact He|].
        right. exists n. split; [lia | exact Hc].
      * intros [= <-]. left. eexists. reflexivity.
Qed.

(** Up to 1025 attempts no pause raises, and the loop returns what the
    loop without pauses returns. *)
Lemma backoff_loop_agrees (api : service) (max_retries : nat) :
  (max_retries <= 1025)%nat ->
  forall left no last_err,
    TagBackoff.retry_loop api max_retries left no last_err
    = Ok (retry_loop api max_retries left no last_err).
Proof.
  intros Hmax. induction left as [|left IH]; intros no last_err;
    cbn [TagBackoff.retry_loop retry_loop]; [reflexivity|].
  destruct (attempt (api no)) as [c|e]; [reflexivity|].
  destruct (Nat.ltb_spec no max_retries) as [Hlt|Hge]; cbn [andb]; [|reflexivity].
  destruct (is_retryable_error e); [|reflexivity].
  rewrite (backoff_small no) by lia. cbn [bind]. apply IH.
Qed.

Lemma backoff_loop_decided (api : service) (max_retries k : nat) :
  (1 <= k <= max_retries)%nat -> (k <= 1025)%nat ->
  (k = max_retries \/ ~ retried (api k)) ->
  forall d no last_err,
    (no + d = k)%nat ->
    (forall j, (no <= j < k)%nat -> retried (api j)) ->
    TagBackoff.retry_loop api max_retries (max_retries + 1 - no) no last_err
    = Ok match attempt (api k) with
         | Ok c => c
         | Raise e => fallback (Some e)
         end.
Proof.
  intros Hk Hsmall Hlast. induction d as [|d IH]; intros no last_err Hno Hbefore.
  - assert (no = k) as -> by lia.
    replace (max_retries + 1 - k)%nat with (S (max_retries - k)) by lia.
    cbn [TagBackoff.retry_loop].
    destruct (attempt (api k)) as [c|e] eqn:Ea; [reflexivity|].
    assert ((k <? max_retries)%nat && is_retryable_error e = false) as ->; [|reflexivity].
    destruct Hlast as [->|Hnot]; [rewrite Nat.ltb_irrefl; reflexivity|].
    apply attempt_raise in Ea as [Hr|[_ Hr]]; [|contradiction].
    rewrite Hr in Hnot. cbn [retried] in Hnot.
    destruct (is_retryable_error e); [contradiction|]. apply andb_false_r.
  - replace (max_retries + 1 - no)%nat with (S (max_retries + 1 - S no)) by lia.
    cbn [TagBackoff.retry_loop].
    destruct (retried_attempt (api no) (Hbefore no ltac:(lia))) as (e & -> & ->).
    assert ((no <? max_retries)%nat = true) as -> by (apply Nat.ltb_lt; lia).
    cbn [andb]. rewrite (backoff_small no) by lia. cbn [bind].
    apply IH; [lia|]. intros j Hj. apply Hbefore. lia.
Qed.

End BackoffFacts.



(** ** 湖北/cl.py: which line of a key the last pass keeps *)

Section FirstLineFacts.
Context {A K : Type} `{Countable K}.
Variable key_of : A -> K.
Variable key_truthy : K -> bool.

Local Abbreviation run := (Dedup.run key_of key_truthy).

Lemma filter_forall_id (P : A -> Prop) `{!forall x, Decision (P x)} (l : list A) :
  Forall P l -> filter P l = l.
Proof.
  induction 1 as [|x l Hx _ IH]; [reflexivity|].
  rewrite filter_cons_True by exact Hx. rewrite IH. reflexivity.
Qed.

Lemma run_cons x xs seen :
  snd (run (x :: xs) (seen, []))
  = if Dedup.should_emit key_truthy (key_of x) seen
    then x :: snd (run xs ({[ key_of x ]} ∪ seen, []))
    else snd (run xs (seen, [])).
Proof.
  cbn [Dedup.run fold_left]. unfold Dedup.step at 2. cbn [fst snd].
  change (fold_left (Dedup.step key_of key_truthy) xs ?st) with (run xs st).
  destruct (Dedup.should_emit key_truthy (key_of x) seen); [|reflexivity].
  rewrite run_out_prefix. reflexivity.
Qed.

(** A key put into the seen-set beforehand takes the rows of that key out
    of what a run lets through, and nothing else. *)
Lemma run_drop_key xs : forall seen k,
  snd (run xs ({[ k ]} ∪ seen, []))
  = filter (fun y => key_of y <> k) (snd (run xs (seen, []))).
Proof.
  induction xs as [|x xs IH]; intros seen k; [reflexivity|].
  rewrite !run_cons.
  destruct (decide (key_of x = k)) as [<-|Hk].
  - rewrite (should_emit_seen key_truthy (key_of x) ({[ key_of x ]} ∪ seen))
      by (apply elem_of_union_l, elem_of_singleton; reflexivity).
    destruct (Dedup.should_emit key_truthy (key_of x) seen); [|apply IH].
    rewrite filter_cons_False by (intros Hne; apply Hne; reflexivity).
    symmetry. apply filter_forall_id.
    pose proof (run_inv key_of key_truthy ({[ key_of x ]} ∪ seen) xs
                  ({[ key_of x ]} ∪ seen, [])
                  (dedup_inv_init key_of key_truthy _)) as (_ & _ & Hall).
    eapply Forall_impl; [exact Hall|]. cbn beta. intros y (_ & Hfresh & _) Heq.
    apply Hfresh. rewrite Heq. apply elem_of_union_l, elem_of_singleton. reflexivity.
  - destruct (Dedup.should_emit key_truthy (key_of x) seen) eqn:E.
    + apply should_emit_true in E as [Ht Hfresh].
      rewrite (proj2 (should_emit_true key_truthy (key_of x) ({[ k ]} ∪ seen)));
        [|split; [exact Ht|]; intros Hin; apply elem_of_union in Hin as [Hin|Hin];
          [apply elem_of_singleton in Hin; contradiction | contradiction]].
      rewrite filter_cons_True by exact Hk. f_equal.
      rewrite <- IH.
      assert (Hset : ({[ key_of x ]} ∪ ({[ k ]} ∪ seen) : gset K)
                     = {[ k ]} ∪ ({[ key_of x ]} ∪ seen))
        by (apply set_eq; intros k'; rewrite !elem_of_union; tauto).
      rewrite Hset. reflexivity.
    + destruct (Dedup.should_emit key_truthy (key_of x) ({[ k ]} ∪ seen)) eqn:E'; [|apply IH].
      apply should_emit_true in E' as [Ht Hfresh].
      rewrite (proj2 (should_emit_true key_truthy (key_of x) seen)) in E; [discriminate|].
      split; [exact Ht|]. intros Hin. apply Hfresh, elem_of_union_r, Hin.
Qed.

(** A row whose key no earlier row carries is let through, right after
    what the earlier rows let through. *)
Lemma run_first_kept pre x post :
  key_truthy (key_of x) = true ->
  key_of x ∉ List.map key_of pre ->
  exists tail,
    snd (run (pre ++ x :: post) (∅, [])) = (snd (run pre (∅, [])) ++ x :: tail)%list.
Proof.
  intros Ht Hfresh. rewrite run_app.
  destruct (run pre (∅, [])) as [seen out] eqn:Epre.
  rewrite run_out_prefix. cbn [snd]. rewrite run_cons.
  assert (Hnew : key_of x ∉ seen).
  { intros Hin. apply Hfresh.
    pose proof (proj1 (run_seen_exact key_of key_truthy pre ∅ (key_of x))) as Hex.
    rewrite Epre in Hex. cbn [fst snd] in Hex.
    destruct (Hex Hin) as [Hempty|Hout]; [apply not_elem_of_empty in Hempty; contradiction|].
    apply list_elem_of_fmap in Hout as (y & Hy & Hyin).
    apply list_elem_of_fmap. exists y. split; [exact Hy|].
    pose proof (run_sublist key_of key_truthy pre ∅) as Hsub.
    rewrite Epre in Hsub. cbn [snd] in Hsub.
    apply (sublist_subseteq _ _ Hsub), Hyin. }
  rewrite (proj2 (should_emit_true key_truthy (key_of x) seen) (conj Ht Hnew)).
  eexists. reflexivity.
Qed.
End FirstLineFacts.

(** X14: the last pass of [main] over the lines of the JSONL file keeps
    the first line of every key and drops the others.  It keeps the first
    line, and of the lines after it those that the pass over them keeps and
    that do not carry the first line's key.  A line whose key no earlier
    line carries is kept, right after what is kept of the earlier lines.
    So what is kept is a sublist of the lines with pairwise distinct keys,
    every key of a line is the key of a line kept, and a second pass over
    the result changes nothing.  Of a card met again later with a price,
    the first, without the price, is the one kept. *)
Theorem X14_last_pass_keeps_first_line_of_each_key :
  forall all_rows : list Hubei.item,
    NoDup (List.map Hubei.key_of (HubeiMain.final_dedup all_rows)) /\
    HubeiMain.final_dedup all_rows `sublist_of` all_rows /\
    (forall x, x ∈ all_rows ->
               Hubei.key_of x ∈ List.map Hubei.key_of (HubeiMain.final_dedup all_rows)) /\
    HubeiMain.final_dedup (HubeiMain.final_dedup all_rows) = HubeiMain.final_dedup all_rows /\
    HubeiMain.final_dedup [] = [] /\
    (forall x,
       HubeiMain.final_dedup (x :: all_rows)
       = x :: filter (fun y => Hubei.key_of y <> Hubei.key_of x)
                     (HubeiMain.final_dedup all_rows)) /\
    (forall pre x post,
       all_rows = (pre ++ x :: post)%list ->
       Hubei.key_of x ∉ List.map Hubei.key_of pre ->
       exists tail,
         HubeiMain.final_dedup all_rows = (HubeiMain.final_dedup pre ++ x :: tail)%list) /\
    HubeiMain.final_dedup
      [Samples.card_linked; Samples.card_unlinked; Samples.card_repriced]
    = [Samples.card_linked; Samples.card_unlinked].
Proof.
  intros all_rows. unfold HubeiMain.final_dedup.
  pose proof (run_inv Hubei.key_of (fun _ => true) ∅ all_rows (∅, [])
                (dedup_inv_init Hubei.key_of (fun _ => true) ∅)) as (_ & Hnd & Hall).
  split; [exact Hnd|]. split; [apply run_sublist|].
  split; [|split; [|split; [|split; [|split]]]].
  - intros x Hx.
    pose proof (run_covers Hubei.key_of (fun _ => true) all_rows ∅ x Hx eq_refl) as Hin.
    apply run_seen_exact in Hin as [Hin|Hin]; [|exact Hin].
    apply not_elem_of_empty in Hin. contradiction.
  - rewrite run_distinct_keys; [reflexivity | exact Hnd|].
    intros x _. split; [apply not_elem_of_empty | reflexivity].
  - reflexivity.
  - intros x. rewrite run_cons.
    rewrite (proj2 (should_emit_true (fun _ => true) (Hubei.key_of x) ∅));
      [|split; [reflexivity | apply not_elem_of_empty]].
    f_equal. apply run_drop_key.
  - intros pre x post -> Hfresh.
    apply (run_first_kept Hubei.key_of (fun _ => true) pre x post eq_refl Hfresh).
  - vm_compute. reflexivity.
Qed.

(** ** 湖北/cl.py: what a checkpoint holds of the crawl that saved it *)

Lemma saves_hold_weaken (evs : list Hubei.event) :
  forall keys keys' : gset Hubei.key,
    keys' ⊆ keys -> HubeiMain.saves_hold keys evs -> HubeiMain.saves_hold keys' evs.
Proof.
  induction evs as [|[p x|p s] evs IH]; intros keys keys' Hsub; cbn [HubeiMain.saves_hold].
  - intros _. exact I.
  - apply IH. intros k Hk. apply elem_of_union in Hk as [Hk|Hk].
    + apply elem_of_union_l, Hk.
    + apply elem_of_union_r, Hsub, Hk.
  - intros [Hs Hrest]. split; [etransitivity; [exact Hsub | exact Hs]|].
    apply (IH keys keys' Hsub Hrest).
Qed.

Lemma saves_hold_appends (page_index : Z) (new : list Hubei.item) (rest : list Hubei.event) :
  forall keys : gset Hubei.key,
    HubeiMain.saves_hold (list_to_set (List.map Hubei.key_of new) ∪ keys) rest ->
    HubeiMain.saves_hold keys (List.map (Hubei.AppendJsonl page_index) new ++ rest).
Proof.
  induction new as [|x new IH]; intros keys Hrest.
  - cbn [List.map app]. eapply saves_hold_weaken; [|exact Hrest].
    apply union_subseteq_r.
  - cbn [List.map app HubeiMain.saves_hold]. apply IH.
    eapply saves_hold_weaken; [|exact Hrest].
    cbn [List.map list_to_set]. intros k Hk. rewrite !elem_of_union in *. tauto.
Qed.

(** Every checkpoint a crawl saves holds the seen-set the crawl started
    with and the key of every item the crawl appended before. *)
Lemma crawl_saves_hold (later : list (list Hubei.item)) :
  forall cur page_index seen,
    HubeiMain.saves_hold seen (fst (Hubei.crawl later cur page_index seen)).
Proof.
  induction later as [|next later IH]; intros cur page_index seen; cbn [Hubei.crawl];
    unfold Hubei.add_items;
    pose proof (run_inv Hubei.key_of Hubei.key_truthy seen cur (seen, [])
                  (dedup_inv_init Hubei.key_of Hubei.key_truthy seen)) as (Hsub & _ & Hall);
    destruct (Dedup.run Hubei.key_of Hubei.key_truthy cur (seen, [])) as [seen' new];
    cbn [fst snd] in *.
  - apply saves_hold_appends. cbn [HubeiMain.saves_hold]. split; [|exact I].
    intros k Hk. apply elem_of_union in Hk as [Hk|Hk]; [|apply Hsub, Hk].
    apply elem_of_list_to_set, list_elem_of_fmap in Hk as (x & -> & Hx).
    rewrite Forall_forall in Hall. apply (Hall x Hx).
  - specialize (IH next (page_index + 1)%Z seen').
    destruct (Hubei.crawl later next (page_index + 1)%Z seen') as [evs s].
    cbn [fst] in *. rewrite <- app_assoc. apply saves_hold_appends.
    cbn [app HubeiMain.saves_hold].
    assert (Hin : list_to_set (List.map Hubei.key_of new) ∪ seen ⊆ seen').
    { intros k Hk. apply elem_of_union in Hk as [Hk|Hk]; [|apply Hsub, Hk].
      apply elem_of_list_to_set, list_elem_of_fmap in Hk as (x & -> & Hx).
      rewrite Forall_forall in Hall. apply (Hall x Hx). }
    split; [exact Hin|]. apply (saves_hold_weaken evs seen' _ Hin IH).
Qed.

Lemma saves_hold_split (before : list Hubei.event) (n : Z) (s : gset Hubei.key)
    (after : list Hubei.event) :
  forall keys : gset Hubei.key,
    HubeiMain.saves_hold keys (before ++ Hubei.SaveCheckpoint n s :: after) ->
    keys ⊆ s /\ forall x, x ∈ Hubei.appended before -> Hubei.key_of x ∈ s.
Proof.
  induction before as [|[p y|p s'] before IH]; intros keys; cbn [app HubeiMain.saves_hold].
  - intros [Hs _]. split; [exact Hs|]. intros x Hx. inversion Hx.
  - intros Hrest. destruct (IH _ Hrest) as [Hs Hkeys]. split.
    + intros k Hk. apply Hs, elem_of_union_r, Hk.
    + intros x Hx. change (x ∈ y :: Hubei.appended before) in Hx.
      apply elem_of_cons in Hx as [->|Hx]; [|apply Hkeys, Hx].
      apply Hs, elem_of_union_l, elem_of_singleton. reflexivity.
  - intros [_ Hrest]. apply (IH _ Hrest).
Qed.

(** X25: a crawl picked up from a checkpoint that an earlier crawl saved
    appends nothing that the earlier crawl had appended before it saved
    that checkpoint.  The checkpoint holds the seen-set the earlier crawl
    started with and the key of every item appended before the save; when
    its keys are all detail URLs, the set [main] builds from the list saved
    is the set that was saved; so no item the resumed crawl appends carries
    a key of an item appended before the save, and the lines written before
    the save followed by the lines of the resumed crawl carry pairwise
    distinct keys.  Nothing is said of the items the earlier crawl appended
    after that checkpoint. *)
Theorem X25_resumed_crawl_appends_nothing_saved_before :
  forall (later : list (list Hubei.item)) (cur : list Hubei.item) (page_index : Z)
         (seen0 : gset Hubei.key)
         (before : list Hubei.event) (n : Z) (s : gset Hubei.key) (after : list Hubei.event)
         (later' : list (list Hubei.item)) (cur' : list Hubei.item) (page_index' : Z),
    fst (Hubei.crawl later cur page_index seen0)
    = (before ++ Hubei.SaveCheckpoint n s :: after)%list ->
    (forall k, k ∈ s -> exists u, k = inl u) ->
    seen0 ⊆ s /\
    (forall x, x ∈ Hubei.appended before -> Hubei.key_of x ∈ s) /\
    HubeiMain.seen_from (List.map Hubei.key_json (elements s)) = Py.Ok s /\
    Forall (fun x => Hubei.key_of x ∉ List.map Hubei.key_of (Hubei.appended before))
           (Hubei.appended (fst (Hubei.crawl later' cur' page_index' s))) /\
    NoDup (List.map Hubei.key_of
             (Hubei.appended before
                ++ Hubei.appended (fst (Hubei.crawl later' cur' page_index' s)))).
Proof.
  intros later cur page_index seen0 before n s after later' cur' page_index' Hevs Hurls.
  pose proof (crawl_saves_hold later cur page_index seen0) as Hhold.
  rewrite Hevs in Hhold. apply saves_hold_split in Hhold as [Hseen Hkeys].
  pose proof (run_inv Hubei.key_of Hubei.key_truthy s (cur' ++ concat later') (s, [])
                (dedup_inv_init Hubei.key_of Hubei.key_truthy s)) as (_ & Hnd' & Hall').
  rewrite <- hubei_crawl_run with (idx := page_index') in Hnd', Hall'.
  assert (Hfresh : Forall (fun x => Hubei.key_of x
                                    ∉ List.map Hubei.key_of (Hubei.appended before))
                     (Hubei.appended (fst (Hubei.crawl later' cur' page_index' s)))).
  { eapply Forall_impl; [exact Hall'|]. cbn beta. intros x (_ & Hx & _) Hin.
    apply list_elem_of_fmap in Hin as (y & Hy & Hyin).
    apply Hx. rewrite Hy. apply Hkeys, Hyin. }
  split; [exact Hseen|]. split; [exact Hkeys|]. split; [|split; [exact Hfresh|]].
  - rewrite seen_from_urls.
    + f_equal. apply set_eq. intros k. rewrite elem_of_list_to_set, elem_of_elements.
      reflexivity.
    + apply Forall_forall. intros k Hk. apply Hurls, elem_of_elements, Hk.
  - rewrite List.map_app. apply NoDup_app. split; [|split; [|exact Hnd']].
    + pose proof (run_inv Hubei.key_of Hubei.key_truthy seen0 (cur ++ concat later)
                    (seen0, []) (dedup_inv_init Hubei.key_of Hubei.key_truthy seen0))
        as (_ & Hnd & _).
      rewrite <- hubei_crawl_run with (idx := page_index) in Hnd.
      rewrite Hevs, hubei_appended_app, List.map_app in Hnd.
      apply NoDup_app in Hnd as [Hnd _]. exact Hnd.
    + intros k Hk Hk'. apply list_elem_of_fmap in Hk' as (x & -> & Hx).
      rewrite Forall_forall in Hfresh. apply (Hfresh x Hx), Hk.
Qed.

Lemma X25_resumed_crawl_appends_nothing_saved_before_witness :
  (∅ : gset Hubei.key) ⊆ {[ Hubei.key_of Samples.card_linked ]} ∪ ∅ /\
  (forall x, x ∈ Hubei.appended [Hubei.AppendJsonl 1 Samples.card_linked] ->
             Hubei.key_of x ∈ ({[ Hubei.key_of Samples.card_linked ]} ∪ ∅ : gset Hubei.key)) /\
  HubeiMain.seen_from
    (List.map Hubei.key_json
       (elements ({[ Hubei.key_of Samples.card_linked ]} ∪ ∅ : gset Hubei.key)))
  = Py.Ok ({[ Hubei.key_of Samples.card_linked ]} ∪ ∅) /\
  Forall (fun x => Hubei.key_of x
                   ∉ List.map Hubei.key_of
                       (Hubei.appended [Hubei.AppendJsonl 1 Samples.card_linked]))
         (Hubei.appended
            (fst (Hubei.crawl [[Samples.card_repriced]]
                    [Samples.card_linked; Samples.card_unlinked] 2
                    ({[ Hubei.key_of Samples.card_linked ]} ∪ ∅)))) /\
  NoDup (List.map Hubei.key_of
           (Hubei.appended [Hubei.AppendJsonl 1 Samples.card_linked]
              ++ Hubei.appended
                   (fst (Hubei.crawl [[Samples.card_repriced]]
                           [Samples.card_linked; Samples.card_unlinked] 2
                           ({[ Hubei.key_of Samples.card_linked ]} ∪ ∅))))).
Proof.
  apply (X25_resumed_crawl_appends_nothing_saved_before
           [] [Samples.card_linked] 1 ∅
           [Hubei.AppendJsonl 1 Samples.card_linked] 2
           ({[ Hubei.key_of Samples.card_linked ]} ∪ ∅) []
           [[Samples.card_repriced]] [Samples.card_linked; Samples.card_unlinked] 2).
  - reflexivity.
  - intros k Hk. apply elem_of_union in Hk as [Hk|Hk].
    + apply elem_of_singleton in Hk. subst k. eexists. reflexivity.
    + apply not_elem_of_empty in Hk. contradiction.
Defined.

(** ** 数据清洗/tag.py: the label returned *)

(** X27: as long as at most 1025 attempts are allowed,
    [call_deepseek_json] returns for every behaviour of the service, and
    returns what the loop without its pauses returns.  Whatever it returns
    carries one of the ten labels: it is the result built after a failure,
    or its label is [normalize_category] of the label in the decoded reply
    of one of the calls made.  When the attempts before attempt [k] are
    tried again and the reply of attempt [k] can be used, the label
    returned is that reply's label, stripped, if that is one of the ten,
    and the fallback label if it is not.  When no call yields a usable
    reply, what is returned is the result built after a failure, which
    carries the fallback label; a reply labelled "nonexistent" gives the
    fallback label too. *)
Theorem X27_label_returned_is_the_reply_label_normalised :
  forall (L : Py.Lib) (api : Tag.service) (max_retries : nat),
    ((max_retries <= 1025)%nat ->
     TagBackoff.call_deepseek_json api max_retries
     = Py.Ok (Tag.call_deepseek_json api max_retries)) /\
    (forall c, TagBackoff.call_deepseek_json api max_retries = Py.Ok c ->
       Tag.mapped_category c ∈ Tag.TARGET_CATEGORIES /\
       ((exists e, c = Tag.fallback e) \/
        (exists n resp kvs,
           (1 <= n <= max_retries)%nat /\ api n = Py.Ok resp /\
           Tag.decoded resp = Some (Py.JObj kvs) /\
           Tag.mapped_category c
           = Tag.normalize_category
               (Py.py_str (default (Py.JStr EmptyString)
                                   (Py.assoc "mapped_category" kvs)))))) /\
    (forall k resp kvs label,
       (1 <= k <= max_retries)%nat -> (k <= 1025)%nat ->
       (forall j, (1 <= j < k)%nat -> TagMain.retried (api j)) ->
       api k = Py.Ok resp ->
       Py.strip (default EmptyString (Tag.content resp)) <> EmptyString ->
       Tag.decoded resp = Some (Py.JObj kvs) -> kvs <> [] ->
       label = Py.py_str (default (Py.JStr EmptyString) (Py.assoc "mapped_category" kvs)) ->
       exists c,
         TagBackoff.call_deepseek_json api max_retries = Py.Ok c /\
         Tag.mapped_category c = Tag.normalize_category label /\
         (Py.strip label ∈ Tag.TARGET_CATEGORIES -> Tag.mapped_category c = Py.strip label) /\
         ((Py.strip label ∉ Tag.TARGET_CATEGORIES) -> Tag.mapped_category c = Tag.FALLBACK)) /\
    ((forall n, Tag.unusable (api n)) ->
     (forall c, TagBackoff.call_deepseek_json api max_retries = Py.Ok c ->
        exists e, c = Tag.fallback e) /\
     ((max_retries <= 1025)%nat ->
      exists e, TagBackoff.call_deepseek_json api max_retries = Py.Ok (Tag.fallback e))) /\
    (forall e, Tag.mapped_category (Tag.fallback e) = Tag.FALLBACK) /\
    (exists c,
       TagBackoff.call_deepseek_json (fun _ => Py.Ok Scenario.nonexistent_reply)
         (S max_retries) = Py.Ok c /\
       Tag.mapped_category c = Tag.FALLBACK).
Proof.
  intros L api max_retries. split; [|split; [|split; [|split; [|split]]]].
  - intros Hmax. apply (backoff_loop_agrees api max_retries Hmax).
  - intros c Hc. unfold TagBackoff.call_deepseek_json in Hc.
    destruct (backoff_loop_cases api max_retries _ _ _ _ Hc) as [[e ->]|(n & Hn & Ha)].
    + split; [apply fallback_in_labels|]. left. eexists. reflexivity.
    + destruct (attempt_reads _ _ Ha) as (resp & kvs & Hr & _ & Hdec & _ & Hcat & _).
      split; [rewrite Hcat; apply normalize_category_in_labels|].
      right. exists n, resp, kvs. repeat split; try assumption; lia.
  - intros k resp kvs label Hk Hsmall Hbefore Hr Hcontent Hdec Hkvs ->.
    pose proof (attempt_usable resp kvs Hcontent Hdec Hkvs) as Ha.
    assert (Hnot : ~ TagMain.retried (api k)).
    { intros Hret. destruct (retried_attempt _ Hret) as (e & He & _).
      rewrite Hr, Ha in He. discriminate He. }
    pose proof (backoff_loop_decided api max_retries k Hk Hsmall (or_intror Hnot)
                  (k - 1) 1%nat None ltac:(lia) Hbefore) as Hrun.
    replace (max_retries + 1 - 1)%nat with max_retries in Hrun by lia.
    rewrite Hr, Ha in Hrun. eexists. split; [exact Hrun|].
    cbn [Tag.mapped_category]. split; [reflexivity|]. split.
    + intros Hin. unfold Tag.normalize_category.
      rewrite bool_decide_eq_true_2 by exact Hin. reflexivity.
    + apply normalize_category_unknown.
  - intros Hfail. split.
    + intros c Hc. unfold TagBackoff.call_deepseek_json in Hc.
      destruct (backoff_loop_cases api max_retries _ _ _ _ Hc) as [He|(n & _ & Ha)];
        [exact He|].
      destruct (attempt_unusable (api n) (Hfail n)) as [e He].
      rewrite He in Ha. discriminate Ha.
    + intros Hmax. unfold TagBackoff.call_deepseek_json.
      rewrite (backoff_loop_agrees api max_retries Hmax).
      destruct (retry_loop_all_fail api max_retries
                  (fun n => attempt_unusable (api n) (Hfail n)) max_retries 1%nat None)
        as [e ->].
      exists e. reflexivity.
  - intros e. reflexivity.
  - unfold TagBackoff.call_deepseek_json. cbn [TagBackoff.retry_loop].
    destruct (Tag.attempt (Py.Ok Scenario.nonexistent_reply)) as [c|e] eqn:Ea.
    + exists c. split; [reflexivity|].
      destruct (attempt_reads _ _ Ea) as (resp & kvs & [= <-] & _ & Hdec & _ & -> & _).
      injection Hdec as <-. vm_compute. reflexivity.
    + exfalso.
      assert (Hu : Py.strip (default EmptyString (Tag.content Scenario.nonexistent_reply))
                   <> EmptyString) by (vm_compute; discriminate).
      rewrite (attempt_usable Scenario.nonexistent_reply _ Hu eq_refl) in Ea;
        discriminate.
Qed.
